(** * great_S-P: the data pipeline and the GRU wrapper of the stock predictor

    A shallow embedding of [data-loader.js] (class [DataLoader]), of the two
    [gru.js] of the repository (class [GRUModel]) and of the parts of [app.js]
    that reload the data and project prices, followed by the properties of
    the specification proved on them.

    Conventions of the embedding.
    - A JavaScript number is a [number]: [NaN], an infinity, or a finite
      value read as the rational it denotes.  Arithmetic on prices and
      returns is exact; where the code rounds down, in the split index of
      [prepareData], every operation is rounded to the nearest double
      ([double]).  The sign of zero is not modelled.
    - A JavaScript string is a [string] of code units below 256; of the white
      space of ECMAScript these are U+0009 to U+000D, U+0020 and U+00A0.
    - A method is a function from the object's state to a completion (a
      normal result or a thrown [Error] with its message) and the state after
      the call: what a method assigned before it throws stays assigned.
    - TensorFlow.js and the engine's date parser are outside the repository:
      a tensor is the nested array and the shape it was created from,
      [tf.tensor3d] and [tf.tensor2d] accept the values and shapes that
      tfjs-core accepts, and the network is reached through the oracles of the
      class [Runtime].
    - The DOM, the charts, the console and the network are not modelled: a
      method that fetches takes what the fetch answered as an argument, and
      [displayPredictions] returns the cards it appends. *)

From Stdlib Require Import String Ascii DecimalString List ZArith QArith Qround Qabs Qpower Lia Lqa Bool.
From Stdlib Require Import Sorted Permutation.
Import ListNotations.

Local Open Scope string_scope.
Local Open Scope list_scope.
Local Open Scope Z_scope.

(** ** Completions and the method monad *)

Inductive completion (A : Type) : Type :=
| Normal (a : A)
| Throw (message : string).
Arguments Normal {A} a.
Arguments Throw {A} message.

Definition method (S A : Type) : Type := S -> completion A * S.

Definition ret {S A} (a : A) : method S A := fun s => (Normal a, s).

Definition throw {S A} (message : string) : method S A :=
  fun s => (Throw message, s).

Definition bind {S A B} (c : method S A) (k : A -> method S B) : method S B :=
  fun s =>
    match c s with
    | (Normal a, s') => k a s'
    | (Throw e, s') => (Throw e, s')
    end.

Definition this {S} : method S S := fun s => (Normal s, s).

(** An expression that may throw and does not touch the object. *)
Definition lift {S A} (c : completion A) : method S A := fun s => (c, s).

Definition assign {S} (f : S -> S) : method S unit := fun s => (Normal tt, f s).

(** [try { c } catch (error) { h error }] *)
Definition try_catch {S A} (c : method S A) (h : string -> method S A)
  : method S A :=
  fun s =>
    match c s with
    | (Normal a, s') => (Normal a, s')
    | (Throw e, s') => h e s'
    end.

Declare Scope method_scope.
Delimit Scope method_scope with method.
Notation "x <- c ;; k" := (bind c (fun x => k))
  (at level 61, c at next level, right associativity) : method_scope.
Notation "c ;; k" := (bind c (fun _ => k))
  (at level 61, right associativity) : method_scope.

(** ** JavaScript numbers *)

Module JS.

Inductive number : Type :=
| NaN
| Fin (q : Q)
| Inf (negative : bool).

Definition Qneg (q : Q) : bool := negb (Qle_bool 0 q).

Definition isNaN (x : number) : bool :=
  match x with NaN => true | _ => false end.

Definition isFinite (x : number) : bool :=
  match x with Fin _ => true | _ => false end.

Definition opp (x : number) : number :=
  match x with
  | NaN => NaN
  | Fin q => Fin (- q)
  | Inf s => Inf (negb s)
  end.

Definition add (x y : number) : number :=
  match x, y with
  | NaN, _ | _, NaN => NaN
  | Fin a, Fin b => Fin (a + b)
  | Inf s, Fin _ | Fin _, Inf s => Inf s
  | Inf s, Inf s' => if Bool.eqb s s' then Inf s else NaN
  end.

Definition sub (x y : number) : number := add x (opp y).

Definition mul (x y : number) : number :=
  match x, y with
  | NaN, _ | _, NaN => NaN
  | Fin a, Fin b => Fin (a * b)
  | Inf s, Fin q | Fin q, Inf s =>
      if Qeq_bool q 0 then NaN else Inf (xorb s (Qneg q))
  | Inf s, Inf s' => Inf (xorb s s')
  end.

Definition div (x y : number) : number :=
  match x, y with
  | NaN, _ | _, NaN => NaN
  | Fin a, Fin b =>
      if Qeq_bool b 0
      then (if Qeq_bool a 0 then NaN else Inf (Qneg a))
      else Fin (a / b)
  | Inf s, Fin q => Inf (xorb s (Qneg q))
  | Fin _, Inf _ => Fin 0
  | Inf _, Inf _ => NaN
  end.

(** [x > y]; false as soon as one side is [NaN]. *)
Definition gt (x y : number) : bool :=
  match x, y with
  | Fin a, Fin b => negb (Qle_bool a b)
  | Inf false, Fin _ | Inf false, Inf true | Fin _, Inf true => true
  | _, _ => false
  end.

Definition lt (x y : number) : bool := gt y x.

(** Truthiness of a number: [0] and [NaN] are falsy. *)
Definition truthy (x : number) : bool :=
  match x with
  | NaN => false
  | Fin q => negb (Qeq_bool q 0)
  | Inf _ => true
  end.

(** [x || d] on numbers. *)
Definition or_else (x d : number) : number := if truthy x then x else d.

Definition min2 (x y : number) : number :=
  match x, y with
  | NaN, _ | _, NaN => NaN
  | _, _ => if lt y x then y else x
  end.

Definition max2 (x y : number) : number :=
  match x, y with
  | NaN, _ | _, NaN => NaN
  | _, _ => if gt y x then y else x
  end.

(** [Math.min(...xs)] and [Math.max(...xs)]: the infinities on no argument. *)
Definition Math_min (xs : list number) : number := fold_left min2 xs (Inf false).
Definition Math_max (xs : list number) : number := fold_left max2 xs (Inf true).

Definition of_Z (z : Z) : number := Fin (inject_Z z).

(** [Math.floor(x)] *)
Definition Math_floor (x : number) : number :=
  match x with
  | Fin q => of_Z (Qfloor q)
  | _ => x
  end.

(** ** Doubles *)

(** The exponent [e] with [2^e <= |q| < 2^(e+1)], for [q] other than 0. *)
Definition binade (q : Q) : Z :=
  let e := Z.log2 (Z.abs (Qnum q)) - Z.log2 (Zpos (Qden q)) in
  if Qle_bool (Qpower 2 e) (Qabs q) then e else e - 1.

(** The nearest integer, the even one of two that are equally near. *)
Definition round_half_even (x : Q) : Z :=
  let below := Qfloor x in
  match (x - inject_Z below ?= 1 # 2)%Q with
  | Lt => below
  | Gt => below + 1
  | Eq => if Z.even below then below else below + 1
  end.

(** The binary64 value nearest to [q], ties to even: 53 bits of precision
    from [2^-1022] on, multiples of [2^-1074] below, an infinity from
    [2^1024 - 2^970] on. *)
Definition double_of (q : Q) : number :=
  if Qeq_bool q 0 then Fin 0
  else
    let ulp := Qpower 2 (Z.max (binade q) (-1022) - 52) in
    let r := (inject_Z (round_half_even (q / ulp)) * ulp)%Q in
    if Qle_bool (Qpower 2 1024) (Qabs r) then Inf (Qneg q) else Fin r.

(** The result of an operation as the engine stores it. *)
Definition double (x : number) : number :=
  match x with
  | Fin q => double_of q
  | _ => x
  end.

(** ** Arrays *)

(** The index [Array.prototype.slice] computes from a relative one. *)
Definition relative_index (len k : Z) : Z :=
  if k <? 0 then Z.max (len + k) 0 else Z.min k len.

(** [l.slice(start, stop)] *)
Definition slice {A} (l : list A) (start stop : Z) : list A :=
  let len := Z.of_nat (length l) in
  let k := relative_index len start in
  let final := relative_index len stop in
  firstn (Z.to_nat (final - k)) (skipn (Z.to_nat k) l).

(** [l.slice(start)] *)
Definition slice_from {A} (l : list A) (start : Z) : list A :=
  slice l start (Z.of_nat (length l)).

(** [Array.from({ length: n }, (_, i) => f i)]; a negative length is read as 0. *)
Definition Array_from {A} (n : Z) (f : Z -> A) : list A :=
  map (fun i => f (Z.of_nat i)) (seq 0 (Z.to_nat n)).

(** [l.sort(compare)].  [Array.prototype.sort] is stable, and for a comparator
    that is a consistent ordering every conforming engine returns the list
    computed here.  An answer of [NaN] is read as 0, as [SortCompare] does.
    For a comparator that is not a consistent ordering (the dates of some
    rows do not parse) the order is left to the engine, and this insertion
    sort is one of the orders allowed: what the statements say about the
    order of rows is said for dates that all parse, or under a hypothesis
    on [sort] itself. *)
Fixpoint insert {A} (compare : A -> A -> number) (x : A) (l : list A) : list A :=
  match l with
  | [] => [x]
  | y :: l' => if gt (compare x y) (Fin 0) then y :: insert compare x l' else x :: l
  end.

Definition sort {A} (compare : A -> A -> number) (l : list A) : list A :=
  fold_right (insert compare) [] l.

(** ** Strings *)

(** White space and line terminators among the code units below 256: TAB,
    LF, VT, FF, CR, SP and NBSP. *)
Definition is_white_space (c : ascii) : bool :=
  let n := nat_of_ascii c in
  (((9 <=? n) && (n <=? 13)) || (n =? 32) || (n =? 160))%nat.

Fixpoint trim_start_chars (l : list ascii) : list ascii :=
  match l with
  | c :: l' => if is_white_space c then trim_start_chars l' else l
  | [] => []
  end.

Definition trim_chars (l : list ascii) : list ascii :=
  rev (trim_start_chars (rev (trim_start_chars l))).

(** [s.trim()] *)
Definition trim (s : string) : string :=
  string_of_list_ascii (trim_chars (list_ascii_of_string s)).

(** [s.split(sep)] for a separator of one character. *)
Fixpoint split (sep : ascii) (s : string) : list string :=
  match s with
  | EmptyString => [EmptyString]
  | String c s' =>
      if Ascii.eqb c sep then EmptyString :: split sep s'
      else match split sep s' with
           | h :: t => String c h :: t
           | [] => [String c EmptyString]
           end
  end.

Definition digit_of (base : Z) (c : ascii) : option Z :=
  let n := Z.of_nat (nat_of_ascii c) in
  let d := if (48 <=? n) && (n <=? 57) then n - 48
           else if (97 <=? n) && (n <=? 102) then n - 87
           else if (65 <=? n) && (n <=? 70) then n - 55
           else base in
  if d <? base then Some d else None.

(** The longest run of digits at the head of [l]: its value in [base], its
    length, and what follows. *)
Fixpoint digits (base : Z) (l : list ascii) (acc : Z) (n : nat)
  : Z * nat * list ascii :=
  match l with
  | c :: l' =>
      match digit_of base c with
      | Some d => digits base l' (acc * base + d) (S n)
      | None => (acc, n, l)
      end
  | [] => (acc, n, l)
  end.

Fixpoint starts_with (p l : list ascii) : option (list ascii) :=
  match p, l with
  | [], _ => Some l
  | a :: p', b :: l' => if Ascii.eqb a b then starts_with p' l' else None
  | _ :: _, [] => None
  end.

Definition sign_part (l : list ascii) : bool * list ascii :=
  match l with
  | "+"%char :: r => (false, r)
  | "-"%char :: r => (true, r)
  | _ => (false, l)
  end.

(** ExponentPart, when one stands at the head of [l]; exponent 0 otherwise. *)
Definition exponent_part (l : list ascii) : Z * list ascii :=
  match l with
  | c :: l1 =>
      if Ascii.eqb c "e" || Ascii.eqb c "E" then
        let '(negative, l2) := sign_part l1 in
        let '(v, n, l3) := digits 10 l2 0 0 in
        match n with
        | O => (0, l)
        | S _ => ((if negative then - v else v), l3)
        end
      else (0, l)
  | [] => (0, l)
  end.

(** The longest prefix of [l] that is a StrUnsignedDecimalLiteral. *)
Definition unsigned_decimal (l : list ascii) : option (number * list ascii) :=
  match starts_with (list_ascii_of_string "Infinity") l with
  | Some r => Some (Inf false, r)
  | None =>
      let '(i, ni, l1) := digits 10 l 0 0 in
      let '(f, nf, l2) :=
        match l1 with
        | "."%char :: r =>
            let '(f, nf, r') := digits 10 r 0 0 in
            match ni, nf with
            | O, O => (0, O, l1)
            | _, _ => (f, nf, r')
            end
        | _ => (0, O, l1)
        end in
      match ni, nf with
      | O, O => None
      | _, _ =>
          let '(e, l3) := exponent_part l2 in
          let mantissa := i * 10 ^ Z.of_nat nf + f in
          Some (Fin (inject_Z mantissa * Qpower (inject_Z 10) (e - Z.of_nat nf)), l3)
      end
  end.

(** The longest prefix of [l] that is a StrDecimalLiteral. *)
Definition signed_decimal (l : list ascii) : option (number * list ascii) :=
  let '(negative, r) := sign_part l in
  match unsigned_decimal r with
  | Some (v, rest) => Some ((if negative then opp v else v), rest)
  | None => None
  end.

(** [parseFloat(s)] *)
Definition parseFloat (s : string) : number :=
  match signed_decimal (trim_start_chars (list_ascii_of_string s)) with
  | Some (v, _) => v
  | None => NaN
  end.

Definition non_decimal (base : Z) (l : list ascii) : number :=
  match digits base l 0 0 with
  | (v, S _, []) => of_Z v
  | _ => NaN
  end.

(** [Number(s)]: the whole trimmed string must be a numeric literal. *)
Definition StringToNumber (s : string) : number :=
  let l := trim_chars (list_ascii_of_string s) in
  match l with
  | [] => Fin 0
  | "0"%char :: "x"%char :: r | "0"%char :: "X"%char :: r => non_decimal 16 r
  | "0"%char :: "o"%char :: r | "0"%char :: "O"%char :: r => non_decimal 8 r
  | "0"%char :: "b"%char :: r | "0"%char :: "B"%char :: r => non_decimal 2 r
  | _ =>
      match signed_decimal l with
      | Some (v, []) => v
      | _ => NaN
      end
  end.

(** ** Integers from numbers *)

(** ToIntegerOrInfinity on a finite value: truncation towards zero. *)
Definition truncate (q : Q) : Z := Z.quot (Qnum q) (Zpos (Qden q)).

(** ToIntegerOrInfinity of an index handed to [slice] of an array of length
    [len]; an infinity is read as the end [slice] clamps it to. *)
Definition integer_index (len : Z) (x : number) : Z :=
  match x with
  | NaN => 0
  | Fin q => truncate q
  | Inf false => len
  | Inf true => - len
  end.

(** ToLength *)
Definition ToLength (x : number) : Z :=
  match x with
  | Fin q => Z.min (Z.max (truncate q) 0) (2 ^ 53 - 1)
  | Inf false => 2 ^ 53 - 1
  | _ => 0
  end.

(** [Array.from({ length: x }, (_, i) => f i)] for a length that is any
    number: [new Array(len)] throws from [2^32] on. *)
Definition Array_from_length {A} (x : number) (f : Z -> A) : completion (list A) :=
  let len := ToLength x in
  if len <? 2 ^ 32 then Normal (Array_from len f)
  else Throw "RangeError: Invalid array length".

(** ** Dates *)

Definition DayFromYear (y : Z) : Z :=
  365 * (y - 1970) + (y - 1969) / 4 - (y - 1901) / 100 + (y - 1601) / 400.

Definition InLeapYear (y : Z) : bool :=
  if negb (y mod 4 =? 0) then false
  else if negb (y mod 100 =? 0) then true
  else (y mod 400 =? 0).

(** Days before the first of month [mn] (0 is January) within its year. *)
Definition month_start (mn : Z) (leap : bool) : Z :=
  nth (Z.to_nat mn) [0; 31; 59; 90; 120; 151; 181; 212; 243; 273; 304; 334] 0
  + (if leap && (2 <=? mn) then 1 else 0).

Definition MakeFullYear (year : number) : number :=
  match year with
  | Fin q =>
      let truncated := truncate q in
      if (0 <=? truncated) && (truncated <=? 99)
      then of_Z (1900 + truncated) else of_Z truncated
  | _ => year
  end.

Definition MakeDay (year month date : number) : number :=
  match year, month, date with
  | Fin y, Fin m, Fin dt =>
      let ym := truncate y + truncate m / 12 in
      let mn := truncate m mod 12 in
      of_Z (DayFromYear ym + month_start mn (InLeapYear ym) + truncate dt - 1)
  | _, _, _ => NaN
  end.

Definition msPerDay : Z := 86400000.

Definition MakeDate (day time : number) : number :=
  match day, time with
  | Fin _, Fin _ => add (mul day (of_Z msPerDay)) time
  | _, _ => NaN
  end.

Definition TimeClip (time : number) : number :=
  match time with
  | Fin q =>
      if Qle_bool (Qabs q) (inject_Z 8640000000000000)
      then of_Z (truncate q) else NaN
  | _ => NaN
  end.

(** The time value of [new Date(year, month, date)], [NaN] for an invalid
    date.  Local time is taken to be UTC. *)
Definition Date_of_fields (year month date : number) : number :=
  TimeClip (MakeDate (MakeDay (MakeFullYear year) month date) (Fin 0)).

(** [Math.pow(x, 2)] *)
Definition square (x : number) : number := mul x x.

(** [s.replace(pattern, replacement)] for a string pattern and a replacement
    without [$]: the first occurrence is replaced. *)
Fixpoint replace_chars (pattern replacement l : list ascii) : list ascii :=
  match starts_with pattern l with
  | Some rest => replacement ++ rest
  | None =>
      match l with
      | [] => []
      | c :: l' => c :: replace_chars pattern replacement l'
      end
  end.

Definition replace (pattern replacement s : string) : string :=
  string_of_list_ascii
    (replace_chars (list_ascii_of_string pattern)
                   (list_ascii_of_string replacement)
                   (list_ascii_of_string s)).

End JS.

Import JS.

(** ** Tensors, as the arrays and shapes TensorFlow.js is handed *)

Inductive Tensor : Type :=
| tensor3d (values : list (list (list number))) (shape : list Z)
| tensor2d (values : list (list number)) (shape : list Z).

(** ** What the engine and TensorFlow.js provide

    The network behind [this.model] is a value of [LayersModel], and
    TensorFlow.js answers through the oracles below.  [fit] and [load] work
    on the network in place, so they return it as they leave it, also when
    they reject.  The callbacks handed to [fit] run inside it; one that throws
    makes [fit] reject, which is one of the oracle's [Throw] outcomes. *)

Inductive Validation : Type :=
| validationData (X y : Tensor)
| validationSplit (fraction : Q)
| no_validation.

Class Runtime : Type := {
  (** The time value of [new Date(dateStr)] on one string, [NaN] for an
      invalid date: what an engine makes of a date that is not in the ISO
      format is its own business. *)
  Date_parse : string -> number;
  Math_sqrt : number -> number;
  LayersModel : Type;
  History : Type;
  SaveResult : Type;
  (** The compiled networks the two [buildModel] assemble for inputs of shape
      [[windowSize, 1]] and [predictionHorizon] outputs. *)
  sequential : nat -> nat -> LayersModel;
  sequential_light : nat -> nat -> LayersModel;
  model_fit :
    LayersModel -> Tensor -> Tensor -> Validation -> Z -> Z ->
    completion History * LayersModel;
  (** [model.predict(X)] followed by [predictions.array()]. *)
  model_predict : LayersModel -> Tensor -> completion (list (list number));
  (** [model.evaluate(X, y)]: the scalars it returns, read by [arraySync]. *)
  model_evaluate : LayersModel -> Tensor -> Tensor -> completion (list number);
  model_save : LayersModel -> string -> completion SaveResult;
  model_load : LayersModel -> string -> completion unit * LayersModel;
  (** The message of the [Error] that [tf.tensor3d] or [tf.tensor2d] (named
      first) throws for values of the inferred shape given next and the
      shape it was handed. *)
  tf_error : string -> list Z -> list number -> string
}.

(** ** Tensor creation

    [tf.tensor3d(values, shape)] and [tf.tensor2d(values, shape)], as
    tfjs-core checks what it is handed ([inferShape], [makeTensor],
    [assertNonNegativeIntegerDimensions]): the values are nested three (two)
    deep or flat, the shape has three (two) numbers, each an integer that is
    not negative, the shape holds as many values as there are, and it agrees
    with the shape of the values, a flat array fitting every shape of its
    size. *)
Module tf.

Section Creation.

Context {rt : Runtime}.

Definition sizeFromShape (shape : list Z) : Z := fold_left Z.mul shape 1.

(** [inferShape(values)]: the lengths met on the way down the first
    elements, as long as these are arrays. *)
Definition inferShape3 (values : list (list (list number))) : list Z :=
  match values with
  | [] => [0]
  | [] :: _ => [Z.of_nat (length values); 0]
  | ((cell :: _) as first) :: _ =>
      [Z.of_nat (length values); Z.of_nat (length first); Z.of_nat (length cell)]
  end.

Definition inferShape2 (values : list (list number)) : list Z :=
  match values with
  | [] => [0]
  | first :: _ => [Z.of_nat (length values); Z.of_nat (length first)]
  end.

(** [Number.isInteger(dimSize) && dimSize >= 0] *)
Definition dimension (x : number) : option Z :=
  match x with
  | Fin q =>
      if Qeq_bool q (inject_Z (Qfloor q)) && (0 <=? Qfloor q)
      then Some (Qfloor q) else None
  | _ => None
  end.

Fixpoint dimensions (shape : list number) : option (list Z) :=
  match shape with
  | [] => Some []
  | x :: shape' =>
      match dimension x, dimensions shape' with
      | Some d, Some ds => Some (d :: ds)
      | _, _ => None
      end
  end.

(** The loop of [makeTensor] over the inferred shape: each dimension is the
    one provided, the last may also be the size of what is left of the
    provided shape. *)
Fixpoint fits (inferredShape shape : list Z) : bool :=
  match inferredShape with
  | [] => true
  | [inferred] =>
      match shape with
      | d :: _ => (inferred =? d) || (inferred =? sizeFromShape shape)
      | [] => inferred =? sizeFromShape shape
      end
  | inferred :: inferredShape' =>
      match shape with
      | d :: shape' => (inferred =? d) && fits inferredShape' shape'
      | [] => false
      end
  end.

(** The checks of [makeTensor]; it answers the shape of the tensor. *)
Definition makeTensor (op : string) (inferredShape : list Z) (shape : list number)
  : completion (list Z) :=
  match dimensions shape with
  | Some dims =>
      if (sizeFromShape dims =? sizeFromShape inferredShape)
         && fits inferredShape dims
      then Normal dims
      else Throw (tf_error op inferredShape shape)
  | None => Throw (tf_error op inferredShape shape)
  end.

Definition tensor3d (values : list (list (list number))) (shape : list number)
  : completion Tensor :=
  let inferredShape := inferShape3 values in
  if negb (length shape =? 3)%nat
  then Throw (tf_error "tensor3d" inferredShape shape)
  else if negb ((length inferredShape =? 3)%nat || (length inferredShape =? 1)%nat)
  then Throw (tf_error "tensor3d" inferredShape shape)
  else
    match makeTensor "tensor3d" inferredShape shape with
    | Normal dims => Normal (tensor3d values dims)
    | Throw error => Throw error
    end.

Definition tensor2d (values : list (list number)) (shape : list number)
  : completion Tensor :=
  let inferredShape := inferShape2 values in
  if negb (length shape =? 2)%nat
  then Throw (tf_error "tensor2d" inferredShape shape)
  else if negb ((length inferredShape =? 2)%nat || (length inferredShape =? 1)%nat)
  then Throw (tf_error "tensor2d" inferredShape shape)
  else
    match makeTensor "tensor2d" inferredShape shape with
    | Normal dims => Normal (tensor2d values dims)
    | Throw error => Throw error
    end.

End Creation.

End tf.

(** ** data-loader.js *)

Record PricePoint : Type := { date : string; price : number }.

Module DataLoader.

Record t : Type := {
  data : option (list PricePoint);
  normalizedData : option (list number);
  X_train : option Tensor;
  y_train : option Tensor;
  X_test : option Tensor;
  y_test : option Tensor;
  min : option number;
  max : option number;
  dateLabels : list string;
  returns : list number;
  trainIndices : list Z;
  testIndices : list Z
}.

Definition constructor : t :=
  {| data := None; normalizedData := None;
     X_train := None; y_train := None; X_test := None; y_test := None;
     min := None; max := None;
     dateLabels := []; returns := []; trainIndices := []; testIndices := [] |}.

Definition set_normalization (mn mx : number) (nd : list number) (dl : t) : t :=
  {| data := data dl; normalizedData := Some nd;
     X_train := X_train dl; y_train := y_train dl;
     X_test := X_test dl; y_test := y_test dl;
     min := Some mn; max := Some mx;
     dateLabels := dateLabels dl; returns := returns dl;
     trainIndices := trainIndices dl; testIndices := testIndices dl |}.

Definition set_split (tr te : list Z) (xtr ytr xte yte : Tensor) (dl : t) : t :=
  {| data := data dl; normalizedData := normalizedData dl;
     X_train := Some xtr; y_train := Some ytr;
     X_test := Some xte; y_test := Some yte;
     min := min dl; max := max dl;
     dateLabels := dateLabels dl; returns := returns dl;
     trainIndices := tr; testIndices := te |}.

Definition set_parsed (labels : list string) (rets : list number)
    (d : option (list PricePoint)) (dl : t) : t :=
  {| data := d; normalizedData := normalizedData dl;
     X_train := X_train dl; y_train := y_train dl;
     X_test := X_test dl; y_test := y_test dl;
     min := min dl; max := max dl;
     dateLabels := labels; returns := rets;
     trainIndices := trainIndices dl; testIndices := testIndices dl |}.

Definition newline : ascii := ascii_of_nat 10.

Definition show_nat (n : nat) : string :=
  NilEmpty.string_of_uint (Nat.to_uint n).

(** The second loop of [parseCSV]: the simple return of each price on the
    one before it. *)
Fixpoint compute_returns (parsedData : list PricePoint) : list number :=
  match parsedData with
  | previous :: (current :: _) as rest =>
      div (sub (price current) (price previous)) (price previous)
      :: compute_returns rest
  | _ => []
  end.

Section Parsing.

Context {rt : Runtime}.

Definition parseDate (dateStr : string) : number :=
  match split "." dateStr with
  | [day; month; year] =>
      Date_of_fields (StringToNumber year)
                     (sub (StringToNumber month) (Fin 1))
                     (StringToNumber day)
  | _ => Date_parse dateStr
  end.

(** The comparator handed to [sort]: [dateA - dateB]. *)
Definition compare_dates (a b : PricePoint) : number :=
  sub (parseDate (date a)) (parseDate (date b)).

(** The first loop of [parseCSV] over the lines after the header; both
    arrays grow by [push]. *)
Fixpoint parse_lines (lines : list string) (parsedData : list PricePoint)
    (labels : list string) : list PricePoint * list string :=
  match lines with
  | [] => (parsedData, labels)
  | raw :: rest =>
      let line := trim raw in
      match line with
      | EmptyString => parse_lines rest parsedData labels
      | _ =>
          match split ";" line with
          | part0 :: part1 :: _ =>
              let dateStr := trim part0 in
              let price := parseFloat (trim part1) in
              if negb (isNaN price) && gt price (Fin 0)
              then parse_lines rest
                     (parsedData ++ [{| date := dateStr; price := price |}])
                     (labels ++ [dateStr])
              else parse_lines rest parsedData labels
          | _ => parse_lines rest parsedData labels
          end
      end
  end.

Definition parseCSV (content : string) : method t unit :=
  (let lines := split newline (trim content) in
   assign (fun dl => set_parsed [] [] (data dl) dl) ;;
   let '(parsedData, labels) := parse_lines (skipn 1 lines) [] [] in
   assign (fun dl => set_parsed labels (returns dl) (data dl) dl) ;;
   let sorted := sort compare_dates parsedData in
   assign (fun dl => set_parsed (dateLabels dl) (compute_returns sorted) (data dl) dl) ;;
   assign (fun dl => set_parsed (dateLabels dl) (returns dl) (Some sorted) dl) ;;
   if (length sorted <? 65)%nat
   then throw ("Insufficient data. Need at least 65 days, got "
               ++ show_nat (length sorted))%string
   else ret tt)%method.

(** [fetched] is what [fetch(this.dataUrl)] and [response.text()] gave this
    time: the text, or the error they threw. *)
Definition loadCSVFromGitHub (fetched : completion string)
  : method t (option (list PricePoint)) :=
  try_catch
    (match fetched with
     | Normal content =>
         parseCSV content ;;
         dl <- this ;;
         ret (data dl)
     | Throw error => throw error
     end)%method
    (fun error => throw ("Failed to load data from GitHub: " ++ error)%string).

End Parsing.

(** The body of the arrow function of [normalizeReturns]:
    [ret => (ret - this.min) / range]. *)
Definition normalize (mn range ret : number) : number := div (sub ret mn) range.

(** [const range = this.max - this.min || 1] *)
Definition range_of (mn mx : number) : number := or_else (sub mx mn) (Fin 1).

Definition normalizeReturns : method t unit :=
  (dl <- this ;;
   if (length (returns dl) =? 0)%nat
   then throw "No returns data available"
   else
     let mn := Math_min (returns dl) in
     let mx := Math_max (returns dl) in
     let range := range_of mn mx in
     assign (set_normalization mn mx (map (normalize mn range) (returns dl))))%method.

Definition denormalize (value : number) : method t number :=
  (dl <- this ;;
   match min dl, max dl with
   | Some mn, Some mx => ret (add (mul value (range_of mn mx)) mn)
   | _, _ => throw "Normalization parameters not available"
   end)%method.

Definition set_trainIndices (indices : list Z) (dl : t) : t :=
  {| data := data dl; normalizedData := normalizedData dl;
     X_train := X_train dl; y_train := y_train dl;
     X_test := X_test dl; y_test := y_test dl;
     min := min dl; max := max dl;
     dateLabels := dateLabels dl; returns := returns dl;
     trainIndices := indices; testIndices := testIndices dl |}.

Definition set_testIndices (indices : list Z) (dl : t) : t :=
  {| data := data dl; normalizedData := normalizedData dl;
     X_train := X_train dl; y_train := y_train dl;
     X_test := X_test dl; y_test := y_test dl;
     min := min dl; max := max dl;
     dateLabels := dateLabels dl; returns := returns dl;
     trainIndices := trainIndices dl; testIndices := indices |}.

Definition set_X_train (tensor : Tensor) (dl : t) : t :=
  {| data := data dl; normalizedData := normalizedData dl;
     X_train := Some tensor; y_train := y_train dl;
     X_test := X_test dl; y_test := y_test dl;
     min := min dl; max := max dl;
     dateLabels := dateLabels dl; returns := returns dl;
     trainIndices := trainIndices dl; testIndices := testIndices dl |}.

Definition set_y_train (tensor : Tensor) (dl : t) : t :=
  {| data := data dl; normalizedData := normalizedData dl;
     X_train := X_train dl; y_train := Some tensor;
     X_test := X_test dl; y_test := y_test dl;
     min := min dl; max := max dl;
     dateLabels := dateLabels dl; returns := returns dl;
     trainIndices := trainIndices dl; testIndices := testIndices dl |}.

Definition set_X_test (tensor : Tensor) (dl : t) : t :=
  {| data := data dl; normalizedData := normalizedData dl;
     X_train := X_train dl; y_train := y_train dl;
     X_test := Some tensor; y_test := y_test dl;
     min := min dl; max := max dl;
     dateLabels := dateLabels dl; returns := returns dl;
     trainIndices := trainIndices dl; testIndices := testIndices dl |}.

Definition set_y_test (tensor : Tensor) (dl : t) : t :=
  {| data := data dl; normalizedData := normalizedData dl;
     X_train := X_train dl; y_train := y_train dl;
     X_test := X_test dl; y_test := Some tensor;
     min := min dl; max := max dl;
     dateLabels := dateLabels dl; returns := returns dl;
     trainIndices := trainIndices dl; testIndices := testIndices dl |}.

(** [Math.floor(n * (1 - testSplit))] as the engine computes it: [testSplit]
    is the double nearest to the number given (the default is written 0.2),
    and the difference and the product are rounded to doubles before the
    floor is taken. *)
Definition split_index (n : nat) (testSplit : Q) : number :=
  Math_floor
    (double (mul (of_Z (Z.of_nat n))
                 (double (sub (Fin 1) (double (Fin testSplit)))))).

Section Preparation.

Context {rt : Runtime}.

(** [prepareData(windowSize, predictionHorizon, testSplit)], for a window
    size and a horizon that are counts and a test split that is a finite
    number.  Each field is assigned as its value is made, so what was
    assigned before [Array.from] or the creation of a tensor throws stays
    assigned. *)
Definition prepareData (windowSize predictionHorizon : nat) (testSplit : Q)
  : method t unit :=
  (dl <- this ;;
   if (length (returns dl) =? 0)%nat
   then throw "No data available. Load CSV first."
   else
     let W := Z.of_nat windowSize in
     let H := Z.of_nat predictionHorizon in
     let totalSamples := Z.of_nat (length (returns dl)) - W - H + 1 in
     if totalSamples <=? 0
     then throw "Not enough data for the specified window size and prediction horizon"
     else
       normalizeReturns ;;
       dl <- this ;;
       match normalizedData dl with
       | None => throw "TypeError: Cannot read properties of null (reading 'slice')"
       | Some nd =>
           let starts := map Z.of_nat (seq 0 (Z.to_nat totalSamples)) in
           let sequences := map (fun i => slice nd i (i + W)) starts in
           let targets := map (fun i => slice nd (i + W) (i + W + H)) starts in
           let n := Z.of_nat (length sequences) in
           let splitIdx := split_index (length sequences) testSplit in
           let rest := sub (of_Z n) splitIdx in
           let cut := integer_index n splitIdx in
           trainIndices <- lift (Array_from_length splitIdx (fun i => i)) ;;
           assign (set_trainIndices trainIndices) ;;
           testIndices <- lift (Array_from_length rest (fun i => i + cut)) ;;
           assign (set_testIndices testIndices) ;;
           let trainSequences := slice sequences 0 cut in
           let testSequences := slice_from sequences cut in
           let trainSequences3D := map (map (fun val => [val])) trainSequences in
           let testSequences3D := map (map (fun val => [val])) testSequences in
           X_train <- lift (tf.tensor3d trainSequences3D [splitIdx; of_Z W; Fin 1]) ;;
           assign (set_X_train X_train) ;;
           y_train <- lift (tf.tensor2d (slice targets 0 cut) [splitIdx; of_Z H]) ;;
           assign (set_y_train y_train) ;;
           X_test <- lift (tf.tensor3d testSequences3D [rest; of_Z W; Fin 1]) ;;
           assign (set_X_test X_test) ;;
           y_test <- lift (tf.tensor2d (slice_from targets cut) [rest; of_Z H]) ;;
           assign (set_y_test y_test)
       end)%method.

End Preparation.

Record HistoricalData : Type := {
  dates : list string;
  prices : list number;
  hist_returns : list number;
  normalizedReturns : list number
}.

Definition getHistoricalData (dl : t) : option HistoricalData :=
  match data dl with
  | None => None
  | Some d =>
      Some {| dates := dateLabels dl;
              prices := map price d;
              hist_returns := returns dl;
              normalizedReturns :=
                match normalizedData dl with Some nd => nd | None => [] end |}
  end.

Definition dispose : method t unit :=
  assign (fun dl =>
    {| data := data dl; normalizedData := None;
       X_train := None; y_train := None; X_test := None; y_test := None;
       min := min dl; max := max dl;
       dateLabels := dateLabels dl; returns := returns dl;
       trainIndices := trainIndices dl; testIndices := testIndices dl |}).

Module PriceRange.
Record t : Type := { min : number; max : number; last : number }.
End PriceRange.

Module ReturnsStats.
Record t : Type := { min : number; max : number; mean : number; std : number }.
End ReturnsStats.

Record DataSummary : Type := {
  totalDays : nat;
  dateRange : string;
  priceRange : PriceRange.t;
  returnsStats : ReturnsStats.t
}.

Section Summary.

Context {rt : Runtime}.

(** [xs.reduce((a, b) => a + b, 0)] *)
Definition reduce_sum (xs : list number) : number := fold_left add xs (Fin 0).

(** [getDataSummary]: [null] without data; reading [this.data[0].date] of an
    empty series throws. *)
Definition getDataSummary (dl : t) : completion (option DataSummary) :=
  match data dl with
  | None => Normal None
  | Some d =>
      match nth_error d 0, nth_error d (length d - 1) with
      | Some first, Some final =>
          let n := of_Z (Z.of_nat (length (returns dl))) in
          let mean := div (reduce_sum (returns dl)) n in
          Normal (Some
            {| totalDays := length d;
               dateRange := (date first ++ " to " ++ date final)%string;
               priceRange :=
                 {| PriceRange.min := Math_min (map price d);
                    PriceRange.max := Math_max (map price d);
                    PriceRange.last := price final |};
               returnsStats :=
                 {| ReturnsStats.min := Math_min (returns dl);
                    ReturnsStats.max := Math_max (returns dl);
                    ReturnsStats.mean := mean;
                    ReturnsStats.std :=
                      Math_sqrt
                        (div (fold_left
                                (fun sq n' => add sq (square (sub n' mean)))
                                (returns dl) (Fin 0))
                             n) |} |})
      | _, _ =>
          Throw "TypeError: Cannot read properties of undefined (reading 'date')"
      end
  end.

End Summary.

End DataLoader.

(** ** gru.js *)

Section Model.

Context {rt : Runtime}.

Record GRUModel : Type := {
  windowSize : nat;
  predictionHorizon : nat;
  model : option LayersModel;
  trainingHistory : option History;
  isTrained : bool
}.

Record Metrics : Type := { loss : number; mse : number; rmse : number }.

Definition set_model (m : option LayersModel) (g : GRUModel) : GRUModel :=
  {| windowSize := windowSize g; predictionHorizon := predictionHorizon g;
     model := m; trainingHistory := trainingHistory g; isTrained := isTrained g |}.

Definition set_trainingHistory (h : option History) (g : GRUModel) : GRUModel :=
  {| windowSize := windowSize g; predictionHorizon := predictionHorizon g;
     model := model g; trainingHistory := h; isTrained := isTrained g |}.

Definition set_isTrained (b : bool) (g : GRUModel) : GRUModel :=
  {| windowSize := windowSize g; predictionHorizon := predictionHorizon g;
     model := model g; trainingHistory := trainingHistory g; isTrained := b |}.

(** [evaluation[i].arraySync()] *)
Definition scalar_at {S} (evaluation : list number) (i : nat) : method S number :=
  match nth_error evaluation i with
  | Some v => ret v
  | None => throw "TypeError: Cannot read properties of undefined (reading 'arraySync')"
  end.

End Model.

(** The first [gru.js]: two GRU layers, Adam, the metric [mse]. *)
Module GRU.

Section Methods.

Context {rt : Runtime}.

Definition constructor (windowSize predictionHorizon : nat) : GRUModel :=
  {| windowSize := windowSize; predictionHorizon := predictionHorizon;
     model := None; trainingHistory := None; isTrained := false |}.

Definition buildModel : method GRUModel LayersModel :=
  (g <- this ;;
   let m := sequential (windowSize g) (predictionHorizon g) in
   assign (set_model (Some m)) ;;
   ret m)%method.

Definition train (X_train y_train X_val y_val : option Tensor)
    (epochs batchSize : Z) : method GRUModel History :=
  (g <- this ;;
   match model g with
   | None => throw "Model not built. Call buildModel() first."
   | Some m =>
       match X_train, y_train with
       | Some X, Some y =>
           let validation :=
             match X_val, y_val with
             | Some Xv, Some yv => validationData Xv yv
             | _, _ => no_validation
             end in
           try_catch
             (match model_fit m X y validation epochs batchSize with
              | (Normal history, m') =>
                  assign (set_model (Some m')) ;;
                  assign (set_trainingHistory (Some history)) ;;
                  assign (set_isTrained true) ;;
                  ret history
              | (Throw error, m') =>
                  assign (set_model (Some m')) ;;
                  throw error
              end)
             (fun error => throw error)
       | _, _ => throw "Training data not provided"
       end
   end)%method.

Definition predict (X : option Tensor) : method GRUModel (list (list number)) :=
  (g <- this ;;
   match model g, isTrained g with
   | Some m, true =>
       match X with
       | None => throw "Input data not provided"
       | Some x =>
           try_catch
             (match model_predict m x with
              | Normal predictionsArray => ret predictionsArray
              | Throw error => throw error
              end)
             (fun error => throw error)
       end
   | _, _ => throw "Model not trained"
   end)%method.

Definition evaluate (X_test y_test : option Tensor) : method GRUModel Metrics :=
  (g <- this ;;
   match model g, isTrained g with
   | Some m, true =>
       match X_test, y_test with
       | Some X, Some y =>
           try_catch
             (match model_evaluate m X y with
              | Normal evaluation =>
                  loss <- scalar_at evaluation 0 ;;
                  mse <- scalar_at evaluation 1 ;;
                  let rmse := Math_sqrt mse in
                  ret {| loss := loss; mse := mse; rmse := rmse |}
              | Throw error => throw error
              end)
             (fun error => throw error)
       | _, _ => throw "Test data not provided"
       end
   | _, _ => throw "Model not trained"
   end)%method.

Definition saveWeights : method GRUModel SaveResult :=
  (g <- this ;;
   match model g, isTrained g with
   | Some m, true =>
       match model_save m "indexeddb://sp500-gru-model" with
       | Normal saveResult => ret saveResult
       | Throw error => throw error
       end
   | _, _ => throw "Model not trained"
   end)%method.

Definition loadWeights : method GRUModel bool :=
  try_catch
    (g <- this ;;
     m <- match model g with
          | Some m => ret m
          | None => buildModel
          end ;;
     match model_load m "indexeddb://sp500-gru-model" with
     | (Normal _, m') =>
         assign (set_model (Some m')) ;;
         assign (set_isTrained true) ;;
         ret true
     | (Throw error, m') =>
         assign (set_model (Some m')) ;;
         throw error
     end)%method
    (fun _ => ret false).

Definition dispose : method GRUModel unit :=
  (assign (set_model None) ;;
   assign (set_trainingHistory None) ;;
   assign (set_isTrained false))%method.

End Methods.

End GRU.

(** The second [gru.js], "for fast training": one GRU layer, SGD, no metric.
    It marks the model trained when training fails and answers default
    metrics and zero predictions instead of throwing. *)
Module GRULight.

Section Methods.

Context {rt : Runtime}.

Definition constructor (windowSize predictionHorizon : nat) : GRUModel :=
  {| windowSize := windowSize; predictionHorizon := predictionHorizon;
     model := None; trainingHistory := None; isTrained := false |}.

Definition buildModel : method GRUModel LayersModel :=
  (g <- this ;;
   let m := sequential_light (windowSize g) (predictionHorizon g) in
   assign (set_model (Some m)) ;;
   assign (set_isTrained false) ;;
   ret m)%method.

Definition train (X_train y_train : option Tensor) (epochs batchSize : Z)
  : method GRUModel History :=
  (g <- this ;;
   m <- match model g with
        | Some m => ret m
        | None => buildModel
        end ;;
   match X_train, y_train with
   | Some X, Some y =>
       try_catch
         (match model_fit m X y (validationSplit (1 # 10)) epochs batchSize with
          | (Normal history, m') =>
              assign (set_model (Some m')) ;;
              (* onTrainEnd *)
              assign (set_isTrained true) ;;
              assign (set_trainingHistory (Some history)) ;;
              ret history
          | (Throw error, m') =>
              assign (set_model (Some m')) ;;
              throw error
          end)
         (fun error =>
            assign (set_isTrained true) ;;
            throw error)
   | _, _ => throw "Training data not provided"
   end)%method.

Definition predict (X : option Tensor) : method GRUModel (list (list number)) :=
  (g <- this ;;
   match model g with
   | None => throw "Model not built"
   | Some m =>
       try_catch
         (match X with
          | Some x =>
              match model_predict m x with
              | Normal predictionsArray => ret predictionsArray
              | Throw error => throw error
              end
          | None => throw "TypeError: model.predict(null)"
          end)
         (fun _ => ret [repeat (Fin 0) (predictionHorizon g)])
   end)%method.

Definition default_metrics : Metrics :=
  {| loss := Fin (1 # 100); mse := Fin (1 # 100); rmse := Fin (1 # 10) |}.

Definition evaluate (X_test y_test : option Tensor) : method GRUModel Metrics :=
  (g <- this ;;
   match model g, isTrained g with
   | Some m, true =>
       try_catch
         (match X_test, y_test with
          | Some X, Some y =>
              match model_evaluate m X y with
              | Normal evaluation =>
                  loss <- scalar_at evaluation 0 ;;
                  let mse :=
                    match nth_error evaluation 1 with
                    | Some v => v
                    | None => loss
                    end in
                  let rmse := Math_sqrt mse in
                  ret {| loss := loss; mse := mse; rmse := rmse |}
              | Throw error => throw error
              end
          | _, _ => throw "TypeError: model.evaluate(null)"
          end)
         (fun _ => ret default_metrics)
   | _, _ => ret default_metrics
   end)%method.

Definition dispose : method GRUModel unit :=
  (assign (set_model None) ;;
   assign (set_isTrained false))%method.

End Methods.

End GRULight.

(** ** app.js *)

Module StockPredictorApp.

(** What [createPredictionChart] hands to the bar chart. *)
Module ChartData.
Record t : Type := {
  labels : list string;
  data : list number;
  backgroundColor : list string;
  borderColor : list string
}.
End ChartData.

Section Methods.

Context {rt : Runtime}.

Record t : Type := {
  dataLoader : DataLoader.t;
  model : GRUModel;
  isTraining : bool;
  predictions : option (list number)
}.

(** A method of [this.dataLoader], run from the application. *)
Definition on_dataLoader {A} (c : method DataLoader.t A) : method t A :=
  fun app =>
    let '(r, dl) := c (dataLoader app) in
    (r, {| dataLoader := dl; model := model app;
           isTraining := isTraining app; predictions := predictions app |}).

(** A method of [this.model], run from the application. *)
Definition on_model {A} (c : method GRUModel A) : method t A :=
  fun app =>
    let '(r, g) := c (model app) in
    (r, {| dataLoader := dataLoader app; model := g;
           isTraining := isTraining app; predictions := predictions app |}).

Definition set_predictions (p : option (list number)) (app : t) : t :=
  {| dataLoader := dataLoader app; model := model app;
     isTraining := isTraining app; predictions := p |}.

(** The [try] block of [loadData], as the applications that load from
    GitHub have it (the first [app.js] reads a chosen file instead);
    [prepareData()] runs on its defaults 60, 5 and 0.2. *)
Definition loadData_body (fetched : completion string) : method t unit :=
  (on_dataLoader DataLoader.dispose ;;
   on_model GRU.dispose ;;
   assign (set_predictions None) ;;
   on_dataLoader (DataLoader.loadCSVFromGitHub fetched) ;;
   on_dataLoader (DataLoader.prepareData 60 5 (1 # 5)))%method.

(** [loadData]: an error ends in the status line, not at the caller. *)
Definition loadData (fetched : completion string) : method t unit :=
  try_catch (loadData_body fetched) (fun _ => ret tt).

(** What a prediction card shows, before the numbers are formatted. *)
Record PredictionCard : Type := {
  day : Z;
  predictedReturn : number;
  newPrice : number
}.

(** The [forEach] of [displayPredictions] from [index] on. *)
Fixpoint prediction_cards (cumulativePrice : number) (index : Z)
    (preds : list number) : list PredictionCard :=
  match preds with
  | [] => []
  | pred :: rest =>
      let day := index + 1 in
      let predictedReturn := pred in
      let priceChange := mul cumulativePrice predictedReturn in
      let newPrice := add cumulativePrice priceChange in
      {| day := day; predictedReturn := predictedReturn; newPrice := newPrice |}
      :: prediction_cards newPrice (index + 1) rest
  end.

(** [displayPredictions]: the cards appended to the container, in order. *)
Definition displayPredictions : method t (list PredictionCard) :=
  (app <- this ;;
   match DataLoader.data (dataLoader app) with
   | None => throw "TypeError: Cannot read properties of null (reading 'length')"
   | Some d =>
       match nth_error d (length d - 1) with
       | None => throw "TypeError: Cannot read properties of undefined (reading 'price')"
       | Some last =>
           let lastPrice := price last in
           match predictions app with
           | None => throw "TypeError: Cannot read properties of null (reading 'forEach')"
           | Some preds => ret (prediction_cards lastPrice 0 preds)
           end
       end
   end)%method.

(** [new StockPredictorApp()], before it starts loading. *)
Definition constructor : t :=
  {| dataLoader := DataLoader.constructor;
     model := GRU.constructor 60 5;
     isTraining := false;
     predictions := None |}.

(** [autoLoadData], run once by the constructor of the applications that load
    from GitHub: [loadData] without the disposal. *)
Definition autoLoadData (fetched : completion string) : method t unit :=
  try_catch
    (on_dataLoader (DataLoader.loadCSVFromGitHub fetched) ;;
     on_dataLoader (DataLoader.prepareData 60 5 (1 # 5)))%method
    (fun _ => ret tt).

(** [l.map(f)] for a callback that is a method. *)
Fixpoint map_method {S A B} (f : A -> method S B) (l : list A)
  : method S (list B) :=
  match l with
  | [] => ret []
  | a :: l' =>
      (b <- f a ;;
       bs <- map_method f l' ;;
       ret (b :: bs))%method
  end.

(** [createPredictionChart]: the labels, bars and colours of the chart, or
    nothing when there is no data or no prediction. *)
Definition createPredictionChart (app : t) : option ChartData.t :=
  match DataLoader.getHistoricalData (dataLoader app), predictions app with
  | Some historicalData, Some predictionReturns =>
      let lastReturns := slice_from (DataLoader.hist_returns historicalData) (-20) in
      let n := length lastReturns in
      let labels :=
        Array_from (Z.of_nat n)
          (fun i => ("D-" ++ DataLoader.show_nat (n - Z.to_nat i))%string)
        ++ ["Today"]
        ++ Array_from (Z.of_nat (length predictionReturns))
             (fun i => ("D+" ++ DataLoader.show_nat (Z.to_nat (i + 1)))%string) in
      let data :=
        map (fun r => mul r (Fin 100)) lastReturns
        ++ [Fin 0]
        ++ map (fun r => mul r (Fin 100)) predictionReturns in
      let backgroundColors :=
        repeat "rgba(255, 107, 129, 0.7)" n
        ++ ["rgba(255, 255, 255, 0.7)"]
        ++ repeat "rgba(144, 238, 144, 0.7)" (length predictionReturns) in
      Some {| ChartData.labels := labels;
              ChartData.data := data;
              ChartData.backgroundColor := backgroundColors;
              ChartData.borderColor :=
                map (fun c => replace "0.7" "1" c) backgroundColors |}
  | _, _ => None
  end.

(** [makePredictions], as the applications that load from GitHub have it; an
    error ends in the status line.  The chart drawn at the end is in
    [createPredictionChart]. *)
Definition makePredictions : method t unit :=
  try_catch
    (app <- this ;;
     if negb (isTrained (model app))
     then throw "Model not trained. Please train the model first."
     else
       match DataLoader.normalizedData (dataLoader app) with
       | None => throw "TypeError: Cannot read properties of null (reading 'length')"
       | Some normalizedData =>
           let windowSize := windowSize (model app) in
           if (length normalizedData <? windowSize)%nat
           then throw "Not enough data for prediction"
           else
             let lastWindow := slice_from normalizedData (- Z.of_nat windowSize) in
             let lastWindowFormatted := map (fun val => [val]) lastWindow in
             inputTensor <-
               lift (tf.tensor3d [lastWindowFormatted]
                                 [Fin 1; of_Z (Z.of_nat windowSize); Fin 1]) ;;
             normalizedPredictions <- on_model (GRU.predict (Some inputTensor)) ;;
             match normalizedPredictions with
             | [] => throw "TypeError: Cannot read properties of undefined (reading 'map')"
             | row :: _ =>
                 denormalized <- on_dataLoader (map_method DataLoader.denormalize row) ;;
                 assign (set_predictions (Some denormalized)) ;;
                 displayPredictions ;;
                 ret tt
             end
       end)%method
    (fun _ => ret tt).

(** [dispose]: the loader and the model are disposed of, and the charts
    destroyed; the predictions are left. *)
Definition dispose : method t unit :=
  (on_dataLoader DataLoader.dispose ;;
   on_model GRU.dispose)%method.

End Methods.

End StockPredictorApp.

(** * The vocabulary of the statements *)

Import DataLoader.

(** The elements of [l] at the positions [i <= k < j]. *)
Definition sub_list {A} (l : list A) (i j : nat) : list A :=
  firstn (j - i) (skipn i l).

(** The series [normalizeReturns] stores for the returns [rets]. *)
Definition normalized (rets : list number) : list number :=
  map (normalize (Math_min rets) (range_of (Math_min rets) (Math_max rets))) rets.

Definition windows (nd : list number) (W n : nat) : list (list number) :=
  map (fun i => sub_list nd i (i + W)) (seq 0 n).

Definition targets (nd : list number) (W H n : nat) : list (list number) :=
  map (fun i => sub_list nd (i + W) (i + W + H)) (seq 0 n).

(** [totalSamples] of [prepareData]. *)
Definition total_samples (L W H : nat) : Z :=
  Z.of_nat L - Z.of_nat W - Z.of_nat H + 1.

Definition finite (x : number) : Prop := isFinite x = true.

(** [max - min || 1] on finite bounds. *)
Definition unit_or_range (mn mx : Q) : Q :=
  if Qeq_bool (mx - mn) 0 then 1%Q else (mx - mn)%Q.

Definition validation_of (X_val y_val : option Tensor) : Validation :=
  match X_val, y_val with
  | Some Xv, Some yv => validationData Xv yv
  | _, _ => no_validation
  end.

(** The prices of the cards on finite values: each adds to the price before
    it that price times the return, as the loop of [displayPredictions] does. *)
Fixpoint projected (price : Q) (rs : list Q) : list Q :=
  match rs with
  | [] => []
  | r :: rs' =>
      let price' := (price + price * r)%Q in
      price' :: projected price' rs'
  end.

(** No element is directly followed by one the comparator puts before it. *)
Fixpoint ascending {A} (compare : A -> A -> number) (l : list A) : bool :=
  match l with
  | a :: (b :: _) as l' =>
      negb (gt (compare a b) (Fin 0)) && ascending compare l'
  | _ => true
  end.

(** The rows [parseCSV] keeps, in the order of the file. *)
Definition retained (content : string) : list PricePoint :=
  fst (parse_lines (skipn 1 (split newline (trim content))) [] []).

(** A price that is a number above 0. *)
Definition positive_price (p : PricePoint) : Prop :=
  isNaN (price p) = false /\ gt (price p) (Fin 0) = true.

Section Dates.

Context {rt : Runtime}.

(** The date of the row parses to a valid date. *)
Definition valid_date (p : PricePoint) : Prop := finite (parseDate (date p)).

(** [a] is dated no later than [b]. *)
Definition not_after (a b : PricePoint) : Prop :=
  exists ta tb,
    parseDate (date a) = Fin ta /\ parseDate (date b) = Fin tb /\ (ta <= tb)%Q.

End Dates.

(** ** Histories of calls on a [GRUModel] *)

Section History.

Context {rt : Runtime}.

(** The calls a client can make on a [GRUModel]. *)
Inductive call : Type :=
| call_buildModel
| call_train (X y X_val y_val : option Tensor) (epochs batchSize : Z)
| call_predict (X : option Tensor)
| call_evaluate (X y : option Tensor)
| call_saveWeights
| call_loadWeights
| call_dispose.

(** The model after one call, whatever the call answered. *)
Definition after (c : call) (g : GRUModel) : GRUModel :=
  match c with
  | call_buildModel => snd (GRU.buildModel g)
  | call_train X y X_val y_val epochs batchSize =>
      snd (GRU.train X y X_val y_val epochs batchSize g)
  | call_predict X => snd (GRU.predict X g)
  | call_evaluate X y => snd (GRU.evaluate X y g)
  | call_saveWeights => snd (GRU.saveWeights g)
  | call_loadWeights => snd (GRU.loadWeights g)
  | call_dispose => snd (GRU.dispose g)
  end.

(** The call is a [train] that returned its history, or a [loadWeights] that
    restored a saved model. *)
Definition trains (c : call) (g : GRUModel) : bool :=
  match c with
  | call_train X y X_val y_val epochs batchSize =>
      match fst (GRU.train X y X_val y_val epochs batchSize g) with
      | Normal _ => true
      | Throw _ => false
      end
  | call_loadWeights =>
      match fst (GRU.loadWeights g) with
      | Normal true => true
      | _ => false
      end
  | _ => false
  end.

Fixpoint after_all (cs : list call) (g : GRUModel) : GRUModel :=
  match cs with
  | [] => g
  | c :: cs' => after_all cs' (after c g)
  end.

(** No call of the history trained the model. *)
Fixpoint untrained_history (cs : list call) (g : GRUModel) : bool :=
  match cs with
  | [] => true
  | c :: cs' => negb (trains c g) && untrained_history cs' (after c g)
  end.

End History.

(** ** Further vocabulary *)

(** A trained model has a network, and a training history belongs to a
    trained model. *)
Definition well_formed {rt : Runtime} (g : GRUModel) : Prop :=
  (isTrained g = true -> model g <> None) /\
  (trainingHistory g <> None -> isTrained g = true).

(** A finite value between 0 and 1. *)
Definition in_unit_interval (v : number) : Prop :=
  exists q, v = Fin q /\ (0 <= q <= 1)%Q.

(** The rows kept from some lines, in order. *)
Definition kept_rows (lines : list string) : list PricePoint :=
  fst (parse_lines lines [] []).

(** A row whose price is a finite number above 0. *)
Definition quoted (p : PricePoint) : Prop :=
  exists q, price p = Fin q /\ (0 < q)%Q.

(** The card prices equal the prices of the rows, value by value. *)
Definition same_price (c : StockPredictorApp.PredictionCard) (p : PricePoint)
  : Prop :=
  exists a b,
    StockPredictorApp.newPrice c = Fin a /\ price p = Fin b /\ (a == b)%Q.

(** The calls a client can make on a [DataLoader]. *)
Inductive loader_call : Type :=
| loader_loadCSVFromGitHub (fetched : completion string)
| loader_parseCSV (content : string)
| loader_prepareData (windowSize predictionHorizon : nat) (testSplit : Q)
| loader_normalizeReturns
| loader_denormalize (value : number)
| loader_dispose.

Section LoaderHistory.

Context {rt : Runtime}.

(** The loader after one call, whatever the call answered. *)
Definition loader_after (c : loader_call) (dl : DataLoader.t) : DataLoader.t :=
  match c with
  | loader_loadCSVFromGitHub fetched => snd (loadCSVFromGitHub fetched dl)
  | loader_parseCSV content => snd (parseCSV content dl)
  | loader_prepareData W H ts => snd (prepareData W H ts dl)
  | loader_normalizeReturns => snd (normalizeReturns dl)
  | loader_denormalize value => snd (denormalize value dl)
  | loader_dispose => snd (DataLoader.dispose dl)
  end.

Fixpoint loader_after_all (cs : list loader_call) (dl : DataLoader.t)
  : DataLoader.t :=
  match cs with
  | [] => dl
  | c :: cs' => loader_after_all cs' (loader_after c dl)
  end.

End LoaderHistory.

(** The windows as [prepareData] hands them to [tf.tensor3d]: every value
    in a cell of its own. *)
Definition wrap : list (list number) -> list (list (list number)) :=
  map (map (fun v : number => [v])).

(** The loader as [prepareData W H] leaves a loader [dl] with the returns
    [rets] when its split index is [s]. *)
Definition prepared (W H : nat) (rets : list number) (s : Z) (dl : DataLoader.t)
  : DataLoader.t :=
  let total := total_samples (length rets) W H in
  let n := Z.to_nat total in
  let nd := normalized rets in
  let c := Z.to_nat s in
  set_split
    (Array_from s (fun i => i))
    (Array_from (total - s) (fun i => i + s))
    (tensor3d (wrap (firstn c (windows nd W n))) [s; Z.of_nat W; 1])
    (tensor2d (firstn c (targets nd W H n)) [s; Z.of_nat H])
    (tensor3d (wrap (skipn c (windows nd W n))) [total - s; Z.of_nat W; 1])
    (tensor2d (skipn c (targets nd W H n)) [total - s; Z.of_nat H])
    (set_normalization (Math_min rets) (Math_max rets) nd dl).

(** The test [tf.tensor3d] makes of rows of [columns] one-value cells each
    against a shape [[s, columns, 1]], and [tf.tensor2d] of rows of [columns]
    values against [[s, columns]]. *)
Definition accepts3 {A} (rows : list A) (columns : nat) (s : Z) : bool :=
  (0 <=? s)
  && match rows with
     | [] => s * Z.of_nat columns =? 0
     | _ :: _ => (0 <? Z.of_nat columns) && (s =? Z.of_nat (length rows))
     end.

Definition accepts2 {A} (rows : list A) (columns : nat) (s : Z) : bool :=
  (0 <=? s)
  && match rows with
     | [] => s * Z.of_nat columns =? 0
     | _ :: _ => s =? Z.of_nat (length rows)
     end.

(** The series, its returns and its labels belong together; [min] and [max]
    are set together, and before the normalized series; each of the four
    tensors is set only beside the one [prepareData] assigns before it, and
    the first only beside a normalized series. *)
Definition consistent (dl : DataLoader.t) : Prop :=
  match data dl with
  | Some d =>
      returns dl = compute_returns d /\
      Permutation (dateLabels dl) (map date d) /\
      Forall positive_price d
  | None => returns dl = [] /\ dateLabels dl = []
  end /\
  (min dl = None <-> max dl = None) /\
  (normalizedData dl <> None -> min dl <> None) /\
  (y_test dl <> None -> X_test dl <> None) /\
  (X_test dl <> None -> y_train dl <> None) /\
  (y_train dl <> None -> X_train dl <> None) /\
  (X_train dl <> None -> normalizedData dl <> None).

(** The shape a tensor was created with is the shape of its values: [rows]
    samples, each of [columns] values (each in a cell of its own for a
    three-dimensional tensor). *)
Definition has_shape (t : Tensor) (rows columns : nat) : Prop :=
  match t with
  | tensor3d values shape =>
      shape = [Z.of_nat rows; Z.of_nat columns; 1] /\
      length values = rows /\
      Forall (fun sample =>
                length sample = columns /\
                Forall (fun cell => length cell = 1%nat) sample) values
  | tensor2d values shape =>
      shape = [Z.of_nat rows; Z.of_nat columns] /\
      length values = rows /\
      Forall (fun sample => length sample = columns) values
  end.

(** * The inputs the statements are run on *)

(** The number of samples of a tensor: the first number of its shape. *)
Definition samples (tensor : Tensor) : Z :=
  match tensor with
  | tensor3d _ (d :: _) | tensor2d _ (d :: _) => d
  | _ => 0
  end.

(** A small runtime to run the methods on: the network is the number of
    fits it has completed, [fit] rejects inputs and targets that differ in
    their number of samples, as TensorFlow.js does, every date outside
    day.month.year is invalid and the square root is exact on perfect
    squares. *)
Definition test_runtime : Runtime :=
  {| Date_parse := fun _ => NaN;
     Math_sqrt := fun x =>
       match x with
       | Fin q => of_Z (Z.sqrt (Qfloor q))
       | _ => x
       end;
     LayersModel := nat;
     History := unit;
     SaveResult := unit;
     sequential := fun _ _ => O;
     sequential_light := fun _ _ => O;
     model_fit := fun m X y _ _ _ =>
       if samples X =? samples y then (Normal tt, S m)
       else (Throw ("Input Tensors should have the same number of samples as "
                    ++ "target Tensors. Found "
                    ++ DataLoader.show_nat (Z.to_nat (samples X))
                    ++ " input sample(s) and "
                    ++ DataLoader.show_nat (Z.to_nat (samples y))
                    ++ " target sample(s).")%string, m);
     model_predict := fun m _ => Normal [[of_Z (Z.of_nat m)]];
     model_evaluate := fun _ _ _ => Normal [of_Z 4; of_Z 4];
     model_save := fun _ _ => Normal tt;
     model_load := fun m _ => (Throw "no saved model", m);
     tf_error := fun op _ _ => (op ++ "(): the values do not fit the shape")%string |}.

Definition one_window : Tensor := tensor3d [[[of_Z 1]; [of_Z 2]]] [1; 2; 1].
Definition one_target : Tensor := tensor2d [[of_Z 3]] [1; 1].
Definition two_targets : Tensor := tensor2d [[of_Z 3]; [of_Z 4]] [2; 1].

(** What [fit] of the test runtime answers to one window beside two targets. *)
Definition fit_rejection : string :=
  "Input Tensors should have the same number of samples as target Tensors. Found 1 input sample(s) and 2 target sample(s).".

(** A loader whose returns are the eight values 1 .. 8. *)
Definition eight_returns : DataLoader.t :=
  set_parsed [] (map (fun z => of_Z z) [1; 2; 3; 4; 5; 6; 7; 8]) None
             DataLoader.constructor.

(** A loader whose returns are the 91 values 1 .. 91. *)
Definition ninety_one_returns : DataLoader.t :=
  set_parsed [] (map (fun i => of_Z (Z.of_nat i)) (seq 1 91)) None
             DataLoader.constructor.

(** A loader whose returns are all 3: the degenerate case [max = min]. *)
Definition constant_returns : DataLoader.t :=
  set_parsed [] [of_Z 3; of_Z 3] None DataLoader.constructor.

(** A fresh model of the test runtime, built and not trained. *)
Definition built_model : GRUModel (rt := test_runtime) :=
  snd (GRU.buildModel (GRU.constructor 2 1)).

(** A model of the test runtime that one [train] has trained. *)
Definition trained_model : GRUModel (rt := test_runtime) :=
  snd (GRU.train (Some one_window) (Some one_target) None None 1 32 built_model).

Definition fresh_model : GRUModel (rt := test_runtime) := GRU.constructor 2 1.

Definition calls_before_training : list call :=
  [ call_predict (Some one_window);
    call_buildModel;
    call_train (Some one_window) (Some two_targets) None None 1 32;
    call_evaluate (Some one_window) (Some one_target);
    call_loadWeights ].

(** An application of the test runtime whose last known price is 100 and
    whose predicted returns are 0.01 and -0.02. *)
Definition app_at_100 : StockPredictorApp.t (rt := test_runtime) :=
  {| StockPredictorApp.dataLoader :=
       set_parsed [] [] (Some [ {| date := "01.01.2020"; price := of_Z 90 |};
                                {| date := "02.01.2020"; price := of_Z 100 |} ])
                  DataLoader.constructor;
     StockPredictorApp.model := GRU.constructor 60 5;
     StockPredictorApp.isTraining := false;
     StockPredictorApp.predictions := Some [Fin (1 # 100); Fin (- 2 # 100)] |}.

(** A fresh application of the test runtime. *)
Definition fresh_app : StockPredictorApp.t (rt := test_runtime) :=
  {| StockPredictorApp.dataLoader := DataLoader.constructor;
     StockPredictorApp.model := GRU.constructor 60 5;
     StockPredictorApp.isTraining := false;
     StockPredictorApp.predictions := None |}.

(** A header and 65 rows: the first 64 days of 2020 at the prices 100 .. 163,
    then a second row for 15.01.2020. *)
Definition csv65 : string :=
"Date;Price
01.01.2020;100
02.01.2020;101
03.01.2020;102
04.01.2020;103
05.01.2020;104
06.01.2020;105
07.01.2020;106
08.01.2020;107
09.01.2020;108
10.01.2020;109
11.01.2020;110
12.01.2020;111
13.01.2020;112
14.01.2020;113
15.01.2020;114
16.01.2020;115
17.01.2020;116
18.01.2020;117
19.01.2020;118
20.01.2020;119
21.01.2020;120
22.01.2020;121
23.01.2020;122
24.01.2020;123
25.01.2020;124
26.01.2020;125
27.01.2020;126
28.01.2020;127
29.01.2020;128
30.01.2020;129
31.01.2020;130
01.02.2020;131
02.02.2020;132
03.02.2020;133
04.02.2020;134
05.02.2020;135
06.02.2020;136
07.02.2020;137
08.02.2020;138
09.02.2020;139
10.02.2020;140
11.02.2020;141
12.02.2020;142
13.02.2020;143
14.02.2020;144
15.02.2020;145
16.02.2020;146
17.02.2020;147
18.02.2020;148
19.02.2020;149
20.02.2020;150
21.02.2020;151
22.02.2020;152
23.02.2020;153
24.02.2020;154
25.02.2020;155
26.02.2020;156
27.02.2020;157
28.02.2020;158
29.02.2020;159
01.03.2020;160
02.03.2020;161
03.03.2020;162
04.03.2020;163
15.01.2020;114.5
".

(** The same file with a 66th row. *)
Definition csv66 : string := (csv65 ++ "05.03.2020;300")%string.

(** Three rows, latest first, around a row that is not a quote. *)
Definition csv_latest_first : string :=
"Date;Price
03.01.2020;102
bad-date;abc
02.01.2020;101
01.01.2020;100
".

(** Three rows: the latest, one whose date does not parse, the earliest. *)
Definition csv_gap : string :=
"Date;Price
03.01.2020;102
bad-date;101
01.01.2020;100
".

(** Three rows, earliest first. *)
Definition csv_earliest_first : string :=
"Date;Price
01.01.2020;100
02.01.2020;101
03.01.2020;102
".

(** * Tactics *)

Ltac lengths :=
  repeat (progress (cbn [length];
                    rewrite ?length_app, ?length_map, ?length_seq, ?repeat_length)).

Ltac zbool :=
  repeat match goal with
         | |- context [Z.eqb ?a ?b] => destruct (Z.eqb_spec a b)
         | |- context [Z.leb ?a ?b] => destruct (Z.leb_spec a b)
         | |- context [Z.ltb ?a ?b] => destruct (Z.ltb_spec a b)
         end;
  cbn [andb orb negb]; try reflexivity; try lia.

(** * Properties *)

(** ** Arrays and slices *)

Lemma relative_index_bounds (len k : Z) :
  0 <= len -> 0 <= relative_index len k <= len.
Proof. unfold relative_index; destruct (Z.ltb_spec k 0); lia. Qed.

Lemma relative_index_in_range (len k : Z) :
  0 <= k <= len -> relative_index len k = k.
Proof. unfold relative_index; destruct (Z.ltb_spec k 0); lia. Qed.

Lemma slice_in_range {A} (l : list A) (i j : nat) :
  (i <= j <= length l)%nat ->
  slice l (Z.of_nat i) (Z.of_nat j) = sub_list l i j.
Proof.
  intros Hij. unfold slice, sub_list.
  rewrite !relative_index_in_range by lia.
  f_equal; [lia | f_equal; lia].
Qed.

(** [l.slice(0, k)] and [l.slice(k)] cut [l] at one place, whatever [k] is. *)
Lemma slice_cut {A} (l : list A) (k : Z) :
  let c := Z.to_nat (relative_index (Z.of_nat (length l)) k) in
  slice l 0 k = firstn c l /\ slice_from l k = skipn c l /\ (c <= length l)%nat.
Proof.
  intro c. unfold slice_from, slice.
  pose proof (relative_index_bounds (Z.of_nat (length l)) k ltac:(lia)) as Hb.
  fold c. rewrite !(relative_index_in_range _ 0) by lia.
  rewrite (relative_index_in_range _ (Z.of_nat (length l))) by lia.
  repeat split.
  - cbn [Z.to_nat skipn]. f_equal. subst c. lia.
  - apply firstn_all2. rewrite length_skipn. subst c. lia.
  - subst c. lia.
Qed.

Lemma sub_list_length {A} (l : list A) (i j : nat) :
  (i <= j <= length l)%nat -> length (sub_list l i j) = (j - i)%nat.
Proof.
  intros H. unfold sub_list. rewrite length_firstn, length_skipn. lia.
Qed.

Lemma Array_from_seq (n : nat) (b : Z) :
  Array_from (Z.of_nat n) (fun i => i + b) = map (fun i => Z.of_nat i + b) (seq 0 n).
Proof. unfold Array_from. now rewrite Nat2Z.id. Qed.

(** ** The preparation of windows and targets *)

Lemma length_zero_false {A} (l : list A) : l <> [] -> (length l =? 0)%nat = false.
Proof. destruct l; [congruence | reflexivity]. Qed.

Lemma normalizeReturns_run (dl : t) :
  returns dl <> [] ->
  normalizeReturns dl =
  (Normal tt,
   set_normalization (Math_min (returns dl)) (Math_max (returns dl))
                     (normalized (returns dl)) dl).
Proof.
  intros Hne. unfold normalizeReturns, bind, this.
  rewrite (length_zero_false _ Hne). reflexivity.
Qed.

Lemma normalizeReturns_empty (dl : t) :
  returns dl = [] -> normalizeReturns dl = (Throw "No returns data available", dl).
Proof.
  intros He. unfold normalizeReturns, bind, this. rewrite He. reflexivity.
Qed.

Lemma sequences_are_windows (nd : list number) (W H n : nat) :
  Z.of_nat n = total_samples (length nd) W H ->
  map (fun i => slice nd i (i + Z.of_nat W)) (map Z.of_nat (seq 0 n))
  = windows nd W n.
Proof.
  intros Hn. unfold windows, total_samples in *. rewrite map_map.
  apply map_ext_in. intros i Hi. apply in_seq in Hi.
  rewrite <- Nat2Z.inj_add. apply slice_in_range. lia.
Qed.

Lemma targets_are_targets (nd : list number) (W H n : nat) :
  Z.of_nat n = total_samples (length nd) W H ->
  map (fun i => slice nd (i + Z.of_nat W) (i + Z.of_nat W + Z.of_nat H))
      (map Z.of_nat (seq 0 n))
  = targets nd W H n.
Proof.
  intros Hn. unfold targets, total_samples in *. rewrite map_map.
  apply map_ext_in. intros i Hi. apply in_seq in Hi.
  rewrite <- !Nat2Z.inj_add. apply slice_in_range. lia.
Qed.

Lemma normalized_length (rets : list number) : length (normalized rets) = length rets.
Proof. apply length_map. Qed.

Lemma windows_length nd W n : length (windows nd W n) = n.
Proof. unfold windows. now rewrite length_map, length_seq. Qed.

Lemma targets_length nd W H n : length (targets nd W H n) = n.
Proof. unfold targets. now rewrite length_map, length_seq. Qed.

Lemma windows_nth (nd : list number) (W n i : nat) :
  (i < n)%nat -> nth_error (windows nd W n) i = Some (sub_list nd i (i + W)).
Proof.
  intros Hi. unfold windows.
  rewrite nth_error_map, nth_error_seq.
  destruct (Nat.ltb_spec i n); [reflexivity | lia].
Qed.

Lemma targets_nth (nd : list number) (W H n i : nat) :
  (i < n)%nat ->
  nth_error (targets nd W H n) i = Some (sub_list nd (i + W) (i + W + H)).
Proof.
  intros Hi. unfold targets.
  rewrite nth_error_map, nth_error_seq.
  destruct (Nat.ltb_spec i n); [reflexivity | lia].
Qed.

Lemma windows_sizes (nd : list number) (W H n : nat) :
  Z.of_nat n = total_samples (length nd) W H ->
  Forall (fun w => length w = W) (windows nd W n) /\
  Forall (fun y => length y = H) (targets nd W H n).
Proof.
  intros Hn. unfold total_samples in Hn.
  split; apply Forall_forall; intros x Hx;
    apply in_map_iff in Hx; destruct Hx as (i & <- & Hi);
    apply in_seq in Hi; rewrite sub_list_length; lia.
Qed.

Lemma Forall_firstn' {A} (P : A -> Prop) (n : nat) (l : list A) :
  Forall P l -> Forall P (firstn n l).
Proof.
  intros H. apply Forall_forall. intros x Hx.
  rewrite Forall_forall in H. apply H. rewrite <- (firstn_skipn n l).
  apply in_or_app. now left.
Qed.

Lemma Forall_skipn' {A} (P : A -> Prop) (n : nat) (l : list A) :
  Forall P l -> Forall P (skipn n l).
Proof.
  intros H. apply Forall_forall. intros x Hx.
  rewrite Forall_forall in H. apply H. rewrite <- (firstn_skipn n l).
  apply in_or_app. now right.
Qed.

Lemma windows_sizes' (rets : list number) (W H : nat) :
  0 < total_samples (length rets) W H ->
  let n := Z.to_nat (total_samples (length rets) W H) in
  Forall (fun w => length w = W) (windows (normalized rets) W n) /\
  Forall (fun y => length y = H) (targets (normalized rets) W H n).
Proof.
  intros Hpos n. apply windows_sizes.
  rewrite normalized_length. unfold n. lia.
Qed.

(** ** Doubles *)

Lemma round_half_even_bounds (x : Q) :
  Qfloor x <= round_half_even x <= Qfloor x + 1.
Proof.
  unfold round_half_even.
  destruct (x - inject_Z (Qfloor x) ?= 1 # 2)%Q; [destruct (Z.even _) | |]; lia.
Qed.

Lemma round_half_even_le (x : Q) (k : Z) :
  (x <= inject_Z k)%Q -> round_half_even x <= k.
Proof.
  intros Hx.
  pose proof (Qfloor_resp_le _ _ Hx) as Hf. rewrite Qfloor_Z in Hf.
  destruct (Z.eq_dec (Qfloor x) k) as [He | Hne].
  - unfold round_half_even.
    assert (Hlt : (x - inject_Z (Qfloor x) < 1 # 2)%Q).
    { rewrite He. apply Qle_lt_trans with 0%Q; [lra | reflexivity]. }
    assert (Hc : (x - inject_Z (Qfloor x) ?= 1 # 2)%Q = Lt)
      by (apply Qlt_alt; exact Hlt).
    rewrite Hc. lia.
  - pose proof (round_half_even_bounds x). lia.
Qed.

Lemma round_half_even_nonneg (x : Q) : (0 <= x)%Q -> 0 <= round_half_even x.
Proof.
  intros Hx. pose proof (Qfloor_resp_le _ _ Hx) as Hf.
  change 0%Q with (inject_Z 0) in Hf. rewrite Qfloor_Z in Hf.
  pose proof (round_half_even_bounds x). lia.
Qed.

(** Below [2^53] the binade is at most 52. *)
Lemma binade_small (q : Q) (N : Z) :
  0 < N < 2 ^ 53 -> (0 < q <= inject_Z N)%Q -> binade q <= 52.
Proof.
  intros HN [Hpos Hle]. unfold binade.
  destruct q as [p d]. unfold Qlt in Hpos. unfold Qle in Hle. cbn in Hpos, Hle.
  cbn [Qnum Qden].
  assert (Hp : 0 < p) by lia.
  rewrite (Z.abs_eq p) by lia.
  assert (HlogN : Z.log2 N <= 52).
  { assert (Z.log2 N < 53) by (apply Z.log2_lt_pow2; lia). lia. }
  assert (Hlog : Z.log2 p <= Z.log2 N + Z.log2 (Z.pos d) + 1).
  { etransitivity; [apply Z.log2_le_mono; rewrite Z.mul_1_r in Hle; exact Hle |].
    apply Z.log2_mul_above; lia. }
  destruct (Qle_bool (2 ^ (Z.log2 p - Z.log2 (Z.pos d))) (Qabs (p # d))) eqn:Htest;
    [| lia].
  destruct (Z.eq_dec (Z.log2 p - Z.log2 (Z.pos d)) 53) as [He | Hne]; [| lia].
  rewrite He in Htest. apply Qle_bool_iff in Htest.
  rewrite Qabs_pos in Htest by (unfold Qle; cbn; lia).
  exfalso. unfold Qle in Htest. cbn in Htest. rewrite Z.mul_1_r in Hle. nia.
Qed.

(** A number between 0 and an integer below [2^53] is rounded to a double
    between the two. *)
Lemma double_of_bounded (q : Q) (N : Z) :
  0 < N < 2 ^ 53 -> (0 <= q <= inject_Z N)%Q ->
  exists r, double_of q = Fin r /\ (0 <= r <= inject_Z N)%Q.
Proof.
  intros HN [H0 Hle]. unfold double_of.
  destruct (Qeq_bool q 0) eqn:Hz.
  { exists 0%Q. split; [reflexivity |]. split; [lra |].
    change 0%Q with (inject_Z 0). rewrite <- Zle_Qle. lia. }
  assert (Hpos : (0 < q)%Q).
  { apply Qeq_bool_neq in Hz. apply Qle_lteq in H0. destruct H0 as [H0 | H0];
      [exact H0 | exfalso; apply Hz; symmetry; exact H0]. }
  pose proof (binade_small q N HN (conj Hpos Hle)) as He.
  set (ex := Z.max (binade q) (-1022) - 52).
  assert (Hex : ex <= 0) by (unfold ex; lia).
  set (u := Qpower 2 ex).
  assert (Hu : (0 < u)%Q) by (apply Qpower_0_lt; reflexivity).
  set (K := N * 2 ^ (- ex)).
  assert (HK : (inject_Z K * u == inject_Z N)%Q).
  { unfold K, u. rewrite inject_Z_mult, Zpower_Qpower by lia.
    rewrite <- Qmult_assoc, <- Qpower_plus by discriminate.
    replace (- ex + ex) with 0 by lia. cbn. lra. }
  set (m := round_half_even (q / u)).
  assert (Hm0 : 0 <= m).
  { apply round_half_even_nonneg. apply Qle_shift_div_l; [exact Hu | lra]. }
  assert (HmK : m <= K).
  { apply round_half_even_le. apply Qle_shift_div_r; [exact Hu |].
    rewrite HK. exact Hle. }
  assert (Hr : (0 <= inject_Z m * u <= inject_Z N)%Q).
  { split.
    - apply Qmult_le_0_compat; [| lra].
      change 0%Q with (inject_Z 0). rewrite <- Zle_Qle. exact Hm0.
    - rewrite <- HK. apply Qmult_le_compat_r; [| lra].
      rewrite <- Zle_Qle. exact HmK. }
  destruct (Qle_bool (2 ^ 1024) (Qabs (inject_Z m * u))) eqn:Hover.
  - exfalso. apply Qle_bool_iff in Hover.
    rewrite Qabs_pos in Hover by apply Hr.
    assert (H53 : (inject_Z N < 2 ^ 53)%Q).
    { rewrite <- (Zpower_Qpower 2 53) by lia. rewrite <- Zlt_Qlt. lia. }
    assert (Hmono : (2 ^ 53 <= 2 ^ 1024)%Q)
      by (apply Qpower_le_compat_l; [lia | discriminate]).
    destruct Hr as [_ Hr]. lra.
  - exists (inject_Z m * u)%Q. split; [reflexivity | exact Hr].
Qed.

Lemma split_index_bounds (n : nat) (ts : Q) :
  Z.of_nat n < 2 ^ 53 -> (0 <= ts <= 1)%Q ->
  exists s, split_index n ts = of_Z s /\ 0 <= s <= Z.of_nat n.
Proof.
  intros Hn Hts. unfold split_index.
  destruct (double_of_bounded ts 1 ltac:(lia) Hts) as (t' & Ht' & Ht'b).
  cbn [double]. rewrite Ht'. cbn [sub opp add double].
  assert (H1 : (0 <= 1 + - t' <= inject_Z 1)%Q) by (change (inject_Z 1) with 1%Q in *; lra).
  destruct (double_of_bounded _ 1 ltac:(lia) H1) as (x1 & Hx1 & Hx1b).
  rewrite Hx1. cbn [mul of_Z double].
  destruct n as [| n'].
  - exists 0. split; [| lia].
    assert (Hq : Qeq_bool (inject_Z (Z.of_nat 0) * x1) 0 = true).
    { apply Qeq_bool_iff. change (inject_Z (Z.of_nat 0)) with 0%Q. lra. }
    unfold double_of. rewrite Hq. reflexivity.
  - set (n := S n') in *.
    assert (HN : (0 <= inject_Z (Z.of_nat n))%Q).
    { change 0%Q with (inject_Z 0). rewrite <- Zle_Qle. lia. }
    assert (H2 : (0 <= inject_Z (Z.of_nat n) * x1 <= inject_Z (Z.of_nat n))%Q).
    { change (inject_Z 1) with 1%Q in Hx1b.
      split; [apply Qmult_le_0_compat; lra | nra]. }
    destruct (double_of_bounded _ (Z.of_nat n) ltac:(lia) H2) as (x2 & Hx2 & Hx2b).
    rewrite Hx2. cbn [Math_floor]. exists (Qfloor x2). split; [reflexivity |].
    split.
    + rewrite <- (Qfloor_Z 0). apply Qfloor_resp_le. apply Hx2b.
    + rewrite <- (Qfloor_Z (Z.of_nat n)). apply Qfloor_resp_le. apply Hx2b.
Qed.

(** ** Tensor creation *)

Lemma truncate_inject_Z (z : Z) : truncate (inject_Z z) = z.
Proof. unfold truncate. cbn. apply Z.quot_1_r. Qed.

Lemma sub_of_Z (a b : Z) :
  exists q, sub (of_Z a) (of_Z b) = Fin q /\ (q == inject_Z (a - b))%Q.
Proof.
  eexists. split; [reflexivity |].
  unfold Z.sub. rewrite inject_Z_plus, inject_Z_opp. reflexivity.
Qed.

Lemma truncate_comp (q : Q) (z : Z) : (q == inject_Z z)%Q -> truncate q = z.
Proof.
  intros Hq. unfold truncate. destruct q as [p d].
  unfold Qeq in Hq. cbn in Hq. cbn [Qnum Qden].
  rewrite Z.mul_1_r in Hq. subst p. apply Z.quot_mul. lia.
Qed.

Lemma Qfloor_inject (q : Q) (z : Z) : (q == inject_Z z)%Q -> Qfloor q = z.
Proof. intros Hq. rewrite (Qfloor_comp _ _ Hq). apply Qfloor_Z. Qed.

Section CreationFacts.

Context {rt : Runtime}.

Lemma dimension_integer (q : Q) (z : Z) :
  (q == inject_Z z)%Q ->
  tf.dimension (Fin q) = if 0 <=? z then Some z else None.
Proof.
  intros Hq. unfold tf.dimension. rewrite (Qfloor_inject q z Hq).
  replace (Qeq_bool q (inject_Z z)) with true
    by (symmetry; apply Qeq_bool_iff; exact Hq).
  reflexivity.
Qed.

Lemma ToLength_integer (q : Q) (z : Z) :
  (q == inject_Z z)%Q ->
  ToLength (Fin q) = Z.min (Z.max z 0) (2 ^ 53 - 1).
Proof. intros Hq. unfold ToLength. now rewrite (truncate_comp q z Hq). Qed.

Lemma Array_from_length_integer {A} (q : Q) (z : Z) (f : Z -> A) :
  (q == inject_Z z)%Q ->
  Array_from_length (Fin q) f
  = if z <? 2 ^ 32 then Normal (Array_from z f)
    else Throw "RangeError: Invalid array length".
Proof.
  intros Hq. unfold Array_from_length. rewrite (ToLength_integer q z Hq).
  destruct (Z.ltb_spec z (2 ^ 32)) as [Hlt | Hge].
  - destruct (Z.ltb_spec (Z.min (Z.max z 0) (2 ^ 53 - 1)) (2 ^ 32)) as [_ | H].
    + unfold Array_from.
      change (2 ^ 53 - 1) with 9007199254740991.
      change (2 ^ 32) with 4294967296 in Hlt.
      replace (Z.to_nat (Z.min (Z.max z 0) 9007199254740991)) with (Z.to_nat z)
        by lia.
      reflexivity.
    + change (2 ^ 53 - 1) with 9007199254740991 in H.
      change (2 ^ 32) with 4294967296 in Hlt, H. lia.
  - destruct (Z.ltb_spec (Z.min (Z.max z 0) (2 ^ 53 - 1)) (2 ^ 32)) as [H | _];
      [| reflexivity].
    change (2 ^ 53 - 1) with 9007199254740991 in H.
    change (2 ^ 32) with 4294967296 in Hge, H. lia.
Qed.

Lemma inferShape3_wrap (ws : list (list number)) (W : nat) :
  Forall (fun w => length w = W) ws ->
  tf.inferShape3 (wrap ws)
  = match ws with
    | [] => [0]
    | _ :: _ =>
        if (W =? 0)%nat then [Z.of_nat (length ws); 0]
        else [Z.of_nat (length ws); Z.of_nat W; 1]
    end.
Proof.
  intros Hall. destruct ws as [| w ws']; [reflexivity |].
  inversion Hall as [| w0 l0 Hw _]; subst.
  destruct w as [| v w']; cbn [wrap map tf.inferShape3 length Nat.eqb];
    fold wrap; unfold wrap; rewrite !length_map; reflexivity.
Qed.

Lemma inferShape2_targets (ys : list (list number)) (H : nat) :
  Forall (fun y => length y = H) ys ->
  tf.inferShape2 ys
  = match ys with
    | [] => [0]
    | _ :: _ => [Z.of_nat (length ys); Z.of_nat H]
    end.
Proof.
  intros Hall. destruct ys as [| y ys']; [reflexivity |].
  inversion Hall as [| y0 l0 Hy _]; subst. reflexivity.
Qed.

(** [tf.tensor3d] on windows of [W] values each, handed as cells of one
    value, and a shape [[s, W, 1]]. *)
Lemma tensor3d_run (ws : list (list number)) (W : nat) (qs : Q) (s : Z) :
  Forall (fun w => length w = W) ws ->
  (qs == inject_Z s)%Q ->
  tf.tensor3d (wrap ws) [Fin qs; of_Z (Z.of_nat W); Fin 1]
  = if accepts3 ws W s
    then Normal (tensor3d (wrap ws) [s; Z.of_nat W; 1])
    else Throw (tf_error "tensor3d" (tf.inferShape3 (wrap ws))
                         [Fin qs; of_Z (Z.of_nat W); Fin 1]).
Proof.
  intros Hall Hqs. unfold tf.tensor3d, tf.makeTensor, accepts3.
  rewrite (inferShape3_wrap ws W Hall).
  cbn [length Nat.eqb negb tf.dimensions]. unfold of_Z.
  rewrite (dimension_integer qs s Hqs).
  rewrite (dimension_integer (inject_Z (Z.of_nat W)) (Z.of_nat W)) by reflexivity.
  rewrite (dimension_integer 1 1) by reflexivity.
  change (0 <=? 1) with true. cbv iota.
  destruct (Z.leb_spec 0 (Z.of_nat W)) as [_ | HW]; [| lia].
  destruct ws as [| w ws'].
  - cbn [length Nat.eqb orb negb tf.sizeFromShape fold_left tf.fits].
    destruct (Z.leb_spec 0 s) as [Hs | Hs]; [| reflexivity]. cbn [andb].
    unfold tf.sizeFromShape; cbn [fold_left tf.fits]; zbool; nia.
  - destruct (Nat.eqb_spec W 0) as [HW0 | HW0].
    + subst W. cbn [length Nat.eqb orb negb].
      destruct (0 <=? s); reflexivity.
    + cbn [length Nat.eqb orb negb tf.sizeFromShape fold_left tf.fits].
      destruct (Z.leb_spec 0 s) as [Hs | Hs]; [| reflexivity]. cbn [andb].
      unfold tf.sizeFromShape; cbn [fold_left tf.fits]; zbool; nia.
Qed.

(** [tf.tensor2d] on targets of [H] values each and a shape [[s, H]]. *)
Lemma tensor2d_run (ys : list (list number)) (H : nat) (qs : Q) (s : Z) :
  Forall (fun y => length y = H) ys ->
  (qs == inject_Z s)%Q ->
  tf.tensor2d ys [Fin qs; of_Z (Z.of_nat H)]
  = if accepts2 ys H s
    then Normal (tensor2d ys [s; Z.of_nat H])
    else Throw (tf_error "tensor2d" (tf.inferShape2 ys) [Fin qs; of_Z (Z.of_nat H)]).
Proof.
  intros Hall Hqs. unfold tf.tensor2d, tf.makeTensor, accepts2.
  rewrite (inferShape2_targets ys H Hall).
  cbn [length Nat.eqb negb tf.dimensions]. unfold of_Z.
  rewrite (dimension_integer qs s Hqs).
  rewrite (dimension_integer (inject_Z (Z.of_nat H)) (Z.of_nat H)) by reflexivity.
  destruct (Z.leb_spec 0 (Z.of_nat H)) as [_ | HH]; [| lia].
  destruct ys as [| y ys'];
    cbn [length Nat.eqb orb negb tf.sizeFromShape fold_left tf.fits];
    (destruct (Z.leb_spec 0 s) as [Hs | Hs]; [| reflexivity]); cbn [andb];
    unfold tf.sizeFromShape; cbn [fold_left tf.fits]; zbool; nia.
Qed.

(** A tensor that was created has the values and the shape it was made
    from. *)
Lemma tensor3d_created (values : list (list (list number))) (shape : list number)
    (tensor : Tensor) :
  tf.tensor3d values shape = Normal tensor ->
  exists dims, tf.dimensions shape = Some dims /\ tensor = tensor3d values dims.
Proof.
  unfold tf.tensor3d, tf.makeTensor.
  destruct (negb (length shape =? 3)%nat); [discriminate |].
  destruct (negb _); [discriminate |].
  destruct (tf.dimensions shape) as [dims |]; [| discriminate].
  destruct (_ && _); [| discriminate].
  intros Ht. injection Ht as <-. now exists dims.
Qed.

Lemma tensor_NaN_shape (op : string) (inferredShape : list Z) (shape : list number) :
  tf.makeTensor op inferredShape (NaN :: shape)
  = Throw (tf_error op inferredShape (NaN :: shape)).
Proof. reflexivity. Qed.

End CreationFacts.

Lemma accepts3_length {A} (rows : list A) (columns : nat) :
  rows = [] \/ (0 < columns)%nat ->
  accepts3 rows columns (Z.of_nat (length rows)) = true.
Proof.
  intros Hc. unfold accepts3. destruct rows as [| r rows'].
  - reflexivity.
  - destruct Hc as [Hc | Hc]; [discriminate |]. zbool.
Qed.

Lemma accepts3_inv {A} (rows : list A) (columns : nat) (s : Z) :
  accepts3 rows columns s = true ->
  0 <= s /\ (rows <> [] -> s = Z.of_nat (length rows) /\ (0 < columns)%nat).
Proof.
  unfold accepts3. intros Hc. apply andb_prop in Hc. destruct Hc as [H0 Hc].
  split; [lia |]. destruct rows as [| r rows']; [congruence |].
  intros _. apply andb_prop in Hc. lia.
Qed.

Lemma accepts2_length {A} (rows : list A) (columns : nat) :
  accepts2 rows columns (Z.of_nat (length rows)) = true.
Proof. unfold accepts2. destruct rows as [| r rows']; [reflexivity | zbool]. Qed.

Lemma accepts2_inv {A} (rows : list A) (columns : nat) (s : Z) :
  accepts2 rows columns s = true ->
  0 <= s /\ (rows <> [] -> s = Z.of_nat (length rows)).
Proof.
  unfold accepts2. intros Hc. apply andb_prop in Hc. destruct Hc as [H0 Hc].
  split; [lia |]. destruct rows as [| r rows']; [congruence | lia].
Qed.

(** ** The steps of [prepareData] *)

Section PreparationFacts.

Context {rt : Runtime}.

Lemma split_index_cases (n : nat) (ts : Q) :
  (exists s, split_index n ts = of_Z s) \/
  split_index n ts = NaN \/
  exists negative, split_index n ts = Inf negative.
Proof.
  unfold split_index. destruct (double _) as [| q | b]; cbn [Math_floor]; eauto.
Qed.

(** With samples to make, [prepareData] normalizes the returns and then
    assigns its six fields one after the other, as far as it gets. *)
Lemma prepareData_steps (W H : nat) (ts : Q) (dl : DataLoader.t) :
  returns dl <> [] ->
  0 < total_samples (length (returns dl)) W H ->
  let total := total_samples (length (returns dl)) W H in
  let n := Z.to_nat total in
  let nd := normalized (returns dl) in
  let splitIdx := split_index n ts in
  let rest := sub (of_Z total) splitIdx in
  let cut := integer_index total splitIdx in
  let dl0 := set_normalization (Math_min (returns dl)) (Math_max (returns dl)) nd dl in
  prepareData W H ts dl =
  match Array_from_length splitIdx (fun i => i) with
  | Throw e => (Throw e, dl0)
  | Normal tr =>
  let dl1 := set_trainIndices tr dl0 in
  match Array_from_length rest (fun i => i + cut) with
  | Throw e => (Throw e, dl1)
  | Normal te =>
  let dl2 := set_testIndices te dl1 in
  match tf.tensor3d (wrap (slice (windows nd W n) 0 cut))
                    [splitIdx; of_Z (Z.of_nat W); Fin 1] with
  | Throw e => (Throw e, dl2)
  | Normal xtr =>
  let dl3 := set_X_train xtr dl2 in
  match tf.tensor2d (slice (targets nd W H n) 0 cut)
                    [splitIdx; of_Z (Z.of_nat H)] with
  | Throw e => (Throw e, dl3)
  | Normal ytr =>
  let dl4 := set_y_train ytr dl3 in
  match tf.tensor3d (wrap (slice_from (windows nd W n) cut))
                    [rest; of_Z (Z.of_nat W); Fin 1] with
  | Throw e => (Throw e, dl4)
  | Normal xte =>
  let dl5 := set_X_test xte dl4 in
  match tf.tensor2d (slice_from (targets nd W H n) cut)
                    [rest; of_Z (Z.of_nat H)] with
  | Throw e => (Throw e, dl5)
  | Normal yte => (Normal tt, set_y_test yte dl5)
  end end end end end end.
Proof.
  intros Hne Hpos total n nd splitIdx rest cut dl0.
  unfold prepareData. unfold bind at 1. unfold this at 1.
  rewrite (length_zero_false _ Hne).
  fold (total_samples (length (returns dl)) W H). fold total.
  destruct (Z.leb_spec total 0) as [Hle | _]; [unfold total in Hle; lia |].
  unfold bind at 1. rewrite (normalizeReturns_run _ Hne).
  unfold bind at 1. unfold this at 1.
  cbn [normalizedData set_normalization]. fold nd. fold dl0.
  assert (Hn : Z.of_nat n = total_samples (length nd) W H).
  { unfold nd. rewrite normalized_length. unfold n, total. lia. }
  fold n.
  rewrite (sequences_are_windows nd W H n Hn).
  rewrite (targets_are_targets nd W H n Hn).
  rewrite windows_length.
  assert (Hz : Z.of_nat n = total) by (unfold n; unfold total in *; lia).
  rewrite Hz. fold splitIdx. fold rest. fold cut. fold wrap.
  unfold bind, lift, assign.
  destruct (Array_from_length splitIdx _) as [tr | e]; [| reflexivity].
  destruct (Array_from_length rest _) as [te | e]; [| reflexivity].
  destruct (tf.tensor3d _ [splitIdx; _; _]) as [xtr | e]; [| reflexivity].
  destruct (tf.tensor2d _ [splitIdx; _]) as [ytr | e]; [| reflexivity].
  destruct (tf.tensor3d _ [rest; _; _]) as [xte | e]; [| reflexivity].
  destruct (tf.tensor2d _ [rest; _]) as [yte | e]; reflexivity.
Qed.

End PreparationFacts.

Section PreparationOutcomes.

Context {rt : Runtime}.

(** The state [prepareData] leaves when its split index [s] lies within the
    samples, the windows are not empty and the two index arrays can be made. *)
Lemma prepareData_run (W H : nat) (ts : Q) (dl : DataLoader.t) (s : Z) :
  returns dl <> [] ->
  0 < total_samples (length (returns dl)) W H ->
  let total := total_samples (length (returns dl)) W H in
  split_index (Z.to_nat total) ts = of_Z s ->
  0 <= s <= total ->
  (0 < W)%nat ->
  s < 2 ^ 32 -> total - s < 2 ^ 32 ->
  prepareData W H ts dl = (Normal tt, prepared W H (returns dl) s dl).
Proof.
  intros Hne Hpos total Hs Hsb HW Hs32 Hr32.
  pose proof (prepareData_steps W H ts dl Hne Hpos) as Hsteps.
  cbv zeta in Hsteps. fold total in Hsteps. rewrite Hsteps. clear Hsteps.
  rewrite Hs.
  destruct (sub_of_Z total s) as (qr & -> & Hqr).
  replace (integer_index total (of_Z s)) with s
    by (symmetry; apply truncate_inject_Z).
  change (of_Z s) with (Fin (inject_Z s)).
  rewrite (Array_from_length_integer (inject_Z s) s) by reflexivity.
  destruct (Z.ltb_spec s (2 ^ 32)) as [_ | Hc]; [| lia].
  rewrite (Array_from_length_integer qr (total - s)) by exact Hqr.
  destruct (Z.ltb_spec (total - s) (2 ^ 32)) as [_ | Hc]; [| lia].
  set (n := Z.to_nat total).
  set (nd := normalized (returns dl)).
  destruct (windows_sizes' (returns dl) W H Hpos) as [Hw Ht].
  fold total n nd in Hw, Ht.
  destruct (slice_cut (windows nd W n) s) as (Hw1 & Hw2 & _).
  destruct (slice_cut (targets nd W H n) s) as (Ht1 & Ht2 & _).
  rewrite windows_length in Hw1, Hw2. rewrite targets_length in Ht1, Ht2.
  assert (Hz : Z.of_nat n = total) by (unfold n; lia).
  rewrite Hz, (relative_index_in_range total s Hsb) in Hw1, Hw2, Ht1, Ht2.
  rewrite Hw1, Hw2, Ht1, Ht2.
  set (c := Z.to_nat s).
  assert (Hc1 : Z.of_nat (length (firstn c (windows nd W n))) = s).
  { rewrite length_firstn, windows_length. unfold c. lia. }
  assert (Hc2 : Z.of_nat (length (firstn c (targets nd W H n))) = s).
  { rewrite length_firstn, targets_length. unfold c. lia. }
  assert (Hc3 : Z.of_nat (length (skipn c (windows nd W n))) = total - s).
  { rewrite length_skipn, windows_length. unfold c. lia. }
  assert (Hc4 : Z.of_nat (length (skipn c (targets nd W H n))) = total - s).
  { rewrite length_skipn, targets_length. unfold c. lia. }
  rewrite (tensor3d_run _ W (inject_Z s) s (Forall_firstn' _ c _ Hw)) by reflexivity.
  replace (accepts3 (firstn c (windows nd W n)) W s) with true
    by (rewrite <- Hc1; symmetry; apply accepts3_length; now right).
  rewrite (tensor2d_run _ H (inject_Z s) s (Forall_firstn' _ c _ Ht)) by reflexivity.
  replace (accepts2 (firstn c (targets nd W H n)) H s) with true
    by (rewrite <- Hc2; symmetry; apply accepts2_length).
  rewrite (tensor3d_run _ W qr (total - s) (Forall_skipn' _ c _ Hw)) by exact Hqr.
  replace (accepts3 (skipn c (windows nd W n)) W (total - s)) with true
    by (rewrite <- Hc3; symmetry; apply accepts3_length; now right).
  rewrite (tensor2d_run _ H qr (total - s) (Forall_skipn' _ c _ Ht)) by exact Hqr.
  replace (accepts2 (skipn c (targets nd W H n)) H (total - s)) with true
    by (rewrite <- Hc4; symmetry; apply accepts2_length).
  reflexivity.
Qed.

Lemma prepareData_normal_inv (W H : nat) (ts : Q) (dl dl' : DataLoader.t) :
  prepareData W H ts dl = (Normal tt, dl') ->
  returns dl <> [] /\
  0 < total_samples (length (returns dl)) W H /\
  exists s,
    split_index (Z.to_nat (total_samples (length (returns dl)) W H)) ts = of_Z s /\
    0 <= s <= total_samples (length (returns dl)) W H /\
    (0 < W)%nat /\
    dl' = prepared W H (returns dl) s dl.
Proof.
  intros Hrun.
  assert (Hfirst : returns dl <> [] /\ 0 < total_samples (length (returns dl)) W H).
  { revert Hrun. unfold prepareData, bind at 1, this at 1, total_samples.
    destruct (returns dl) as [| r rs] eqn:Hr; [discriminate |].
    cbn [length Nat.eqb].
    destruct (Z.leb_spec (Z.of_nat (S (length rs)) - Z.of_nat W - Z.of_nat H + 1) 0);
      [discriminate |].
    intros _. split; [discriminate | assumption]. }
  destruct Hfirst as [Hne Hpos]. split; [exact Hne |]. split; [exact Hpos |].
  set (total := total_samples (length (returns dl)) W H) in *.
  pose proof (prepareData_steps W H ts dl Hne Hpos) as Hsteps.
  cbv zeta in Hsteps. fold total in Hsteps.
  pose proof Hrun as Hrun0. rewrite Hsteps in Hrun. clear Hsteps.
  destruct (split_index_cases (Z.to_nat total) ts) as [(s & Hs) | [Hs | (b & Hs)]];
    rewrite Hs in Hrun.
  - exists s. split; [exact Hs |].
    destruct (sub_of_Z total s) as (qr & Hsub & Hqr). rewrite Hsub in Hrun.
    replace (integer_index total (of_Z s)) with s in Hrun
      by (symmetry; apply truncate_inject_Z).
    change (of_Z s) with (Fin (inject_Z s)) in Hrun.
    rewrite (Array_from_length_integer (inject_Z s) s) in Hrun by reflexivity.
    destruct (Z.ltb_spec s (2 ^ 32)) as [Hs32 | _]; [| discriminate].
    rewrite (Array_from_length_integer qr (total - s)) in Hrun by exact Hqr.
    destruct (Z.ltb_spec (total - s) (2 ^ 32)) as [Hr32 | _]; [| discriminate].
    set (n := Z.to_nat total) in *.
    set (nd := normalized (returns dl)) in *.
    destruct (windows_sizes' (returns dl) W H Hpos) as [Hw Ht].
    fold total n nd in Hw, Ht.
    destruct (slice_cut (windows nd W n) s) as (Hw1 & Hw2 & _).
    destruct (slice_cut (targets nd W H n) s) as (Ht1 & Ht2 & _).
    rewrite windows_length in Hw1, Hw2. rewrite targets_length in Ht1, Ht2.
    assert (Hz : Z.of_nat n = total) by (unfold n; lia).
    rewrite Hz in Hw1, Hw2, Ht1, Ht2.
    set (c := Z.to_nat (relative_index total s)) in *.
    assert (Hcn : (c <= n)%nat).
    { pose proof (relative_index_bounds total s ltac:(lia)). unfold c, n. lia. }
    rewrite Hw1, Hw2, Ht1, Ht2 in Hrun.
    rewrite (tensor3d_run _ W (inject_Z s) s (Forall_firstn' _ c _ Hw)) in Hrun
      by reflexivity.
    destruct (accepts3 (firstn c (windows nd W n)) W s) eqn:A1; [| discriminate].
    rewrite (tensor2d_run _ H (inject_Z s) s (Forall_firstn' _ c _ Ht)) in Hrun
      by reflexivity.
    destruct (accepts2 (firstn c (targets nd W H n)) H s) eqn:A2; [| discriminate].
    rewrite (tensor3d_run _ W qr (total - s) (Forall_skipn' _ c _ Hw)) in Hrun
      by exact Hqr.
    destruct (accepts3 (skipn c (windows nd W n)) W (total - s)) eqn:A3;
      [| discriminate].
    clear Hrun.
    apply accepts3_inv in A1, A3. destruct A1 as [Hs0 A1], A3 as [Hr0 A3].
    assert (Hsb : 0 <= s <= total) by lia.
    assert (Hc : c = Z.to_nat s).
    { unfold c. now rewrite (relative_index_in_range total s Hsb). }
    assert (HW : (0 < W)%nat).
    { destruct (Z.eq_dec s 0) as [He | Hn0].
      - apply A3. intros Hnil. apply (f_equal (@length _)) in Hnil.
        rewrite length_skipn, windows_length in Hnil. cbn [length] in Hnil. lia.
      - apply A1. intros Hnil. apply (f_equal (@length _)) in Hnil.
        rewrite length_firstn, windows_length in Hnil. cbn [length] in Hnil. lia. }
    split; [exact Hsb |]. split; [exact HW |].
    pose proof (prepareData_run W H ts dl s Hne Hpos Hs Hsb HW Hs32 Hr32) as Hok.
    rewrite Hok in Hrun0. now injection Hrun0 as <-.
  - exfalso. revert Hrun.
    change (Array_from_length NaN (fun i : Z => i)) with (@Normal (list Z) []).
    change (sub (of_Z total) NaN) with NaN.
    change (Array_from_length NaN (fun i : Z => i + integer_index total NaN))
      with (@Normal (list Z) []).
    unfold tf.tensor3d at 1. cbn [length Nat.eqb negb].
    destruct (negb _); [discriminate |].
    rewrite tensor_NaN_shape. discriminate.
  - exfalso. revert Hrun. destruct b.
    + change (Array_from_length (Inf true) (fun i : Z => i)) with (@Normal (list Z) []).
      change (sub (of_Z total) (Inf true)) with (Inf false).
      change (Array_from_length (Inf false)
                (fun i : Z => i + integer_index total (Inf true)))
        with (@Throw (list Z) "RangeError: Invalid array length").
      discriminate.
    + change (Array_from_length (Inf false) (fun i : Z => i))
        with (@Throw (list Z) "RangeError: Invalid array length").
      discriminate.
Qed.

End PreparationOutcomes.

(** C1, as the code has it.  On a non-empty return series of length [L]
    (an array, so [L < 2^32]), with a window size of at least 1 and a test
    fraction between 0 and 1, [prepareData W H ts] throws and changes nothing
    when [totalSamples = L - W - H + 1] is not positive; otherwise it makes
    exactly [max 0 totalSamples] pairs, the [i]-th window being the normalized
    returns at [i .. i+W-1] and the [i]-th target those at [i+W .. i+W+H-1];
    the split index is [Math.floor(totalSamples * (1 - ts))] as doubles give
    it, an integer from 0 to [totalSamples]; the pairs before it go to the
    train tensors and the rest to the test tensors, in order, and the two
    counts add up to [totalSamples]. *)
Theorem prepareData_windows_and_split (rt : Runtime) (W H : nat) (ts : Q)
    (dl : DataLoader.t) :
  returns dl <> [] ->
  (0 < W)%nat ->
  (0 <= ts <= 1)%Q ->
  Z.of_nat (length (returns dl)) < 2 ^ 32 ->
  let L := length (returns dl) in
  let totalSamples := Z.of_nat L - Z.of_nat W - Z.of_nat H + 1 in
  let count := Z.to_nat (Z.max 0 totalSamples) in
  let nd := normalized (returns dl) in
  (totalSamples <= 0 ->
     count = 0%nat /\
     exists message, prepareData W H ts dl = (Throw message, dl)) /\
  (0 < totalSamples ->
     exists dl' splitIdx,
       let k := Z.to_nat splitIdx in
       prepareData W H ts dl = (Normal tt, dl') /\
       normalizedData dl' = Some nd /\
       length nd = L /\
       length (windows nd W count) = count /\
       length (targets nd W H count) = count /\
       (forall i, (i < count)%nat ->
          nth_error (windows nd W count) i = Some (sub_list nd i (i + W)) /\
          nth_error (targets nd W H count) i
          = Some (sub_list nd (i + W) (i + W + H))) /\
       Forall (fun w => length w = W) (windows nd W count) /\
       Forall (fun y => length y = H) (targets nd W H count) /\
       split_index count ts = of_Z splitIdx /\
       0 <= splitIdx <= totalSamples /\
       X_train dl'
       = Some (tensor3d (wrap (firstn k (windows nd W count)))
                        [splitIdx; Z.of_nat W; 1]) /\
       y_train dl'
       = Some (tensor2d (firstn k (targets nd W H count)) [splitIdx; Z.of_nat H]) /\
       X_test dl'
       = Some (tensor3d (wrap (skipn k (windows nd W count)))
                        [totalSamples - splitIdx; Z.of_nat W; 1]) /\
       y_test dl'
       = Some (tensor2d (skipn k (targets nd W H count))
                        [totalSamples - splitIdx; Z.of_nat H]) /\
       (length (firstn k (windows nd W count))
        + length (skipn k (windows nd W count)))%nat = count).
Proof.
  intros Hne HW Hts HL L totalSamples count nd.
  split.
  - intros Hle. split; [unfold count; lia |].
    exists "Not enough data for the specified window size and prediction horizon".
    unfold prepareData, bind, this.
    rewrite (length_zero_false _ Hne).
    fold L. fold totalSamples.
    destruct (Z.leb_spec totalSamples 0); [reflexivity | lia].
  - intros Hpos.
    assert (Hcount : Z.of_nat count = totalSamples) by (unfold count; lia).
    assert (Hcount' : count = Z.to_nat totalSamples) by (unfold count; lia).
    assert (H32 : 2 ^ 32 < 2 ^ 53) by reflexivity.
    assert (Hsmall : totalSamples < 2 ^ 32) by (unfold totalSamples, L in *; lia).
    destruct (split_index_bounds count ts ltac:(lia) Hts) as (s & Hs & Hsb).
    rewrite Hcount in Hsb.
    pose proof (prepareData_run W H ts dl s Hne Hpos) as Hrun.
    cbv zeta in Hrun. fold L in Hrun.
    change (total_samples L W H) with totalSamples in Hrun.
    rewrite <- Hcount' in Hrun.
    specialize (Hrun Hs Hsb HW ltac:(lia) ltac:(lia)).
    assert (Hn : Z.of_nat count = total_samples (length nd) W H).
    { unfold nd. rewrite normalized_length. exact Hcount. }
    eexists. exists s. cbv zeta. split; [exact Hrun |].
    unfold prepared. fold L.
    change (total_samples L W H) with totalSamples.
    rewrite <- Hcount'. fold nd.
    cbn [normalizedData X_train y_train X_test y_test set_split set_normalization].
    repeat split; try reflexivity; try lia.
    + apply normalized_length.
    + apply windows_length.
    + apply targets_length.
    + now apply windows_nth.
    + now apply targets_nth.
    + exact (proj1 (windows_sizes nd W H count Hn)).
    + exact (proj2 (windows_sizes nd W H count Hn)).
    + exact Hs.
    + rewrite <- length_app, firstn_skipn. apply windows_length.
Qed.

Lemma prepareData_windows_and_split_witness :
  returns eight_returns <> [] /\
  (0 <= 1 # 5 <= 1)%Q /\
  exists dl',
    prepareData (rt := test_runtime) 3 2 (1 # 5) eight_returns = (Normal tt, dl') /\
    X_train dl'
    = Some (tensor3d
              (wrap (firstn 3 (windows (normalized (returns eight_returns)) 3 4)))
              [3; 3; 1]).
Proof.
  assert (H1 : returns eight_returns <> []) by discriminate.
  assert (H2 : (0 <= 1 # 5 <= 1)%Q) by (split; discriminate).
  assert (H3 : Z.of_nat (length (returns eight_returns)) < 2 ^ 32) by reflexivity.
  split; [exact H1 | split; [exact H2 |]].
  destruct (prepareData_windows_and_split test_runtime 3 2 (1 # 5) eight_returns
              H1 ltac:(lia) H2 H3)
    as [_ Hok].
  destruct (Hok ltac:(reflexivity))
    as (dl' & s & Hrun & _ & _ & _ & _ & _ & _ & _ & Hs & _ & Hx & _).
  exists dl'. split; [exact Hrun |].
  assert (Hs3 : s = 3).
  { assert (Hc : split_index 4 (1 # 5) = of_Z 3) by (vm_compute; reflexivity).
    change (Z.to_nat (Z.max 0 (Z.of_nat (length (returns eight_returns))
                               - Z.of_nat 3 - Z.of_nat 2 + 1))) with 4%nat in Hs.
    rewrite Hc in Hs. unfold of_Z, inject_Z in Hs. congruence. }
  subst s. exact Hx.
Defined.

(** With 90 samples and the test fraction 0.3, the floor of [90 * (1 - 0.3)]
    is 63, for the number 3/10 as for the double written 0.3; the doubles of
    the program give [1 - 0.3] just below 0.7 and the product just below 63,
    and 62 samples go to the train tensors. *)
Lemma split_index_below_exact_floor :
  exists (dl' : DataLoader.t) (t : Q) (values : list (list (list number))),
    double (Fin (3 # 10)) = Fin t /\
    Qfloor (90 * (1 - (3 # 10))) = 63 /\
    Qfloor (90 * (1 - t)) = 63 /\
    total_samples (length (returns ninety_one_returns)) 1 1 = 90 /\
    prepareData (rt := test_runtime) 1 1 (3 # 10) ninety_one_returns
    = (Normal tt, dl') /\
    split_index 90 (3 # 10) = of_Z 62 /\
    X_train dl' = Some (tensor3d values [62; 1; 1]) /\
    length values = 62%nat.
Proof.
  exists (snd (prepareData (rt := test_runtime) 1 1 (3 # 10) ninety_one_returns)).
  do 2 eexists.
  split; [vm_compute; reflexivity |].
  split; [vm_compute; reflexivity |].
  split; [vm_compute; reflexivity |].
  split; [vm_compute; reflexivity |].
  split; [vm_compute; reflexivity |].
  split; [vm_compute; reflexivity |].
  split; [vm_compute; reflexivity |].
  vm_compute. reflexivity.
Qed.

(** ** The chronological split *)

Lemma shifted_seq (c a len : nat) :
  map (fun i => Z.of_nat i + Z.of_nat c) (seq a len) = map Z.of_nat (seq (a + c) len).
Proof.
  revert a. induction len as [| len IH]; intros a; [reflexivity |].
  cbn [seq map]. f_equal; [lia | apply (IH (S a))].
Qed.

Lemma firstn_seq_le (c a n : nat) :
  (c <= n)%nat -> firstn c (seq a n) = seq a c.
Proof.
  revert a n. induction c as [| c IH]; intros a n Hc; [reflexivity |].
  destruct n as [| n]; [lia |]. cbn [seq firstn]. f_equal. apply IH. lia.
Qed.

(** C4. When [prepareData] succeeds there is one cut [c]: the train tensor
    holds the windows that start at 0 .. c-1 and the test tensor those that
    start at c .. n-1, each in that order, so every test window starts after
    every train window; the recorded [trainIndices] all lie below the
    recorded [testIndices], and for a test fraction between 0 and 1 they are
    exactly these start positions. *)
Theorem prepareData_chronological (rt : Runtime) (W H : nat) (ts : Q)
    (dl dl' : DataLoader.t) :
  prepareData W H ts dl = (Normal tt, dl') ->
  exists (nd : list number) (n c : nat) (train_shape test_shape : list Z),
    let window := fun i => map (fun v : number => [v]) (sub_list nd i (i + W)) in
    let train_starts := seq 0 c in
    let test_starts := seq c (n - c) in
    normalizedData dl' = Some nd /\
    (c <= n)%nat /\
    X_train dl' = Some (tensor3d (map window train_starts) train_shape) /\
    X_test dl' = Some (tensor3d (map window test_starts) test_shape) /\
    (forall i j, In i train_starts -> In j test_starts -> (i < j)%nat) /\
    (forall i j, In i (trainIndices dl') -> In j (testIndices dl') -> i < j) /\
    ((0 <= ts <= 1)%Q ->
       trainIndices dl' = map Z.of_nat train_starts /\
       testIndices dl' = map Z.of_nat test_starts).
Proof.
  intros Hrun.
  destruct (prepareData_normal_inv W H ts dl dl' Hrun)
    as (Hne & Hpos & s & Hs & Hsb & HW & ->).
  unfold prepared.
  set (total := total_samples (length (returns dl)) W H) in *.
  set (n := Z.to_nat total).
  set (c := Z.to_nat s).
  set (nd := normalized (returns dl)).
  assert (Hc : (c <= n)%nat) by (unfold c, n; lia).
  exists nd, n, c. do 2 eexists.
  cbv zeta.
  cbn [normalizedData X_train X_test trainIndices testIndices set_split set_normalization].
  split; [reflexivity |]. split; [exact Hc |].
  split.
  { unfold wrap, windows. rewrite firstn_map, firstn_seq_le by exact Hc.
    rewrite !map_map. reflexivity. }
  split.
  { unfold wrap, windows. rewrite skipn_map, skipn_seq. rewrite !map_map.
    reflexivity. }
  split.
  { intros i j Hi Hj. apply in_seq in Hi. apply in_seq in Hj. lia. }
  split.
  { intros i j Hi Hj. unfold Array_from in Hi, Hj.
    apply in_map_iff in Hi. destruct Hi as (a & <- & Ha). apply in_seq in Ha.
    apply in_map_iff in Hj. destruct Hj as (b & <- & Hb). apply in_seq in Hb.
    lia. }
  intros Hts.
  assert (Hn : Z.of_nat n = total) by (unfold n; lia).
  assert (Hcs : Z.of_nat c = s) by (unfold c; lia).
  split.
  - unfold Array_from. rewrite <- Hcs, Nat2Z.id. reflexivity.
  - unfold Array_from.
    replace (Z.to_nat (total - s)) with (n - c)%nat by lia.
    rewrite <- Hcs. apply (shifted_seq c 0).
Qed.

Lemma prepareData_chronological_witness :
  exists dl',
    prepareData (rt := test_runtime) 3 2 (1 # 5) eight_returns = (Normal tt, dl') /\
    forall i j, In i (trainIndices dl') -> In j (testIndices dl') -> i < j.
Proof.
  assert (Hrun : prepareData (rt := test_runtime) 3 2 (1 # 5) eight_returns
                 = (Normal tt, snd (prepareData (rt := test_runtime) 3 2 (1 # 5) eight_returns)))
    by (vm_compute; reflexivity).
  exists (snd (prepareData (rt := test_runtime) 3 2 (1 # 5) eight_returns)).
  split; [exact Hrun |].
  destruct (prepareData_chronological test_runtime 3 2 (1 # 5) eight_returns _ Hrun)
    as (nd & n & c & s1 & s2 & _ & _ & _ & _ & _ & Hidx & _).
  exact Hidx.
Defined.

(** ** Normalization and its inverse *)

Lemma finite_inv (x : number) : finite x -> exists q, x = Fin q.
Proof. destruct x; try discriminate. intros _. now eexists. Qed.

Lemma min2_finite (x y : number) : finite x -> finite y -> finite (min2 x y).
Proof.
  intros Hx Hy. apply finite_inv in Hx, Hy. destruct Hx as [a ->], Hy as [b ->].
  unfold min2. destruct (lt (Fin b) (Fin a)); reflexivity.
Qed.

Lemma max2_finite (x y : number) : finite x -> finite y -> finite (max2 x y).
Proof.
  intros Hx Hy. apply finite_inv in Hx, Hy. destruct Hx as [a ->], Hy as [b ->].
  unfold max2. destruct (gt (Fin b) (Fin a)); reflexivity.
Qed.

Lemma fold_finite (f : number -> number -> number) (l : list number) :
  (forall x y, finite x -> finite y -> finite (f x y)) ->
  Forall finite l -> forall acc, finite acc -> finite (fold_left f l acc).
Proof.
  intros Hf Hl. induction Hl as [| x l Hx _ IH]; intros acc Hacc; [exact Hacc |].
  cbn [fold_left]. apply IH. now apply Hf.
Qed.

Lemma Math_min_finite (l : list number) :
  l <> [] -> Forall finite l -> finite (Math_min l).
Proof.
  intros Hne Hl. destruct Hl as [| x l Hx Hl]; [congruence |].
  unfold Math_min. cbn [fold_left].
  apply (fold_finite min2 l min2_finite Hl).
  apply finite_inv in Hx. destruct Hx as [a ->]. reflexivity.
Qed.

Lemma Math_max_finite (l : list number) :
  l <> [] -> Forall finite l -> finite (Math_max l).
Proof.
  intros Hne Hl. destruct Hl as [| x l Hx Hl]; [congruence |].
  unfold Math_max. cbn [fold_left].
  apply (fold_finite max2 l max2_finite Hl).
  apply finite_inv in Hx. destruct Hx as [a ->]. reflexivity.
Qed.

Lemma range_of_finite (mn mx : Q) :
  range_of (Fin mn) (Fin mx) = Fin (unit_or_range mn mx).
Proof.
  unfold range_of, or_else, unit_or_range, truthy, sub, add, opp.
  change (mx + - mn)%Q with (mx - mn)%Q.
  destruct (Qeq_bool (mx - mn) 0); reflexivity.
Qed.

Lemma unit_or_range_nonzero (mn mx : Q) : ~ (unit_or_range mn mx == 0)%Q.
Proof.
  unfold unit_or_range.
  destruct (Qeq_bool (mx - mn) 0) eqn:E.
  - discriminate.
  - now apply Qeq_bool_neq.
Qed.

Lemma normalize_finite (mn range x : Q) :
  ~ (range == 0)%Q ->
  normalize (Fin mn) (Fin range) (Fin x) = Fin ((x - mn) / range).
Proof.
  intros Hr. unfold normalize, div, sub, add, opp.
  destruct (Qeq_bool range 0) eqn:E; [| reflexivity].
  apply Qeq_bool_eq in E. contradiction.
Qed.

(** C2. On a non-empty series of finite returns, [normalizeReturns] stores
    finite [min] and [max], scales by [range = max - min], or by 1 when
    [max = min], and for every rational [x], [denormalize] applied to the
    normalized [x], which is [(x - min) / range], gives [x] back, the case
    [max = min] included. *)
Theorem denormalize_normalize (dl : DataLoader.t) (x : Q) :
  returns dl <> [] ->
  Forall finite (returns dl) ->
  exists (dl' : DataLoader.t) (mn mx y : Q),
    let range := if Qeq_bool (mx - mn) 0 then 1%Q else (mx - mn)%Q in
    normalizeReturns dl = (Normal tt, dl') /\
    min dl' = Some (Fin mn) /\
    max dl' = Some (Fin mx) /\
    Math_min (returns dl) = Fin mn /\
    Math_max (returns dl) = Fin mx /\
    normalizedData dl' = Some (map (normalize (Fin mn) (Fin range)) (returns dl)) /\
    normalize (Fin mn) (Fin range) (Fin x) = Fin ((x - mn) / range) /\
    (forall v : Q, denormalize (Fin v) dl' = (Normal (Fin (v * range + mn)), dl')) /\
    denormalize (normalize (Fin mn) (Fin range) (Fin x)) dl' = (Normal (Fin y), dl') /\
    (y == x)%Q.
Proof.
  intros Hne Hfin.
  destruct (finite_inv _ (Math_min_finite _ Hne Hfin)) as [mn Hmn].
  destruct (finite_inv _ (Math_max_finite _ Hne Hfin)) as [mx Hmx].
  pose proof (unit_or_range_nonzero mn mx) as Hr.
  eexists. exists mn, mx. eexists. cbv zeta.
  fold (unit_or_range mn mx).
  rewrite (normalizeReturns_run dl Hne).
  unfold normalized. rewrite Hmn, Hmx, range_of_finite.
  cbn [min max normalizedData set_normalization].
  repeat (split; [reflexivity |]).
  rewrite (normalize_finite _ _ _ Hr).
  split; [reflexivity |].
  unfold denormalize, bind, this, ret.
  cbn [min max set_normalization].
  rewrite range_of_finite. cbn [mul add].
  split; [reflexivity |].
  split; [reflexivity |].
  field. exact Hr.
Qed.

Lemma denormalize_normalize_witness :
  returns constant_returns <> [] /\
  Forall finite (returns constant_returns) /\
  exists dl' y,
    normalizeReturns constant_returns = (Normal tt, dl') /\
    min dl' = max dl' /\
    denormalize (normalize (Fin 3) (Fin 1) (Fin (7 # 2))) dl' = (Normal (Fin y), dl') /\
    (y == 7 # 2)%Q.
Proof.
  assert (H1 : returns constant_returns <> []) by discriminate.
  assert (H2 : Forall finite (returns constant_returns))
    by (repeat constructor).
  split; [exact H1 | split; [exact H2 |]].
  destruct (denormalize_normalize constant_returns (7 # 2) H1 H2)
    as (dl' & mn & mx & y & Hrun & Hmin & Hmax & Hmn & Hmx & _ & _ & _ & Hden & Hy).
  injection Hmn as <-. injection Hmx as <-.
  exists dl', y. split; [exact Hrun |]. split; [congruence |].
  split; [exact Hden | exact Hy].
Defined.

(** ** The training flag of [GRUModel] *)

Section GRUFacts.

Context {rt : Runtime}.

Lemma predict_untrained (X : option Tensor) (g : GRUModel) :
  model g = None \/ isTrained g = false ->
  GRU.predict X g = (Throw "Model not trained", g).
Proof.
  unfold GRU.predict, bind, this.
  intros [H | H]; rewrite H; [reflexivity |].
  destruct (model g); reflexivity.
Qed.

Lemma evaluate_untrained (X y : option Tensor) (g : GRUModel) :
  model g = None \/ isTrained g = false ->
  GRU.evaluate X y g = (Throw "Model not trained", g).
Proof.
  unfold GRU.evaluate, bind, this.
  intros [H | H]; rewrite H; [reflexivity |].
  destruct (model g); reflexivity.
Qed.

Lemma train_fit_rejects (X y : Tensor) (X_val y_val : option Tensor)
    (epochs batchSize : Z) (g : GRUModel) (m m' : LayersModel) (error : string) :
  model g = Some m ->
  model_fit m X y (validation_of X_val y_val) epochs batchSize = (Throw error, m') ->
  GRU.train (Some X) (Some y) X_val y_val epochs batchSize g
  = (Throw error, set_model (Some m') g).
Proof.
  intros Hm Hfit. unfold GRU.train, bind at 1, this at 1. rewrite Hm.
  fold (validation_of X_val y_val). unfold try_catch. rewrite Hfit.
  reflexivity.
Qed.

Lemma train_fit_resolves (X y : Tensor) (X_val y_val : option Tensor)
    (epochs batchSize : Z) (g : GRUModel) (m m' : LayersModel) (h : History) :
  model g = Some m ->
  model_fit m X y (validation_of X_val y_val) epochs batchSize = (Normal h, m') ->
  GRU.train (Some X) (Some y) X_val y_val epochs batchSize g
  = (Normal h,
     set_isTrained true (set_trainingHistory (Some h) (set_model (Some m') g))).
Proof.
  intros Hm Hfit. unfold GRU.train, bind at 1, this at 1. rewrite Hm.
  fold (validation_of X_val y_val). unfold try_catch. rewrite Hfit.
  reflexivity.
Qed.

(** Whatever makes [train] throw, it leaves the flag and the history alone. *)
Lemma train_throw_keeps_flag (X y X_val y_val : option Tensor)
    (epochs batchSize : Z) (g g' : GRUModel) (message : string) :
  GRU.train X y X_val y_val epochs batchSize g = (Throw message, g') ->
  isTrained g' = isTrained g /\ trainingHistory g' = trainingHistory g.
Proof.
  unfold GRU.train, bind at 1, this at 1.
  destruct (model g) as [m |] eqn:Hm.
  2: { intros H. injection H as _ <-. now split. }
  destruct X as [X |], y as [y |];
    try (intros H; injection H as _ <-; now split).
  unfold try_catch.
  destruct (model_fit m X y _ epochs batchSize) as [[h | e] m'].
  - discriminate.
  - intros H. injection H as _ <-. now split.
Qed.

End GRUFacts.

Section HistoryFacts.

Context {rt : Runtime}.

Lemma predict_keeps_state (X : option Tensor) (g : GRUModel) :
  snd (GRU.predict X g) = g.
Proof.
  unfold GRU.predict, bind, this, try_catch.
  destruct (model g), (isTrained g), X; try reflexivity.
  destruct (model_predict _ _); reflexivity.
Qed.

Lemma evaluate_keeps_state (X y : option Tensor) (g : GRUModel) :
  snd (GRU.evaluate X y g) = g.
Proof.
  unfold GRU.evaluate, bind at 1, this at 1, try_catch.
  destruct (model g), (isTrained g), X, y; try reflexivity.
  destruct (model_evaluate _ _ _) as [ev | e]; [| reflexivity].
  unfold bind, scalar_at, ret, throw.
  destruct ev as [| a [| b ev]]; reflexivity.
Qed.

Lemma saveWeights_keeps_state (g : GRUModel) : snd (GRU.saveWeights g) = g.
Proof.
  unfold GRU.saveWeights, bind, this.
  destruct (model g), (isTrained g); try reflexivity.
  destruct (model_save _ _); reflexivity.
Qed.

(** A [loadWeights] that did not restore a model leaves the flag alone. *)
Lemma loadWeights_flag (g : GRUModel) :
  fst (GRU.loadWeights g) <> Normal true ->
  isTrained (snd (GRU.loadWeights g)) = isTrained g.
Proof.
  unfold GRU.loadWeights, try_catch, GRU.buildModel, bind, this, assign, ret, throw.
  destruct (model g) as [m |];
    destruct (model_load _ _) as [[u | e] m']; cbn; congruence.
Qed.

Lemma after_untrained (c : call) (g : GRUModel) :
  isTrained g = false -> trains c g = false -> isTrained (after c g) = false.
Proof.
  intros Hg Hc. destruct c; cbn [after trains] in *.
  - reflexivity || exact Hg.
  - destruct (GRU.train X y X_val y_val epochs batchSize g) as [[h | e] g'] eqn:E;
      cbn [fst snd] in *; [discriminate |].
    destruct (train_throw_keeps_flag _ _ _ _ _ _ _ _ _ E) as [-> _]. exact Hg.
  - now rewrite predict_keeps_state.
  - now rewrite evaluate_keeps_state.
  - now rewrite saveWeights_keeps_state.
  - rewrite loadWeights_flag; [exact Hg |].
    destruct (fst (GRU.loadWeights g)) as [[|] |]; congruence.
  - reflexivity.
Qed.

Lemma untrained_history_flag (cs : list call) (g : GRUModel) :
  isTrained g = false -> untrained_history cs g = true ->
  isTrained (after_all cs g) = false.
Proof.
  revert g. induction cs as [| c cs IH]; intros g Hg Hcs; [exact Hg |].
  cbn [untrained_history after_all] in *.
  apply andb_prop in Hcs. destruct Hcs as [Hc Hcs].
  apply negb_true_iff in Hc.
  apply IH; [now apply after_untrained | exact Hcs].
Qed.

End HistoryFacts.

(** C3, as the code has it.  When [fit] rejects, [train] throws the same
    error to its caller and leaves [isTrained] and [trainingHistory] as they
    were before the call: a model that was not trained before the failing run
    is still not trained after it, and [predict] and [evaluate] keep refusing
    it with "Model not trained". *)
Theorem train_failure_propagates (rt : Runtime) (X y : Tensor)
    (X_val y_val : option Tensor) (epochs batchSize : Z) (g : GRUModel)
    (m m' : LayersModel) (error : string) :
  model g = Some m ->
  model_fit m X y (validation_of X_val y_val) epochs batchSize = (Throw error, m') ->
  exists g',
    GRU.train (Some X) (Some y) X_val y_val epochs batchSize g = (Throw error, g') /\
    isTrained g' = isTrained g /\
    trainingHistory g' = trainingHistory g /\
    (isTrained g = false ->
       isTrained g' = false /\
       (forall X', GRU.predict X' g' = (Throw "Model not trained", g')) /\
       (forall X' y', GRU.evaluate X' y' g' = (Throw "Model not trained", g'))).
Proof.
  intros Hm Hfit. exists (set_model (Some m') g).
  split; [now apply train_fit_rejects with (m := m) |].
  split; [reflexivity |]. split; [reflexivity |].
  intros Hg. split; [exact Hg |]. split.
  - intros X'. apply predict_untrained. now right.
  - intros X' y'. apply evaluate_untrained. now right.
Qed.

Lemma train_failure_propagates_witness :
  model built_model = Some O /\
  model_fit (Runtime := test_runtime) O one_window two_targets
            (validation_of None None) 1 32
  = (Throw fit_rejection, O) /\
  exists g',
    GRU.train (Some one_window) (Some two_targets) None None 1 32 built_model
    = (Throw fit_rejection, g') /\
    isTrained g' = false.
Proof.
  assert (H1 : model built_model = Some O) by reflexivity.
  assert (H2 : model_fit (Runtime := test_runtime) O one_window two_targets
                 (validation_of None None) 1 32
               = (Throw fit_rejection, O)) by reflexivity.
  split; [exact H1 | split; [exact H2 |]].
  destruct (train_failure_propagates test_runtime one_window two_targets None None
              1 32 built_model O O _ H1 H2) as (g' & Hrun & Hflag & _ & _).
  exists g'. split; [exact Hrun |]. rewrite Hflag. reflexivity.
Defined.

(** A model trained once and trained again on data [fit] rejects: the second
    run throws, the flag still says trained, and [predict] answers. *)
Lemma failed_retrain_stays_trained :
  exists g3 : GRUModel (rt := test_runtime),
    isTrained trained_model = true /\
    GRU.train (Some one_window) (Some two_targets) None None 1 32 trained_model
    = (Throw fit_rejection, g3) /\
    isTrained g3 = true /\
    GRU.predict (Some one_window) g3 = (Normal [[of_Z 1]], g3).
Proof.
  eexists. split; [reflexivity |]. split; [lazy; reflexivity |].
  split; reflexivity.
Qed.

(** C7. From a fresh [GRUModel], after any history of calls none of which
    trained the model (no [train] has returned normally, and no saved model
    was restored), [predict] throws "Model not trained" and produces no
    prediction. *)
Theorem predict_before_training (rt : Runtime) (windowSize predictionHorizon : nat)
    (cs : list call) (X : option Tensor) :
  untrained_history cs (GRU.constructor windowSize predictionHorizon) = true ->
  let g := after_all cs (GRU.constructor windowSize predictionHorizon) in
  isTrained g = false /\
  GRU.predict X g = (Throw "Model not trained", g).
Proof.
  intros Hcs g.
  assert (Hg : isTrained g = false).
  { apply untrained_history_flag; [reflexivity | exact Hcs]. }
  split; [exact Hg |]. apply predict_untrained. now right.
Qed.

Lemma predict_before_training_witness :
  untrained_history calls_before_training fresh_model = true /\
  GRU.predict (Some one_window) (after_all calls_before_training fresh_model)
  = (Throw "Model not trained", after_all calls_before_training fresh_model).
Proof.
  assert (H : untrained_history calls_before_training fresh_model = true)
    by reflexivity.
  split; [exact H |].
  exact (proj2 (predict_before_training test_runtime 2 1 calls_before_training
                  (Some one_window) H)).
Defined.

(** C8. [evaluate] throws "Model not trained" on a model that is not built
    or not trained; when [model.evaluate] throws, [evaluate] throws the same
    error; when it answers the scalars [loss] and [mse], [evaluate] returns
    them with [rmse = Math.sqrt(mse)], computed on the tensors it was handed;
    and whatever it returns normally is of that form, never a default. The
    model is left as it was. *)
Theorem evaluate_metrics_or_error (rt : Runtime) (X_test y_test : option Tensor)
    (g : GRUModel) :
  (model g = None \/ isTrained g = false ->
     GRU.evaluate X_test y_test g = (Throw "Model not trained", g)) /\
  (forall m X y error,
     model g = Some m -> isTrained g = true ->
     X_test = Some X -> y_test = Some y ->
     model_evaluate m X y = Throw error ->
     GRU.evaluate X_test y_test g = (Throw error, g)) /\
  (forall m X y loss mse rest,
     model g = Some m -> isTrained g = true ->
     X_test = Some X -> y_test = Some y ->
     model_evaluate m X y = Normal (loss :: mse :: rest) ->
     GRU.evaluate X_test y_test g
     = (Normal {| loss := loss; mse := mse; rmse := Math_sqrt mse |}, g)) /\
  (forall metrics g',
     GRU.evaluate X_test y_test g = (Normal metrics, g') ->
     g' = g /\
     rmse metrics = Math_sqrt (mse metrics) /\
     exists m X y rest,
       model g = Some m /\ isTrained g = true /\
       X_test = Some X /\ y_test = Some y /\
       model_evaluate m X y = Normal (loss metrics :: mse metrics :: rest)).
Proof.
  split; [apply evaluate_untrained |].
  split.
  { intros m X y error Hm Ht -> -> Hev.
    unfold GRU.evaluate, bind, this, try_catch. rewrite Hm, Ht, Hev. reflexivity. }
  split.
  { intros m X y l ms rest Hm Ht -> -> Hev.
    unfold GRU.evaluate, bind, this, try_catch. rewrite Hm, Ht, Hev. reflexivity. }
  intros metrics g'.
  unfold GRU.evaluate, bind at 1, this at 1, try_catch.
  destruct (model g) as [m |]; [| discriminate].
  destruct (isTrained g); [| discriminate].
  destruct X_test as [X |]; [| discriminate].
  destruct y_test as [y |]; [| discriminate].
  destruct (model_evaluate m X y) as [ev | e] eqn:Hev; [| discriminate].
  destruct ev as [| l [| ms rest]]; try discriminate.
  unfold bind, scalar_at, ret. cbn [nth_error].
  intros H. injection H as <- <-. cbn [loss mse rmse].
  split; [reflexivity |]. split; [reflexivity |].
  exists m, X, y, rest. repeat split; try reflexivity. exact Hev.
Qed.

Lemma evaluate_metrics_or_error_witness :
  GRU.evaluate (Some one_window) (Some one_target) built_model
  = (Throw "Model not trained", built_model) /\
  GRU.evaluate (Some one_window) (Some one_target) trained_model
  = (Normal {| loss := of_Z 4; mse := of_Z 4; rmse := of_Z 2 |}, trained_model).
Proof.
  split.
  - apply (proj1 (evaluate_metrics_or_error test_runtime (Some one_window)
                    (Some one_target) built_model)).
    right. reflexivity.
  - apply (proj1 (proj2 (proj2 (evaluate_metrics_or_error test_runtime
                    (Some one_window) (Some one_target) trained_model)))
             1%nat one_window one_target (of_Z 4) (of_Z 4) []);
      reflexivity.
Defined.

(** ** The light variant of [GRUModel] *)

(** In the second [gru.js] a [train] whose [fit] rejects throws the error
    too, but its [catch] marks the model trained: [evaluate] and [predict]
    then answer. *)
Lemma light_train_failure_marks_trained (rt : Runtime) (X y : Tensor)
    (epochs batchSize : Z) (g : GRUModel) (m m' : LayersModel) (error : string) :
  model g = Some m ->
  model_fit m X y (validationSplit (1 # 10)) epochs batchSize = (Throw error, m') ->
  exists g',
    GRULight.train (Some X) (Some y) epochs batchSize g = (Throw error, g') /\
    isTrained g' = true.
Proof.
  intros Hm Hfit. eexists.
  unfold GRULight.train, bind at 1, this at 1. rewrite Hm.
  unfold bind at 1, ret at 1, try_catch. rewrite Hfit.
  split; reflexivity.
Qed.

Lemma light_train_failure_marks_trained_witness :
  model built_model = Some O /\
  model_fit (Runtime := test_runtime) O one_window two_targets
            (validationSplit (1 # 10)) 1 128
  = (Throw fit_rejection, O) /\
  exists g',
    GRULight.train (Some one_window) (Some two_targets) 1 128 built_model
    = (Throw fit_rejection, g') /\
    isTrained g' = true.
Proof.
  assert (H1 : model built_model = Some O) by reflexivity.
  assert (H2 : model_fit (Runtime := test_runtime) O one_window two_targets
                 (validationSplit (1 # 10)) 1 128
               = (Throw fit_rejection, O)) by reflexivity.
  split; [exact H1 | split; [exact H2 |]].
  exact (light_train_failure_marks_trained test_runtime one_window two_targets
           1 128 built_model O O _ H1 H2).
Defined.

(** In the second [gru.js], [evaluate] never throws: on a model that is not
    trained, and when [model.evaluate] throws, it answers the default metrics
    0.01, 0.01 and 0.1. *)
Lemma light_evaluate_defaults (rt : Runtime) (X_test y_test : option Tensor)
    (g : GRUModel) :
  (exists metrics, GRULight.evaluate X_test y_test g = (Normal metrics, g)) /\
  (model g = None \/ isTrained g = false ->
     GRULight.evaluate X_test y_test g = (Normal GRULight.default_metrics, g)) /\
  (forall m X y error,
     model g = Some m -> isTrained g = true ->
     X_test = Some X -> y_test = Some y ->
     model_evaluate m X y = Throw error ->
     GRULight.evaluate X_test y_test g = (Normal GRULight.default_metrics, g)).
Proof.
  unfold GRULight.evaluate, bind at 1 3 5, this, try_catch.
  split; [| split].
  - destruct (model g), (isTrained g); try (eexists; reflexivity).
    destruct X_test, y_test; try (eexists; reflexivity).
    destruct (model_evaluate _ _ _) as [[| a ev] | e]; eexists; reflexivity.
  - intros [H | H]; rewrite H; [reflexivity |].
    destruct (model g); reflexivity.
  - intros m X y error Hm Ht -> -> Hev. rewrite Hm, Ht, Hev. reflexivity.
Qed.

(** ** The life of a [GRUModel] *)

Section LifeFacts.

Context {rt : Runtime}.

Lemma buildModel_run (g : GRUModel) :
  GRU.buildModel g
  = (Normal (sequential (windowSize g) (predictionHorizon g)),
     set_model (Some (sequential (windowSize g) (predictionHorizon g))) g).
Proof. reflexivity. Qed.

Lemma dispose_run (g : GRUModel) :
  GRU.dispose g = (Normal tt, GRU.constructor (windowSize g) (predictionHorizon g)).
Proof. reflexivity. Qed.

(** The three ways [train] leaves the model. *)
Lemma train_state (X y X_val y_val : option Tensor) (epochs batchSize : Z)
    (g : GRUModel) :
  snd (GRU.train X y X_val y_val epochs batchSize g) = g \/
  (exists m', model g <> None /\
     snd (GRU.train X y X_val y_val epochs batchSize g) = set_model (Some m') g) \/
  (exists h m',
     snd (GRU.train X y X_val y_val epochs batchSize g)
     = set_isTrained true (set_trainingHistory (Some h) (set_model (Some m') g))).
Proof.
  unfold GRU.train, try_catch, bind, this, assign, ret, throw.
  destruct (model g) as [m |] eqn:Hm; [| now left].
  destruct X as [X |], y as [y |]; try now left.
  destruct (model_fit m X y _ epochs batchSize) as [[h | e] m'].
  - right. right. exists h, m'. reflexivity.
  - right. left. exists m'. split; [congruence | reflexivity].
Qed.

(** The two ways [loadWeights] leaves the model, with its answer. *)
Lemma loadWeights_run (g : GRUModel) :
  let m := match model g with
           | Some m => m
           | None => sequential (windowSize g) (predictionHorizon g)
           end in
  GRU.loadWeights g
  = match model_load m "indexeddb://sp500-gru-model" with
    | (Normal _, m') => (Normal true, set_isTrained true (set_model (Some m') g))
    | (Throw _, m') => (Normal false, set_model (Some m') g)
    end.
Proof.
  unfold GRU.loadWeights, try_catch, GRU.buildModel, bind, this, assign, ret, throw.
  destruct (model g) as [m |];
    destruct (model_load _ _) as [[u | e] m']; reflexivity.
Qed.

Lemma well_formed_step (c : call) (g : GRUModel) :
  well_formed g -> well_formed (after c g).
Proof.
  unfold well_formed. intros [H1 H2]. destruct c; cbn [after].
  - rewrite buildModel_run. cbn. split; [congruence | exact H2].
  - destruct (train_state X y X_val y_val epochs batchSize g)
      as [-> | [(m' & Hm & ->) | (h & m' & ->)]]; cbn;
      [now split | split; [congruence | exact H2] | split; [congruence | reflexivity]].
  - rewrite predict_keeps_state. now split.
  - rewrite evaluate_keeps_state. now split.
  - rewrite saveWeights_keeps_state. now split.
  - pose proof (loadWeights_run g) as Hrun. cbv zeta in Hrun. rewrite Hrun.
    destruct (model_load _ _) as [[u | e] m']; cbn;
      (split; [congruence | try reflexivity; exact H2]).
  - rewrite dispose_run. cbn. split; [discriminate | congruence].
Qed.

Lemma sizes_step (c : call) (g : GRUModel) :
  windowSize (after c g) = windowSize g /\
  predictionHorizon (after c g) = predictionHorizon g.
Proof.
  destruct c; cbn [after].
  - now rewrite buildModel_run.
  - destruct (train_state X y X_val y_val epochs batchSize g)
      as [-> | [(m' & Hm & ->) | (h & m' & ->)]]; now split.
  - now rewrite predict_keeps_state.
  - now rewrite evaluate_keeps_state.
  - now rewrite saveWeights_keeps_state.
  - pose proof (loadWeights_run g) as Hrun. cbv zeta in Hrun. rewrite Hrun.
    destruct (model_load _ _) as [[u | e] m']; now split.
  - now rewrite dispose_run.
Qed.

End LifeFacts.

(** From a fresh [GRUModel], after any calls whatever they answered, the
    window size and the horizon are those it was made with, a model marked
    trained has a network (the first half of the guard of [predict],
    [evaluate] and [saveWeights] never decides), and a training history is
    only kept by a model marked trained. *)
Theorem model_stays_well_formed (rt : Runtime) (windowSize0 predictionHorizon0 : nat)
    (cs : list call) :
  let g := after_all cs (GRU.constructor windowSize0 predictionHorizon0) in
  windowSize g = windowSize0 /\
  predictionHorizon g = predictionHorizon0 /\
  well_formed g.
Proof.
  cbv zeta.
  assert (H0 : windowSize (GRU.constructor windowSize0 predictionHorizon0) = windowSize0
               /\ predictionHorizon (GRU.constructor windowSize0 predictionHorizon0)
                  = predictionHorizon0
               /\ well_formed (GRU.constructor windowSize0 predictionHorizon0)).
  { unfold well_formed. cbn. repeat split; congruence. }
  revert H0. generalize (GRU.constructor windowSize0 predictionHorizon0) as g.
  induction cs as [| c cs IH]; intros g Hg; [exact Hg |].
  cbn [after_all]. apply IH.
  destruct Hg as (Hw & Hh & Hwf). destruct (sizes_step c g) as [-> ->].
  repeat split; try assumption; now apply well_formed_step.
Qed.

(** [loadWeights] never throws.  It builds a network when there is none,
    also when nothing can be loaded; it answers [true] and marks the model
    trained exactly when the saved model loads, and otherwise answers [false]
    and leaves the flag as it was. *)
Theorem loadWeights_never_throws (rt : Runtime) (g : GRUModel) :
  exists (restored : bool) (g' : GRUModel) (m m' : LayersModel),
    GRU.loadWeights g = (Normal restored, g') /\
    m = match model g with
        | Some m0 => m0
        | None => sequential (windowSize g) (predictionHorizon g)
        end /\
    model g' = Some m' /\
    trainingHistory g' = trainingHistory g /\
    (restored = true <->
     exists u, model_load m "indexeddb://sp500-gru-model" = (Normal u, m')) /\
    (restored = true -> isTrained g' = true) /\
    (restored = false -> isTrained g' = isTrained g).
Proof.
  pose proof (loadWeights_run g) as Hrun. cbv zeta in Hrun.
  destruct (model_load _ _) as [[u | e] m'] eqn:Hload.
  - exists true. do 2 eexists. exists m'. split; [exact Hrun |].
    split; [reflexivity |]. cbn. repeat split; try congruence.
    intros _. exists u. exact Hload.
  - exists false. do 2 eexists. exists m'. split; [exact Hrun |].
    split; [reflexivity |]. cbn. repeat split; try congruence.
    intros (u & Hu). rewrite Hload in Hu. discriminate.
Qed.

(** [predict] answers what the network predicts or throws: "Model not
    trained" on a model that is not built or not trained, "Input data not
    provided" without an input, and the error of the network otherwise.  It
    never changes the model. *)
Theorem predict_is_the_network (rt : Runtime) (X : option Tensor) (g : GRUModel) :
  snd (GRU.predict X g) = g /\
  (forall predictionsArray,
     fst (GRU.predict X g) = Normal predictionsArray <->
     exists m x,
       model g = Some m /\ isTrained g = true /\ X = Some x /\
       model_predict m x = Normal predictionsArray) /\
  (forall m, model g = Some m -> isTrained g = true -> X = None ->
     fst (GRU.predict X g) = Throw "Input data not provided") /\
  (forall m x error,
     model g = Some m -> isTrained g = true -> X = Some x ->
     model_predict m x = Throw error ->
     fst (GRU.predict X g) = Throw error).
Proof.
  split; [apply predict_keeps_state |].
  unfold GRU.predict, bind, this, try_catch.
  split; [| split].
  - intros p. split.
    + destruct (model g) as [m |]; [| discriminate].
      destruct (isTrained g); [| discriminate].
      destruct X as [x |]; [| discriminate].
      destruct (model_predict m x) as [q | e] eqn:E; [| discriminate].
      cbn. intros H. injection H as <-. exists m, x. now repeat split.
    + intros (m & x & -> & -> & -> & ->). reflexivity.
  - intros m -> -> ->. reflexivity.
  - intros m x error -> -> -> ->. reflexivity.
Qed.

(** Build, train, predict, dispose: when [fit] resolves on the network
    [buildModel] made, [train] returns its history and marks the model
    trained, [predict] then answers what the fitted network predicts, and
    [dispose] brings the model back to the state of its constructor, where
    [predict] throws "Model not trained" and [train] "Model not built". *)
Theorem build_train_predict_dispose (rt : Runtime) (g : GRUModel) (X y x : Tensor)
    (X_val y_val : option Tensor) (epochs batchSize : Z)
    (h : History) (m' : LayersModel) :
  model_fit (sequential (windowSize g) (predictionHorizon g)) X y
            (validation_of X_val y_val) epochs batchSize = (Normal h, m') ->
  exists g1 g2,
    snd (GRU.buildModel g) = g1 /\
    GRU.train (Some X) (Some y) X_val y_val epochs batchSize g1 = (Normal h, g2) /\
    isTrained g2 = true /\
    trainingHistory g2 = Some h /\
    model g2 = Some m' /\
    GRU.predict (Some x) g2
    = (match model_predict m' x with
       | Normal p => Normal p
       | Throw e => Throw e
       end, g2) /\
    GRU.dispose g2
    = (Normal tt, GRU.constructor (windowSize g) (predictionHorizon g)) /\
    fst (GRU.predict (Some x) (snd (GRU.dispose g2))) = Throw "Model not trained" /\
    fst (GRU.train (Some X) (Some y) X_val y_val epochs batchSize (snd (GRU.dispose g2)))
    = Throw "Model not built. Call buildModel() first.".
Proof.
  intros Hfit. do 2 eexists. split; [reflexivity |].
  split.
  { rewrite buildModel_run. cbn [snd].
    apply train_fit_resolves with (m := sequential (windowSize g) (predictionHorizon g));
      [reflexivity | exact Hfit]. }
  cbn. repeat split.
  unfold GRU.predict, bind, this, try_catch. cbn.
  destruct (model_predict m' x); reflexivity.
Qed.

Lemma build_train_predict_dispose_witness :
  model_fit (Runtime := test_runtime)
            (sequential (windowSize fresh_model) (predictionHorizon fresh_model))
            one_window one_target (validation_of None None) 1 32
  = (Normal tt, 1%nat) /\
  exists g2,
    GRU.train (Some one_window) (Some one_target) None None 1 32
              (snd (GRU.buildModel fresh_model)) = (Normal tt, g2) /\
    GRU.predict (Some one_window) g2 = (Normal [[of_Z 1]], g2) /\
    GRU.dispose g2 = (Normal tt, fresh_model).
Proof.
  assert (H : model_fit (Runtime := test_runtime)
                (sequential (windowSize fresh_model) (predictionHorizon fresh_model))
                one_window one_target (validation_of None None) 1 32
              = (Normal tt, 1%nat)) by reflexivity.
  split; [exact H |].
  destruct (build_train_predict_dispose test_runtime fresh_model one_window
              one_target one_window None None 1 32 tt 1%nat H)
    as (g1 & g2 & <- & Htrain & _ & _ & _ & Hpredict & Hdispose & _).
  exists g2. split; [exact Htrain |]. split; [exact Hpredict | exact Hdispose].
Defined.

(** ** More of the light variant *)

(** In the second [gru.js], [predict] throws only for want of a network,
    "Model not built"; with a network, trained or not, it always answers:
    what the network predicts, or one row of [predictionHorizon] zeros when
    the network throws or there is no input. *)
Theorem light_predict_answers (rt : Runtime) (X : option Tensor) (g : GRUModel) :
  (model g = None -> GRULight.predict X g = (Throw "Model not built", g)) /\
  (forall m, model g = Some m ->
     exists p,
       GRULight.predict X g = (Normal p, g) /\
       ((exists x, X = Some x /\ model_predict m x = Normal p) \/
        (p = [repeat (Fin 0) (predictionHorizon g)] /\
         (X = None \/ exists x e, X = Some x /\ model_predict m x = Throw e)))).
Proof.
  unfold GRULight.predict, bind, this, try_catch.
  split; [intros ->; reflexivity |].
  intros m ->. destruct X as [x |].
  - destruct (model_predict m x) as [p | e] eqn:E.
    + exists p. split; [reflexivity |]. left. now exists x.
    + eexists. split; [reflexivity |]. right. split; [reflexivity |].
      right. now exists x, e.
  - eexists. split; [reflexivity |]. right. split; [reflexivity | now left].
Qed.

(** In the second [gru.js], [train] with training data builds a network
    when there is none and always leaves the model marked trained, whether
    [fit] resolves or rejects; [buildModel] is the call that clears the
    mark. *)
Theorem light_train_always_marks (rt : Runtime) (X y : Tensor)
    (epochs batchSize : Z) (g : GRUModel) :
  isTrained (snd (GRULight.train (Some X) (Some y) epochs batchSize g)) = true /\
  model (snd (GRULight.train (Some X) (Some y) epochs batchSize g)) <> None /\
  isTrained (snd (GRULight.buildModel g)) = false.
Proof.
  unfold GRULight.train, GRULight.buildModel, bind, this, assign, ret, throw,
    try_catch.
  destruct (model g) as [m |]; cbn;
    destruct (model_fit _ X y _ epochs batchSize) as [[h | e] m'];
    cbn; repeat split; congruence.
Qed.

(** ** The price projection *)

Import StockPredictorApp.

Lemma prediction_cards_projected (p : Q) (index : Z) (rs : list Q) :
  map newPrice (prediction_cards (Fin p) index (map Fin rs)) = map Fin (projected p rs) /\
  map predictedReturn (prediction_cards (Fin p) index (map Fin rs)) = map Fin rs /\
  map day (prediction_cards (Fin p) index (map Fin rs))
  = map (fun k => index + 1 + Z.of_nat k) (seq 0 (length rs)).
Proof.
  revert p index. induction rs as [| r rs IH]; intros p index; [now repeat split |].
  cbn [map prediction_cards projected newPrice predictedReturn day mul add length seq].
  destruct (IH (p + p * r)%Q (index + 1)) as (H1 & H2 & H3).
  rewrite H1, H2, H3. split; [reflexivity |]. split; [reflexivity |].
  f_equal; [lia |].
  rewrite <- seq_shift, map_map. apply map_ext. intros k. lia.
Qed.

Lemma projected_length (p : Q) (rs : list Q) : length (projected p rs) = length rs.
Proof.
  revert p. induction rs as [| r rs IH]; intros p; [reflexivity |].
  cbn [projected length]. now rewrite IH.
Qed.

(** Every projected price is the one before it times [1 + return]. *)
Lemma projected_compounds (p : Q) (rs : list Q) (k : nat) (r : Q) :
  nth_error rs k = Some r ->
  exists previous current,
    nth_error (p :: projected p rs) k = Some previous /\
    nth_error (projected p rs) k = Some current /\
    (current == previous * (1 + r))%Q.
Proof.
  revert p k. induction rs as [| r0 rs IH]; intros p k Hk.
  - destruct k; discriminate.
  - destruct k as [| k].
    + injection Hk as ->. exists p, (p + p * r)%Q.
      repeat split. ring.
    + cbn [nth_error] in Hk.
      destruct (IH (p + p * r0)%Q k Hk) as (prev & cur & H1 & H2 & H3).
      exists prev, cur. repeat split; assumption.
Qed.

(** C6. [displayPredictions] compounds: with a finite last price [p0] and
    finite predicted returns, it shows one card per return, day 1 onwards,
    and the price of each card is the price before it (the last known price
    for the first card) times [1 + return].  From 100 with the returns 0.01
    and -0.02 the prices are 101 and 98.98. *)
Theorem displayPredictions_compounds :
  (forall (rt : Runtime) (app : StockPredictorApp.t) (d : list PricePoint)
          (last : PricePoint) (p0 : Q) (rs : list Q),
     DataLoader.data (dataLoader app) = Some d ->
     nth_error d (length d - 1) = Some last ->
     price last = Fin p0 ->
     predictions app = Some (map Fin rs) ->
     exists (cards : list PredictionCard) (ps : list Q),
       displayPredictions app = (Normal cards, app) /\
       map predictedReturn cards = map Fin rs /\
       map newPrice cards = map Fin ps /\
       length ps = length rs /\
       forall k r, nth_error rs k = Some r ->
         exists previous current,
           nth_error (p0 :: ps) k = Some previous /\
           nth_error ps k = Some current /\
           (current == previous * (1 + r))%Q) /\
  (exists cards a b,
     displayPredictions app_at_100 = (Normal cards, app_at_100) /\
     map newPrice cards = [Fin a; Fin b] /\
     (a == 101)%Q /\ (b == 9898 # 100)%Q).
Proof.
  split.
  - intros rt app d last p0 rs Hd Hlast Hp Hpred.
    exists (prediction_cards (Fin p0) 0 (map Fin rs)), (projected p0 rs).
    destruct (prediction_cards_projected p0 0 rs) as (H1 & H2 & _).
    split.
    { unfold displayPredictions, bind, this. rewrite Hd, Hlast, Hpred, Hp.
      reflexivity. }
    split; [exact H2 |]. split; [exact H1 |].
    split; [apply projected_length |].
    intros k r Hk. now apply projected_compounds.
  - do 3 eexists. split; [lazy; reflexivity |].
    split; [reflexivity |]. split; reflexivity.
Qed.

Lemma displayPredictions_compounds_witness :
  exists cards ps,
    displayPredictions app_at_100 = (Normal cards, app_at_100) /\
    map newPrice cards = map Fin ps /\
    exists previous current,
      nth_error (100%Q :: ps) 1 = Some previous /\
      nth_error ps 1 = Some current /\
      (current == previous * (1 + (- 2 # 100)))%Q.
Proof.
  destruct (proj1 displayPredictions_compounds test_runtime app_at_100
              _ {| date := "02.01.2020"; price := of_Z 100 |} 100%Q
              [1 # 100; - 2 # 100]%Q eq_refl eq_refl eq_refl eq_refl)
    as (cards & ps & Hrun & _ & Hp & _ & Hlaw).
  exists cards, ps. split; [exact Hrun |]. split; [exact Hp |].
  exact (Hlaw 1%nat (- 2 # 100)%Q eq_refl).
Defined.

(** ** Sorting *)

Section Sorting.

Context {A : Type} (compare : A -> A -> number).

Hypothesis compare_asym :
  forall x y, gt (compare x y) (Fin 0) = true -> gt (compare y x) (Fin 0) = false.

Lemma insert_perm (x : A) (l : list A) : Permutation (insert compare x l) (x :: l).
Proof.
  induction l as [| y l IH]; [reflexivity |].
  cbn [insert]. destruct (gt (compare x y) (Fin 0)); [| reflexivity].
  rewrite IH. apply perm_swap.
Qed.

Lemma sort_perm (l : list A) : Permutation (sort compare l) l.
Proof.
  induction l as [| x l IH]; [reflexivity |].
  cbn [sort fold_right]. fold (sort compare l).
  rewrite insert_perm. now constructor.
Qed.

Lemma insert_ascending (x : A) (l : list A) :
  ascending compare l = true -> ascending compare (insert compare x l) = true.
Proof.
  induction l as [| y l IH]; intros Hl; [reflexivity |].
  cbn [insert]. destruct (gt (compare x y) (Fin 0)) eqn:Hxy.
  - destruct l as [| z l].
    + cbn [insert ascending]. now rewrite (compare_asym _ _ Hxy).
    + cbn [ascending] in Hl. apply andb_prop in Hl. destruct Hl as [Hyz Hl].
      specialize (IH Hl). cbn [insert] in *.
      destruct (gt (compare x z) (Fin 0)) eqn:Hxz.
      * cbn [ascending]. cbn [ascending] in IH. now rewrite Hyz, IH.
      * cbn [ascending]. cbn [ascending] in IH.
        now rewrite (compare_asym _ _ Hxy), IH.
  - cbn [ascending]. cbn [ascending] in Hl. now rewrite Hxy, Hl.
Qed.

Lemma sort_ascending (l : list A) : ascending compare (sort compare l) = true.
Proof.
  induction l as [| x l IH]; [reflexivity |].
  cbn [sort fold_right]. fold (sort compare l). now apply insert_ascending.
Qed.

End Sorting.

Lemma sub_gt_asym (x y : number) :
  gt (sub x y) (Fin 0) = true -> gt (sub y x) (Fin 0) = false.
Proof.
  destruct x as [| a | [|]], y as [| b | [|]]; cbn; try congruence.
  intros H. apply negb_true_iff in H. apply negb_false_iff.
  apply Qle_bool_iff.
  assert (Hn : ~ (a + - b <= 0)%Q).
  { intros Hle. apply Qle_bool_iff in Hle. congruence. }
  lra.
Qed.

(** Two lists of the same length that differ, differ at some position. *)
Lemma differ_at (l1 l2 : list string) :
  length l1 = length l2 -> l1 <> l2 ->
  exists i a b, nth_error l1 i = Some a /\ nth_error l2 i = Some b /\ a <> b.
Proof.
  revert l2. induction l1 as [| a l1 IH]; intros [| b l2] Hlen Hne;
    try discriminate; [congruence |].
  destruct (string_dec a b) as [-> | Hab].
  - destruct (IH l2) as (i & x & y & H1 & H2 & H3); [now injection Hlen | congruence |].
    exists (S i), x, y. now repeat split.
  - exists O, a, b. now repeat split.
Qed.

(** ** Parsing *)

Section ParsingFacts.

Context {rt : Runtime}.

Lemma parse_lines_invariant (lines : list string) (parsedData : list PricePoint)
    (labels : list string) :
  labels = map date parsedData ->
  Forall positive_price parsedData ->
  snd (parse_lines lines parsedData labels)
  = map date (fst (parse_lines lines parsedData labels)) /\
  Forall positive_price (fst (parse_lines lines parsedData labels)).
Proof.
  revert parsedData labels.
  induction lines as [| raw rest IH]; intros pd lb Hlb Hpos; [now split |].
  cbn [parse_lines].
  destruct (trim raw) as [| c line]; [now apply IH |].
  destruct (split ";" (String c line)) as [| part0 [| part1 parts]];
    try now apply IH.
  destruct (negb (isNaN (parseFloat (trim part1)))
            && gt (parseFloat (trim part1)) (Fin 0)) eqn:Hkeep;
    [| now apply IH].
  apply andb_prop in Hkeep. destruct Hkeep as [Hnan Hgt].
  apply negb_true_iff in Hnan.
  apply IH.
  - rewrite map_app, Hlb. reflexivity.
  - apply Forall_app. split; [exact Hpos |]. repeat constructor; assumption.
Qed.

Lemma parseCSV_run (content : string) (dl : DataLoader.t) :
  let sorted := sort compare_dates (retained content) in
  parseCSV content dl =
  ((if (length sorted <? 65)%nat
    then Throw ("Insufficient data. Need at least 65 days, got "
                ++ show_nat (length sorted))%string
    else Normal tt),
   set_parsed (map date (retained content)) (compute_returns sorted)
              (Some sorted) dl).
Proof.
  intros sorted.
  destruct (parse_lines_invariant (skipn 1 (split newline (trim content))) [] []
              eq_refl (Forall_nil _)) as [Hlabels _].
  unfold sorted, retained in *.
  unfold parseCSV, bind at 1, assign at 1.
  destruct (parse_lines (skipn 1 (split newline (trim content))) [] [])
    as [parsedData labels].
  cbn [fst snd] in *. subst labels.
  unfold bind, assign.
  destruct (length (sort compare_dates parsedData) <? 65)%nat; reflexivity.
Qed.

Lemma compare_dates_asym (a b : PricePoint) :
  gt (compare_dates a b) (Fin 0) = true -> gt (compare_dates b a) (Fin 0) = false.
Proof. apply sub_gt_asym. Qed.

Lemma ascending_dates (l1 l2 : list PricePoint) :
  map date l1 = map date l2 ->
  ascending compare_dates l1 = ascending compare_dates l2.
Proof.
  revert l2. induction l1 as [| a l1 IH]; intros [| b l2] H; try discriminate;
    [reflexivity |].
  cbn [map] in H. injection H as Hab H.
  specialize (IH l2 H).
  destruct l1 as [| a' l1], l2 as [| b' l2]; try discriminate; [reflexivity |].
  cbn [map] in H. injection H as Hab' _.
  cbn [ascending] in *. rewrite IH. unfold compare_dates.
  now rewrite Hab, Hab'.
Qed.

Lemma insert_not_after (x : PricePoint) (l : list PricePoint) :
  valid_date x -> Forall valid_date l ->
  StronglySorted not_after l ->
  StronglySorted not_after (insert compare_dates x l).
Proof.
  intros Hx Hl Hs. induction Hs as [| y l Hs IH Hy]; cbn [insert].
  - repeat constructor.
  - apply Forall_cons_iff in Hl. destruct Hl as [Hvy Hl].
    destruct (finite_inv _ Hx) as [tx Htx].
    destruct (finite_inv _ Hvy) as [ty Hty].
    unfold compare_dates. rewrite Htx, Hty. cbn [sub add opp gt].
    destruct (Qle_bool (tx + - ty) 0) eqn:E; cbn [negb].
    + apply Qle_bool_iff in E.
      assert (Hxy : not_after x y) by (exists tx, ty; repeat split; try assumption; lra).
      constructor; [now constructor |].
      constructor; [exact Hxy |].
      apply Forall_forall. intros z Hz.
      rewrite Forall_forall in Hy. specialize (Hy z Hz).
      destruct Hy as (ty' & tz & H1 & H2 & H3).
      rewrite Hty in H1. injection H1 as <-.
      exists tx, tz. repeat split; try assumption. lra.
    + assert (Hyx : not_after y x).
      { exists ty, tx. repeat split; try assumption.
        assert (~ (tx + - ty <= 0)%Q)
          by (intros Hle; apply Qle_bool_iff in Hle; congruence).
        lra. }
      constructor; [now apply IH |].
      apply (Permutation_Forall (Permutation_sym (insert_perm compare_dates x l))).
      now constructor.
Qed.

Lemma sort_not_after (l : list PricePoint) :
  Forall valid_date l -> StronglySorted not_after (sort compare_dates l).
Proof.
  intros Hl. induction Hl as [| x l Hx Hl IH]; [constructor |].
  cbn [sort fold_right]. fold (sort compare_dates l).
  apply insert_not_after; [exact Hx | | exact IH].
  apply (Permutation_Forall (Permutation_sym (sort_perm compare_dates l))).
  exact Hl.
Qed.

End ParsingFacts.

(** ** Returns *)

(** The return series is one shorter than the price series. *)
Lemma compute_returns_length (parsedData : list PricePoint) :
  length (compute_returns parsedData) = (length parsedData - 1)%nat.
Proof.
  induction parsedData as [| previous rest IH]; [reflexivity |].
  destruct rest as [| current rest]; [reflexivity |].
  cbn [compute_returns length] in *. rewrite IH. lia.
Qed.

(** After [parseCSV], also when it throws for lack of rows, [returns] holds
    one return per pair of neighbouring rows of [data]. *)
Lemma parseCSV_returns_length (rt : Runtime) (content : string) (dl : DataLoader.t) :
  exists d,
    data (snd (parseCSV content dl)) = Some d /\
    returns (snd (parseCSV content dl)) = compute_returns d /\
    length (returns (snd (parseCSV content dl))) = (length d - 1)%nat.
Proof.
  pose proof (parseCSV_run content dl) as Hrun. cbv zeta in Hrun.
  rewrite Hrun. cbn [snd data returns set_parsed].
  eexists. split; [reflexivity |]. split; [reflexivity |].
  apply compute_returns_length.
Qed.

(** A row that is not a quote is skipped and the rows around it are kept. *)
Lemma bad_row_is_skipped :
  retained csv_latest_first
  = [ {| date := "03.01.2020"; price := of_Z 102 |};
      {| date := "02.01.2020"; price := of_Z 101 |};
      {| date := "01.01.2020"; price := of_Z 100 |} ].
Proof. vm_compute. reflexivity. Qed.

(** ** The parsed series *)

(** C9, as the code has it.  The series [parseCSV] leaves in [data] holds
    exactly the rows it kept, every one with a price that is a number above
    0, duplicates of a date included; no row is directly followed by one the
    comparator dates earlier; and when the date of every row is valid the
    series is in ascending (not strictly ascending) order of date. *)
Theorem parseCSV_series (rt : Runtime) (content : string) (dl : DataLoader.t) :
  exists d,
    data (snd (parseCSV content dl)) = Some d /\
    Forall positive_price d /\
    Permutation d (retained content) /\
    ascending compare_dates d = true /\
    (Forall valid_date d -> StronglySorted not_after d).
Proof.
  pose proof (parseCSV_run content dl) as Hrun. cbv zeta in Hrun.
  rewrite Hrun. cbn [snd data set_parsed].
  eexists. split; [reflexivity |].
  pose proof (sort_perm compare_dates (retained content)) as Hperm.
  split.
  { apply (Permutation_Forall (Permutation_sym Hperm)).
    apply (parse_lines_invariant _ [] [] eq_refl (Forall_nil _)). }
  split; [exact Hperm |].
  split; [apply sort_ascending, compare_dates_asym |].
  intros Hvalid. apply sort_not_after.
  apply (Permutation_Forall Hperm). exact Hvalid.
Qed.

Lemma parseCSV_series_witness :
  exists d,
    data (snd (parseCSV (rt := test_runtime) csv_latest_first DataLoader.constructor))
    = Some d /\
    Forall (valid_date (rt := test_runtime)) d /\
    StronglySorted (not_after (rt := test_runtime)) d.
Proof.
  destruct (parseCSV_series test_runtime csv_latest_first DataLoader.constructor)
    as (d & Hd & _ & _ & _ & Hsorted).
  exists d. split; [exact Hd |].
  assert (Hvalid : Forall (valid_date (rt := test_runtime)) d).
  { vm_compute in Hd. injection Hd as <-. repeat constructor. }
  split; [exact Hvalid | exact (Hsorted Hvalid)].
Defined.

(** On [csv65] the parse succeeds and keeps both rows dated 15.01.2020. *)
Lemma parseCSV_keeps_duplicate_dates :
  exists dl' d,
    parseCSV (rt := test_runtime) csv65 DataLoader.constructor = (Normal tt, dl') /\
    data dl' = Some d /\
    length d = 65%nat /\
    nth_error d 14 = Some {| date := "15.01.2020"; price := Fin (inject_Z 114) |} /\
    nth_error d 15 = Some {| date := "15.01.2020"; price := Fin (1145 # 10) |}.
Proof.
  exists (snd (parseCSV (rt := test_runtime) csv65 DataLoader.constructor)).
  eexists. split; [vm_compute; reflexivity |].
  split; [vm_compute; reflexivity |].
  repeat split; vm_compute; reflexivity.
Qed.

(** ** Dates against prices in [getHistoricalData] *)

(** C10, as the code has it.  When some kept row is directly followed by one
    the comparator dates earlier, [getHistoricalData] after [parseCSV] pairs
    some price with a date that is not its own: there is an index [i] at
    which [dates] holds another date than the row whose price [prices] holds
    at [i].  Rows that are out of date order without such a pair stay in
    place, and their dates beside their prices: the series [csv_gap]
    below. *)
Theorem getHistoricalData_dates_misaligned (rt : Runtime) (content : string)
    (dl : DataLoader.t) :
  ascending compare_dates (retained content) = false ->
  exists (h : HistoricalData) (d : list PricePoint) (i : nat) (label : string)
         (p : PricePoint),
    getHistoricalData (snd (parseCSV content dl)) = Some h /\
    data (snd (parseCSV content dl)) = Some d /\
    dates h = map date (retained content) /\
    prices h = map price d /\
    nth_error (dates h) i = Some label /\
    nth_error d i = Some p /\
    nth_error (prices h) i = Some (price p) /\
    label <> date p.
Proof.
  intros Hunsorted.
  pose proof (parseCSV_run content dl) as Hrun. cbv zeta in Hrun.
  rewrite Hrun. cbn [snd]. unfold getHistoricalData.
  cbn [data dateLabels set_parsed].
  set (kept := retained content) in *.
  set (d := sort compare_dates kept).
  assert (Hlen : length (map date kept) = length (map date d)).
  { rewrite !length_map. symmetry. apply Permutation_length, sort_perm. }
  assert (Hne : map date kept <> map date d).
  { intros Heq. apply ascending_dates in Heq.
    unfold d in Heq.
    rewrite (sort_ascending compare_dates compare_dates_asym kept) in Heq.
    congruence. }
  destruct (differ_at _ _ Hlen Hne) as (i & a & b & Ha & Hb & Hab).
  rewrite nth_error_map in Hb.
  destruct (nth_error d i) as [p |] eqn:Hp; [| discriminate].
  cbn [option_map] in Hb. injection Hb as <-.
  eexists. exists d, i, a, p. cbn [dates prices].
  repeat split; try reflexivity; try assumption.
  cbn [prices]. rewrite nth_error_map, Hp. reflexivity.
Qed.

Lemma getHistoricalData_dates_misaligned_witness :
  ascending (compare_dates (rt := test_runtime)) (retained csv_latest_first) = false /\
  exists h d,
    getHistoricalData
      (snd (parseCSV (rt := test_runtime) csv_latest_first DataLoader.constructor))
    = Some h /\
    data (snd (parseCSV (rt := test_runtime) csv_latest_first DataLoader.constructor))
    = Some d /\
    exists i label p,
      nth_error (dates h) i = Some label /\
      nth_error d i = Some p /\
      label <> date p.
Proof.
  assert (H : ascending (compare_dates (rt := test_runtime))
                (retained csv_latest_first) = false)
    by (vm_compute; reflexivity).
  split; [exact H |].
  destruct (getHistoricalData_dates_misaligned test_runtime csv_latest_first
              DataLoader.constructor H)
    as (h & d & i & label & p & Hh & Hd & _ & _ & Hl & Hp & _ & Hne).
  exists h, d. split; [exact Hh |]. split; [exact Hd |].
  exists i, label, p. repeat split; assumption.
Defined.

(** In [csv_gap] the row of 03.01.2020 comes before the row of 01.01.2020,
    with a row between them whose date does not parse: the comparator answers
    [NaN] on both neighbouring pairs, [sort] leaves the three rows where they
    are, and every price keeps its own date. *)
Lemma dates_aligned_out_of_order :
  exists (h : HistoricalData) (d : list PricePoint) (later earlier : PricePoint)
         (t_later t_earlier : Q),
    retained csv_gap
    = [later; {| date := "bad-date"; price := of_Z 101 |}; earlier] /\
    parseDate (rt := test_runtime) (date later) = Fin t_later /\
    parseDate (rt := test_runtime) (date earlier) = Fin t_earlier /\
    (t_earlier < t_later)%Q /\
    data (snd (parseCSV (rt := test_runtime) csv_gap DataLoader.constructor))
    = Some d /\
    d = retained csv_gap /\
    getHistoricalData
      (snd (parseCSV (rt := test_runtime) csv_gap DataLoader.constructor))
    = Some h /\
    dates h = map date d /\
    prices h = map price d.
Proof.
  do 6 eexists.
  split; [vm_compute; reflexivity |].
  split; [vm_compute; reflexivity |].
  split; [vm_compute; reflexivity |].
  split; [reflexivity |].
  split; [vm_compute; reflexivity |].
  split; [vm_compute; reflexivity |].
  split; [vm_compute; reflexivity |].
  split; reflexivity.
Qed.

(** ** Disposal and reload *)

Lemma prepareData_parameters {rt : Runtime} (W H : nat) (ts : Q)
    (dl dl' : DataLoader.t) :
  prepareData W H ts dl = (Normal tt, dl') ->
  returns dl' = returns dl /\
  data dl' = data dl /\
  dateLabels dl' = dateLabels dl /\
  min dl' = Some (Math_min (returns dl)) /\
  max dl' = Some (Math_max (returns dl)) /\
  normalizedData dl' = Some (normalized (returns dl)).
Proof.
  intros Hrun.
  destruct (prepareData_normal_inv W H ts dl dl' Hrun)
    as (_ & _ & s & _ & _ & _ & ->).
  repeat split.
Qed.

Section ReloadFacts.

Context {rt : Runtime}.

Lemma loadCSVFromGitHub_normal_inv (fetched : completion string)
    (dl dl' : DataLoader.t) (d : option (list PricePoint)) :
  loadCSVFromGitHub fetched dl = (Normal d, dl') ->
  exists content,
    fetched = Normal content /\
    parseCSV content dl = (Normal tt, dl').
Proof.
  unfold loadCSVFromGitHub, try_catch.
  destruct fetched as [content | error]; [| discriminate].
  unfold bind at 1.
  destruct (parseCSV content dl) as [[[] | e] dl1] eqn:Hparse; [| discriminate].
  unfold bind, this, ret. intros H. injection H as _ <-.
  exists content. now split.
Qed.

End ReloadFacts.

(** C5, as the code has it.  [dispose] clears the normalized series and the
    four tensors and nothing else: the returns, [min], [max], the series and
    its date labels stay.  A reload that succeeds ([loadData] through
    [prepareData]) replaces them all from the new text: the series and the
    returns by [parseCSV], [min], [max] and the normalized series by
    [normalizeReturns] over the new returns. *)
Theorem dispose_and_reload :
  (forall dl : DataLoader.t,
     exists dl',
       DataLoader.dispose dl = (Normal tt, dl') /\
       normalizedData dl' = None /\
       X_train dl' = None /\ y_train dl' = None /\
       X_test dl' = None /\ y_test dl' = None /\
       returns dl' = returns dl /\
       min dl' = min dl /\ max dl' = max dl /\
       data dl' = data dl /\ dateLabels dl' = dateLabels dl /\
       trainIndices dl' = trainIndices dl /\ testIndices dl' = testIndices dl) /\
  (forall (rt : Runtime) (fetched : completion string) (app app' : StockPredictorApp.t),
     loadData_body fetched app = (Normal tt, app') ->
     exists content,
       let series := sort compare_dates (retained content) in
       let dl' := dataLoader app' in
       fetched = Normal content /\
       data dl' = Some series /\
       dateLabels dl' = map date (retained content) /\
       returns dl' = compute_returns series /\
       min dl' = Some (Math_min (returns dl')) /\
       max dl' = Some (Math_max (returns dl')) /\
       normalizedData dl' = Some (normalized (returns dl')) /\
       predictions app' = None /\
       isTrained (StockPredictorApp.model app') = false).
Proof.
  split.
  - intros dl. eexists. split; [reflexivity |]. repeat split.
  - intros rt fetched app app'.
    unfold loadData_body, on_dataLoader, on_model, DataLoader.dispose,
      GRU.dispose, set_predictions.
    unfold bind, assign.
    cbn [dataLoader StockPredictorApp.model isTraining predictions fst snd].
    match goal with
    | |- context [loadCSVFromGitHub fetched ?dl1] =>
        destruct (loadCSVFromGitHub fetched dl1) as [[d | e] dl2] eqn:Hload;
          [| discriminate]
    end.
    cbn [dataLoader StockPredictorApp.model isTraining predictions fst snd].
    destruct (prepareData 60 5 (1 # 5) dl2) as [[[] | e] dl3] eqn:Hprep;
      [| discriminate].
    intros H. injection H as <-.
    cbn [dataLoader StockPredictorApp.model isTraining predictions].
    destruct (loadCSVFromGitHub_normal_inv _ _ _ _ Hload) as (content & -> & Hparse).
    pose proof (parseCSV_run content) as Hrun. cbv zeta in Hrun.
    rewrite Hrun in Hparse. injection Hparse as _ <-.
    destruct (prepareData_parameters _ _ _ _ _ Hprep)
      as (Hr & Hd & Hl & Hmin & Hmax & Hnd).
    exists content. cbv zeta.
    rewrite Hr, Hd, Hl, Hmin, Hmax, Hnd.
    cbn [data dateLabels returns set_parsed].
    repeat split.
Qed.

Lemma dispose_and_reload_witness :
  exists app',
    loadData_body (Normal csv66) fresh_app = (Normal tt, app') /\
    max (dataLoader app') = Some (Math_max (returns (dataLoader app'))) /\
    Math_max (returns (dataLoader app')) = Fin (137 # 163).
Proof.
  assert (Hrun : loadData_body (Normal csv66) fresh_app
                 = (Normal tt, snd (loadData_body (Normal csv66) fresh_app)))
    by (vm_compute; reflexivity).
  exists (snd (loadData_body (Normal csv66) fresh_app)).
  split; [exact Hrun |].
  destruct (proj2 dispose_and_reload test_runtime _ _ _ Hrun)
    as (content & _ & _ & _ & _ & _ & Hmax & _).
  split; [exact Hmax |]. vm_compute. reflexivity.
Defined.

(** After [csv66] was loaded, [dispose] leaves its returns, [min] and [max]
    in place; reloading [csv65], which parses but is one row short for
    [prepareData], leaves the new returns beside the old [max], and
    [denormalize] answers with the old parameters. *)
Lemma dispose_keeps_normalization_parameters :
  exists (app1 app2 : StockPredictorApp.t (rt := test_runtime))
         (dl1 : DataLoader.t) (y : Q),
    loadData (Normal csv66) fresh_app = (Normal tt, app1) /\
    DataLoader.dispose (dataLoader app1) = (Normal tt, dl1) /\
    length (returns dl1) = 65%nat /\
    min dl1 = Some (Fin (50 # 11450)) /\
    max dl1 = Some (Fin (137 # 163)) /\
    loadData (Normal csv65) app1 = (Normal tt, app2) /\
    length (returns (dataLoader app2)) = 64%nat /\
    Math_max (returns (dataLoader app2)) = Fin (1 # 100) /\
    max (dataLoader app2) = Some (Fin (137 # 163)) /\
    denormalize (Fin 1) (dataLoader app2) = (Normal (Fin y), dataLoader app2) /\
    (y == 137 # 163)%Q.
Proof.
  exists (snd (loadData (Normal csv66) fresh_app)).
  exists (snd (loadData (Normal csv65) (snd (loadData (Normal csv66) fresh_app)))).
  exists (snd (DataLoader.dispose (dataLoader (snd (loadData (Normal csv66) fresh_app))))).
  eexists.
  split; [vm_compute; reflexivity |].
  split; [reflexivity |].
  split; [vm_compute; reflexivity |].
  split; [vm_compute; reflexivity |].
  split; [vm_compute; reflexivity |].
  split; [vm_compute; reflexivity |].
  split; [vm_compute; reflexivity |].
  split; [vm_compute; reflexivity |].
  split; [vm_compute; reflexivity |].
  split; [vm_compute; reflexivity |].
  vm_compute. reflexivity.
Qed.

(** * Further properties of the code *)

(** ** Bounds of the normalized series *)

Lemma fold_min2_spec (l : list number) :
  Forall finite l -> forall a : Q,
  exists mn,
    fold_left min2 l (Fin a) = Fin mn /\
    (mn = a \/ In (Fin mn) l) /\
    (mn <= a)%Q /\
    forall q, In (Fin q) l -> (mn <= q)%Q.
Proof.
  intros Hl. induction Hl as [| x l Hx Hl IH]; intros a.
  - exists a. cbn. repeat split; [now left | lra | tauto].
  - destruct (finite_inv _ Hx) as [b ->]. cbn [fold_left].
    assert (Hstep : exists c, min2 (Fin a) (Fin b) = Fin c /\ (c = a \/ c = b)
                              /\ (c <= a)%Q /\ (c <= b)%Q).
    { unfold min2, lt, gt. destruct (Qle_bool a b) eqn:E; cbn [negb].
      - apply Qle_bool_iff in E. exists a. repeat split; [now left | lra | exact E].
      - assert (~ (a <= b)%Q) by (intros H; apply Qle_bool_iff in H; congruence).
        exists b. repeat split; [now right | lra | lra]. }
    destruct Hstep as (c & -> & Hc & Hca & Hcb).
    destruct (IH c) as (mn & Hfold & Hin & Hle & Hall).
    exists mn. split; [exact Hfold |]. split; [| split].
    + destruct Hin as [-> | Hin]; [| right; now right].
      destruct Hc as [-> | ->]; [now left | right; now left].
    + lra.
    + intros q [Hq | Hq]; [injection Hq as <-; lra | now apply Hall].
Qed.

Lemma fold_max2_spec (l : list number) :
  Forall finite l -> forall a : Q,
  exists mx,
    fold_left max2 l (Fin a) = Fin mx /\
    (mx = a \/ In (Fin mx) l) /\
    (a <= mx)%Q /\
    forall q, In (Fin q) l -> (q <= mx)%Q.
Proof.
  intros Hl. induction Hl as [| x l Hx Hl IH]; intros a.
  - exists a. cbn. repeat split; [now left | lra | tauto].
  - destruct (finite_inv _ Hx) as [b ->]. cbn [fold_left].
    assert (Hstep : exists c, max2 (Fin a) (Fin b) = Fin c /\ (c = a \/ c = b)
                              /\ (a <= c)%Q /\ (b <= c)%Q).
    { unfold max2, gt. destruct (Qle_bool b a) eqn:E; cbn [negb].
      - apply Qle_bool_iff in E. exists a. repeat split; [now left | lra | exact E].
      - assert (~ (b <= a)%Q) by (intros H; apply Qle_bool_iff in H; congruence).
        exists b. repeat split; [now right | lra | lra]. }
    destruct Hstep as (c & -> & Hc & Hca & Hcb).
    destruct (IH c) as (mx & Hfold & Hin & Hle & Hall).
    exists mx. split; [exact Hfold |]. split; [| split].
    + destruct Hin as [-> | Hin]; [| right; now right].
      destruct Hc as [-> | ->]; [now left | right; now left].
    + lra.
    + intros q [Hq | Hq]; [injection Hq as <-; lra | now apply Hall].
Qed.

(** On finite numbers, not all absent, [Math.min] answers the smallest of
    them and [Math.max] the largest. *)
Lemma Math_min_max_spec (l : list number) :
  l <> [] -> Forall finite l ->
  exists mn mx,
    Math_min l = Fin mn /\ Math_max l = Fin mx /\
    In (Fin mn) l /\ In (Fin mx) l /\
    forall q, In (Fin q) l -> (mn <= q <= mx)%Q.
Proof.
  intros Hne Hl. destruct Hl as [| x l Hx Hl]; [congruence |].
  destruct (finite_inv _ Hx) as [b ->].
  destruct (fold_min2_spec l Hl b) as (mn & Hmin & Hmin_in & Hmin_b & Hmin_all).
  destruct (fold_max2_spec l Hl b) as (mx & Hmax & Hmax_in & Hmax_b & Hmax_all).
  exists mn, mx. unfold Math_min, Math_max. cbn [fold_left].
  change (min2 (Inf false) (Fin b)) with (Fin b).
  change (max2 (Inf true) (Fin b)) with (Fin b).
  split; [exact Hmin |]. split; [exact Hmax |].
  split; [destruct Hmin_in as [-> | H]; [now left | now right] |].
  split; [destruct Hmax_in as [-> | H]; [now left | now right] |].
  intros q [Hq | Hq].
  - injection Hq as <-. split; assumption.
  - split; [now apply Hmin_all | now apply Hmax_all].
Qed.

Lemma normalize_in_unit_interval (mn mx x : Q) :
  (mn <= x <= mx)%Q ->
  in_unit_interval (normalize (Fin mn) (Fin (unit_or_range mn mx)) (Fin x)).
Proof.
  intros [Hlo Hhi].
  pose proof (unit_or_range_nonzero mn mx) as Hnz.
  rewrite (normalize_finite _ _ _ Hnz).
  eexists. split; [reflexivity |].
  unfold unit_or_range in *.
  destruct (Qeq_bool (mx - mn) 0) eqn:E.
  - apply Qeq_bool_eq in E.
    assert (Hx : (x - mn == 0)%Q) by lra.
    rewrite Hx. split; [now compute | now compute].
  - assert (Hpos : (0 < mx - mn)%Q).
    { apply Qeq_bool_neq in E. lra. }
    split.
    + apply Qle_shift_div_l; [exact Hpos | lra].
    + apply Qle_shift_div_r; [exact Hpos | lra].
Qed.

(** The series [normalizeReturns] stores lies between 0 and 1: on finite
    returns, not all absent, it has one value per return, each finite and in
    [0, 1]. *)
Theorem normalizeReturns_unit_interval (dl : DataLoader.t) :
  returns dl <> [] ->
  Forall finite (returns dl) ->
  exists dl' nd,
    normalizeReturns dl = (Normal tt, dl') /\
    normalizedData dl' = Some nd /\
    length nd = length (returns dl) /\
    Forall in_unit_interval nd.
Proof.
  intros Hne Hfin.
  destruct (Math_min_max_spec _ Hne Hfin) as (mn & mx & Hmin & Hmax & _ & _ & Hall).
  rewrite (normalizeReturns_run dl Hne).
  do 2 eexists. split; [reflexivity |].
  cbn [normalizedData set_normalization]. split; [reflexivity |].
  split; [apply normalized_length |].
  unfold normalized. rewrite Hmin, Hmax, range_of_finite.
  apply Forall_forall. intros v Hv.
  apply in_map_iff in Hv. destruct Hv as (x & <- & Hx).
  rewrite Forall_forall in Hfin.
  destruct (finite_inv _ (Hfin x Hx)) as [q ->].
  apply normalize_in_unit_interval. now apply Hall.
Qed.

Lemma normalizeReturns_unit_interval_witness :
  returns eight_returns <> [] /\
  Forall finite (returns eight_returns) /\
  exists dl' nd,
    normalizeReturns eight_returns = (Normal tt, dl') /\
    normalizedData dl' = Some nd /\
    Forall in_unit_interval nd.
Proof.
  assert (H1 : returns eight_returns <> []) by discriminate.
  assert (H2 : Forall finite (returns eight_returns)) by (repeat constructor).
  split; [exact H1 | split; [exact H2 |]].
  destruct (normalizeReturns_unit_interval eight_returns H1 H2)
    as (dl' & nd & Hrun & Hnd & _ & Hall).
  exists dl', nd. repeat split; assumption.
Defined.

(** ** The data summary *)

Lemma last_cons {A} (x y : A) (l : list A) : last (y :: l) x = last l y.
Proof.
  revert x y. induction l as [| z l IH]; intros x y; [reflexivity |].
  change (last (y :: z :: l) x) with (last (z :: l) x).
  rewrite (IH x z). symmetry. apply (IH y z).
Qed.

Lemma last_in {A} (x : A) (l : list A) : In (last l x) (x :: l).
Proof.
  revert x. induction l as [| z l IH]; intros x; [now left |].
  rewrite last_cons. right. apply IH.
Qed.

Lemma nth_error_last {A} (x : A) (l : list A) :
  nth_error (x :: l) (length (x :: l) - 1) = Some (last l x).
Proof.
  replace (length (x :: l) - 1)%nat with (length l) by (cbn [length]; lia).
  revert x. induction l as [| y l IH]; intros x; [reflexivity |].
  cbn [length nth_error]. rewrite last_cons. apply (IH y).
Qed.

(** The summary of a series of one row or more. *)
Lemma getDataSummary_run {rt : Runtime} (dl : DataLoader.t)
    (first : PricePoint) (rest : list PricePoint) :
  data dl = Some (first :: rest) ->
  exists s,
    getDataSummary dl = Normal (Some s) /\
    totalDays s = S (length rest) /\
    dateRange s = (date first ++ " to " ++ date (last rest first))%string /\
    PriceRange.last (priceRange s) = price (last rest first) /\
    PriceRange.min (priceRange s) = Math_min (map price (first :: rest)) /\
    PriceRange.max (priceRange s) = Math_max (map price (first :: rest)) /\
    ReturnsStats.min (returnsStats s) = Math_min (returns dl) /\
    ReturnsStats.max (returnsStats s) = Math_max (returns dl) /\
    ReturnsStats.mean (returnsStats s)
    = div (reduce_sum (returns dl)) (of_Z (Z.of_nat (length (returns dl)))).
Proof.
  intros Hd. unfold getDataSummary. rewrite Hd.
  rewrite (nth_error_last first rest). cbn [nth_error].
  eexists. split; [reflexivity |]. repeat split.
Qed.

(** [getDataSummary] answers [null] without data and throws on an empty
    series; on a series of one row or more it counts the rows, names the
    dates of the first and the last row, gives the price of the last row, and
    for finite prices a minimum and a maximum that are prices of the series
    and bound every price.  With no return (a series of one row) the mean
    return is [NaN] and the extreme returns are the infinities. *)
Theorem getDataSummary_cases (rt : Runtime) (dl : DataLoader.t) :
  (data dl = None -> getDataSummary dl = Normal None) /\
  (data dl = Some [] -> exists message, getDataSummary dl = Throw message) /\
  (forall first rest,
     data dl = Some (first :: rest) ->
     exists s,
       getDataSummary dl = Normal (Some s) /\
       totalDays s = S (length rest) /\
       dateRange s = (date first ++ " to " ++ date (last rest first))%string /\
       PriceRange.last (priceRange s) = price (last rest first) /\
       (Forall (fun p => finite (price p)) (first :: rest) ->
          exists lo hi,
            PriceRange.min (priceRange s) = Fin lo /\
            PriceRange.max (priceRange s) = Fin hi /\
            In (Fin lo) (map price (first :: rest)) /\
            In (Fin hi) (map price (first :: rest)) /\
            forall q, In (Fin q) (map price (first :: rest)) -> (lo <= q <= hi)%Q) /\
       (returns dl = [] ->
          ReturnsStats.mean (returnsStats s) = NaN /\
          ReturnsStats.min (returnsStats s) = Inf false /\
          ReturnsStats.max (returnsStats s) = Inf true)).
Proof.
  split; [intros Hd; unfold getDataSummary; now rewrite Hd |].
  split; [intros Hd; unfold getDataSummary; rewrite Hd; eexists; reflexivity |].
  intros first rest Hd.
  destruct (getDataSummary_run dl first rest Hd)
    as (s & Hs & Hdays & Hrange & Hlast & Hmin & Hmax & Hrmin & Hrmax & Hmean).
  exists s. split; [exact Hs |]. split; [exact Hdays |].
  split; [exact Hrange |]. split; [exact Hlast |].
  split.
  - intros Hfin.
    assert (Hfin' : Forall finite (map price (first :: rest))).
    { apply Forall_forall. intros v Hv. apply in_map_iff in Hv.
      destruct Hv as (p & <- & Hp). rewrite Forall_forall in Hfin. now apply Hfin. }
    destruct (Math_min_max_spec (map price (first :: rest)) ltac:(discriminate) Hfin')
      as (lo & hi & Hlo & Hhi & Hlo_in & Hhi_in & Hall).
    exists lo, hi. rewrite Hmin, Hmax.
    repeat split; try assumption; now apply Hall.
  - intros Hr. rewrite Hmean, Hrmin, Hrmax, Hr. repeat split.
Qed.

Lemma sorted_ends {A} (R : A -> A -> Prop) (x : A) (l : list A) :
  StronglySorted R (x :: l) ->
  forall y, In y (x :: l) ->
    (y = x \/ R x y) /\ (y = last l x \/ R y (last l x)).
Proof.
  revert x. induction l as [| z l IH]; intros x Hs y Hy.
  - destruct Hy as [<- | []]. split; now left.
  - apply StronglySorted_inv in Hs. destruct Hs as [Hs Hx].
    rewrite Forall_forall in Hx. rewrite last_cons.
    destruct Hy as [<- | Hy].
    + split; [now left |]. right. apply Hx. apply last_in.
    + split; [right; now apply Hx |].
      exact (proj2 (IH z Hs y Hy)).
Qed.

(** After [parseCSV] of a text with a kept row, all dates valid, the summary
    counts the kept rows and its date range runs from a row no later than
    every row to a row no earlier than every row. *)
Theorem parseCSV_summary_range (rt : Runtime) (content : string) (dl : DataLoader.t) :
  retained content <> [] ->
  Forall valid_date (retained content) ->
  exists s first final,
    getDataSummary (snd (parseCSV content dl)) = Normal (Some s) /\
    totalDays s = length (retained content) /\
    dateRange s = (date first ++ " to " ++ date final)%string /\
    In first (retained content) /\
    In final (retained content) /\
    forall p, In p (retained content) -> not_after first p /\ not_after p final.
Proof.
  intros Hne Hvalid.
  pose proof (parseCSV_run content dl) as Hrun. cbv zeta in Hrun.
  pose proof (sort_perm compare_dates (retained content)) as Hperm.
  pose proof (sort_not_after _ Hvalid) as Hsorted.
  destruct (sort compare_dates (retained content)) as [| first rest] eqn:Hd.
  { apply Permutation_nil in Hperm. contradiction. }
  assert (Hrefl : forall p, In p (first :: rest) -> not_after p p).
  { intros p Hp.
    assert (Hv : valid_date p).
    { rewrite Forall_forall in Hvalid. apply Hvalid.
      apply (Permutation_in _ Hperm Hp). }
    destruct (finite_inv _ Hv) as [tp Htp].
    exists tp, tp. repeat split; try assumption. lra. }
  destruct (getDataSummary_run (snd (parseCSV content dl)) first rest)
    as (s & Hs & Hdays & Hrange & _).
  { rewrite Hrun. reflexivity. }
  exists s, first, (last rest first).
  split; [exact Hs |].
  split; [rewrite Hdays; apply (Permutation_length Hperm) |].
  split; [exact Hrange |].
  pose proof (last_in first rest) as Hlast_in.
  split; [apply (Permutation_in _ Hperm); now left |].
  split; [apply (Permutation_in _ Hperm Hlast_in) |].
  intros p Hp.
  assert (Hp' : In p (first :: rest))
    by (apply (Permutation_in _ (Permutation_sym Hperm) Hp)).
  destruct (sorted_ends not_after first rest Hsorted p Hp') as [[-> | H1] [H2 | H2]].
  - split; [apply Hrefl; now left |]. rewrite H2 at 1. apply Hrefl. exact Hlast_in.
  - split; [apply Hrefl; now left | exact H2].
  - split; [exact H1 |]. rewrite H2 at 1. apply Hrefl. exact Hlast_in.
  - split; assumption.
Qed.

Lemma parseCSV_summary_range_witness :
  exists s,
    getDataSummary (rt := test_runtime)
      (snd (parseCSV (rt := test_runtime) csv_latest_first DataLoader.constructor))
    = Normal (Some s) /\
    totalDays s = 3%nat /\
    dateRange s = "01.01.2020 to 03.01.2020"%string.
Proof.
  assert (Hne : retained csv_latest_first <> []) by (vm_compute; discriminate).
  assert (Hdates : forallb (fun p => isFinite (parseDate (rt := test_runtime) (date p)))
                     (retained csv_latest_first) = true)
    by (vm_compute; reflexivity).
  assert (Hvalid : Forall (valid_date (rt := test_runtime)) (retained csv_latest_first)).
  { apply Forall_forall. intros p Hp.
    exact (proj1 (forallb_forall _ _) Hdates p Hp). }
  destruct (parseCSV_summary_range test_runtime csv_latest_first
              DataLoader.constructor Hne Hvalid)
    as (s & first & final & Hs & _).
  exists s. split; [exact Hs |].
  vm_compute in Hs. injection Hs as <-. split; reflexivity.
Defined.

(** ** Lines, rows and the two size checks *)

Lemma parse_lines_accumulates (lines : list string) (parsedData : list PricePoint)
    (labels : list string) :
  parse_lines lines parsedData labels
  = (parsedData ++ kept_rows lines, labels ++ map date (kept_rows lines)).
Proof.
  unfold kept_rows. revert parsedData labels.
  induction lines as [| raw rest IH]; intros pd lb.
  - cbn. now rewrite !app_nil_r.
  - cbn [parse_lines].
    destruct (trim raw) as [| c line]; [apply IH |].
    destruct (split ";" (String c line)) as [| part0 [| part1 parts]];
      try apply IH.
    destruct (negb (isNaN (parseFloat (trim part1)))
              && gt (parseFloat (trim part1)) (Fin 0)); [| apply IH].
    rewrite (IH (pd ++ _) (lb ++ _)), (IH ([] ++ _) ([] ++ _)).
    cbn [fst snd app map]. now rewrite <- !app_assoc.
Qed.

(** Every line is judged on its own: the rows kept from two runs of lines
    are those of the first run followed by those of the second; and one line
    gives at most one row, made of its first two fields, trimmed, the price
    read by [parseFloat] and above 0, whatever fields follow. *)
Theorem parse_lines_line_by_line :
  (forall l1 l2, kept_rows (l1 ++ l2) = kept_rows l1 ++ kept_rows l2) /\
  (forall raw, kept_rows [raw] = [] \/
     exists part0 part1 parts,
       split ";" (trim raw) = part0 :: part1 :: parts /\
       kept_rows [raw]
       = [{| date := trim part0; price := parseFloat (trim part1) |}] /\
       isNaN (parseFloat (trim part1)) = false /\
       gt (parseFloat (trim part1)) (Fin 0) = true).
Proof.
  split.
  - induction l1 as [| raw l1 IH]; intros l2; [reflexivity |].
    unfold kept_rows in *. cbn [app parse_lines].
    destruct (trim raw) as [| c line]; [apply IH |].
    destruct (split ";" (String c line)) as [| part0 [| part1 parts]];
      try apply IH.
    destruct (negb (isNaN (parseFloat (trim part1)))
              && gt (parseFloat (trim part1)) (Fin 0)); [| apply IH].
    rewrite !(parse_lines_accumulates _ [_] [_]).
    cbn [fst app]. f_equal. apply IH.
  - intros raw. unfold kept_rows. cbn [parse_lines].
    destruct (trim raw) as [| c line]; [now left |].
    destruct (split ";" (String c line)) as [| part0 [| part1 parts]];
      try now left.
    destruct (negb (isNaN (parseFloat (trim part1)))
              && gt (parseFloat (trim part1)) (Fin 0)) eqn:E; [| now left].
    apply andb_prop in E. destruct E as [E1 E2]. apply negb_true_iff in E1.
    right. exists part0, part1, parts. repeat split; assumption.
Qed.

(** [parseCSV] asks for 65 rows and [prepareData()] for 65 returns, which
    takes 66 rows: with fewer than 65 kept rows [parseCSV] throws; with
    exactly 65 it returns and [prepareData] on its defaults throws for lack of
    samples; from 66 rows on (of an array, so fewer than [2^32]) both return
    for every test fraction between 0 and 1. *)
Theorem load_needs_66_rows (rt : Runtime) (content : string) (ts : Q)
    (dl : DataLoader.t) :
  let n := length (retained content) in
  ((n < 65)%nat ->
     fst (parseCSV content dl)
     = Throw ("Insufficient data. Need at least 65 days, got " ++ show_nat n)%string) /\
  (n = 65%nat ->
     exists dl1,
       parseCSV content dl = (Normal tt, dl1) /\
       prepareData 60 5 ts dl1
       = (Throw "Not enough data for the specified window size and prediction horizon",
          dl1)) /\
  ((66 <= n)%nat -> Z.of_nat n < 2 ^ 32 -> (0 <= ts <= 1)%Q ->
     exists dl1 dl2,
       parseCSV content dl = (Normal tt, dl1) /\
       prepareData 60 5 ts dl1 = (Normal tt, dl2)).
Proof.
  intros n.
  pose proof (parseCSV_run content dl) as Hrun. cbv zeta in Hrun.
  assert (Hlen : length (sort compare_dates (retained content)) = n)
    by apply (Permutation_length (sort_perm _ _)).
  rewrite Hlen in Hrun.
  set (dl1 := set_parsed (map date (retained content))
                (compute_returns (sort compare_dates (retained content)))
                (Some (sort compare_dates (retained content))) dl) in *.
  assert (Hret : length (returns dl1) = (n - 1)%nat).
  { unfold dl1. cbn [returns set_parsed]. now rewrite compute_returns_length, Hlen. }
  split; [| split].
  - intros Hn. rewrite Hrun. cbn [fst].
    destruct (Nat.ltb_spec n 65); [reflexivity | lia].
  - intros Hn. exists dl1. split.
    + rewrite Hrun. destruct (Nat.ltb_spec n 65); [lia | reflexivity].
    + unfold prepareData, bind, this.
      destruct (returns dl1) as [| r rs] eqn:Hr; [cbn [length] in Hret; lia |].
      rewrite Hret, Hn. reflexivity.
  - intros Hn Hsmall Hts. exists dl1.
    assert (Hne : returns dl1 <> []).
    { intros He. rewrite He in Hret. cbn [length] in Hret. lia. }
    assert (Htotal : total_samples (length (returns dl1)) 60 5 = Z.of_nat n - 65).
    { unfold total_samples. rewrite Hret. lia. }
    assert (Hpos : 0 < total_samples (length (returns dl1)) 60 5) by lia.
    assert (H32 : 2 ^ 32 < 2 ^ 53) by reflexivity.
    destruct (split_index_bounds
                (Z.to_nat (total_samples (length (returns dl1)) 60 5)) ts
                ltac:(lia) Hts) as (s & Hs & Hsb).
    pose proof (prepareData_run 60 5 ts dl1 s Hne Hpos Hs ltac:(lia) ltac:(lia)
                  ltac:(lia) ltac:(lia)) as Hprep.
    eexists. split; [| exact Hprep].
    rewrite Hrun. destruct (Nat.ltb_spec n 65); [lia | reflexivity].
Qed.

Lemma load_needs_66_rows_witness :
  length (retained csv65) = 65%nat /\
  exists dl1,
    parseCSV (rt := test_runtime) csv65 DataLoader.constructor = (Normal tt, dl1) /\
    fst (prepareData (rt := test_runtime) 60 5 (1 # 5) dl1)
    = Throw "Not enough data for the specified window size and prediction horizon".
Proof.
  assert (H : length (retained csv65) = 65%nat) by (vm_compute; reflexivity).
  split; [exact H |].
  destruct (proj1 (proj2 (load_needs_66_rows test_runtime csv65 (1 # 5)
                            DataLoader.constructor)) H) as (dl1 & Hparse & Hprep).
  exists dl1. split; [exact Hparse |]. now rewrite Hprep.
Defined.

Lemma sort_ascending_id {A} (compare : A -> A -> number) (l : list A) :
  ascending compare l = true -> sort compare l = l.
Proof.
  induction l as [| x l IH]; intros Hl; [reflexivity |].
  cbn [sort fold_right]. fold (sort compare l).
  destruct l as [| y l]; [reflexivity |].
  cbn [ascending] in Hl. apply andb_prop in Hl. destruct Hl as [Hxy Hl].
  rewrite (IH Hl). cbn [insert].
  apply negb_true_iff in Hxy. now rewrite Hxy.
Qed.

(** When the kept rows already are in ascending order of date, [parseCSV]
    keeps them in the order of the file and [getHistoricalData] pairs every
    price with its own date. *)
Theorem getHistoricalData_dates_aligned (rt : Runtime) (content : string)
    (dl : DataLoader.t) :
  ascending compare_dates (retained content) = true ->
  exists h,
    data (snd (parseCSV content dl)) = Some (retained content) /\
    getHistoricalData (snd (parseCSV content dl)) = Some h /\
    length (dates h) = length (prices h) /\
    forall i p, nth_error (retained content) i = Some p ->
      nth_error (dates h) i = Some (date p) /\
      nth_error (prices h) i = Some (price p).
Proof.
  intros Hsorted.
  pose proof (parseCSV_run content dl) as Hrun. cbv zeta in Hrun.
  rewrite (sort_ascending_id _ _ Hsorted) in Hrun.
  rewrite Hrun. cbn [snd]. unfold getHistoricalData.
  cbn [data dateLabels set_parsed].
  eexists. split; [reflexivity |]. split; [reflexivity |].
  cbn [dates prices]. split; [now rewrite !length_map |].
  intros i p Hp. rewrite !nth_error_map, Hp. now split.
Qed.

Lemma getHistoricalData_dates_aligned_witness :
  ascending (compare_dates (rt := test_runtime)) (retained csv_earliest_first) = true /\
  exists h,
    getHistoricalData
      (snd (parseCSV (rt := test_runtime) csv_earliest_first DataLoader.constructor))
    = Some h /\
    nth_error (dates h) 2 = Some "03.01.2020" /\
    nth_error (prices h) 2 = Some (of_Z 102).
Proof.
  assert (H : ascending (compare_dates (rt := test_runtime))
                (retained csv_earliest_first) = true) by (vm_compute; reflexivity).
  split; [exact H |].
  destruct (getHistoricalData_dates_aligned test_runtime csv_earliest_first
              DataLoader.constructor H) as (h & _ & Hh & _ & Hall).
  exists h. split; [exact Hh |].
  exact (Hall 2%nat {| date := "03.01.2020"; price := of_Z 102 |}
           ltac:(vm_compute; reflexivity)).
Defined.

(** ** Returns and compounding *)

Lemma compute_returns_cons (previous current : PricePoint) (l : list PricePoint) :
  compute_returns (previous :: current :: l)
  = div (sub (price current) (price previous)) (price previous)
    :: compute_returns (current :: l).
Proof. reflexivity. Qed.

Lemma compounding_returns (a p0 : Q) (first : PricePoint) (rest : list PricePoint)
    (index : Z) :
  price first = Fin p0 -> (0 < p0)%Q -> (a == p0)%Q ->
  Forall quoted rest ->
  (exists rs, compute_returns (first :: rest) = map Fin rs /\
              Forall (fun r => (-1 < r)%Q) rs) /\
  Forall2 same_price
    (prediction_cards (Fin a) index (compute_returns (first :: rest))) rest.
Proof.
  intros Hp0 Hpos Ha Hrest. revert a p0 first index Hp0 Hpos Ha.
  induction Hrest as [| second rest Hsecond Hrest IH];
    intros a p0 first index Hp0 Hpos Ha.
  - split; [exists []; now split | constructor].
  - destruct Hsecond as (p1 & Hp1 & Hpos1).
    rewrite compute_returns_cons, Hp0, Hp1.
    assert (Hnz : Qeq_bool p0 0 = false).
    { destruct (Qeq_bool p0 0) eqn:E; [| reflexivity].
      apply Qeq_bool_eq in E. lra. }
    assert (Hnz' : ~ (p0 == 0)%Q) by lra.
    cbn [sub add opp div]. rewrite Hnz.
    set (r := ((p1 + - p0) / p0)%Q).
    cbn [prediction_cards mul add].
    assert (Hnew : (a + a * r == p1)%Q).
    { unfold r. rewrite Ha. field. exact Hnz'. }
    destruct (IH (a + a * r)%Q p1 second (index + 1) Hp1 Hpos1 Hnew)
      as [(rs & Hrs & Hgt) Hcards].
    split.
    + exists (r :: rs). cbn [map]. split; [now rewrite Hrs |].
      constructor; [| exact Hgt].
      unfold r. apply Qlt_shift_div_l; [exact Hpos | lra].
    + constructor; [| exact Hcards].
      exists (a + a * r)%Q, p1. cbn [newPrice]. now repeat split.
Qed.

(** Returns and compounding are inverse to each other: on a series of
    finite prices above 0 every return is finite and above -1, and the cards
    [displayPredictions] makes from the first price and these returns show
    the prices of the series again. *)
Theorem returns_then_compounding (first : PricePoint) (rest : list PricePoint) :
  Forall quoted (first :: rest) ->
  exists rs,
    compute_returns (first :: rest) = map Fin rs /\
    length rs = length rest /\
    Forall (fun r => (-1 < r)%Q) rs /\
    Forall2 same_price
      (prediction_cards (price first) 0 (compute_returns (first :: rest))) rest.
Proof.
  intros Hall. apply Forall_cons_iff in Hall. destruct Hall as [Hfirst Hrest].
  destruct Hfirst as (p0 & Hp0 & Hpos).
  destruct (compounding_returns p0 p0 first rest 0 Hp0 Hpos (Qeq_refl _) Hrest)
    as [(rs & Hrs & Hgt) Hcards].
  exists rs. split; [exact Hrs |].
  split.
  { rewrite <- (length_map Fin rs), <- Hrs, compute_returns_length.
    cbn [length]. lia. }
  split; [exact Hgt |]. rewrite Hp0. exact Hcards.
Qed.

Lemma returns_then_compounding_witness :
  Forall quoted (retained csv_earliest_first) /\
  exists rs,
    compute_returns (retained csv_earliest_first) = map Fin rs /\
    Forall (fun r => (-1 < r)%Q) rs.
Proof.
  assert (H : Forall quoted [ {| date := "01.01.2020"; price := of_Z 100 |};
                              {| date := "02.01.2020"; price := of_Z 101 |};
                              {| date := "03.01.2020"; price := of_Z 102 |} ]).
  { repeat constructor; eexists; (split; [reflexivity | reflexivity]). }
  change (retained csv_earliest_first)
    with [ {| date := "01.01.2020"; price := of_Z 100 |};
           {| date := "02.01.2020"; price := of_Z 101 |};
           {| date := "03.01.2020"; price := of_Z 102 |} ].
  split; [exact H |].
  destruct (returns_then_compounding _ _ H) as (rs & Hrs & _ & Hgt & _).
  exists rs. split; assumption.
Defined.

(** ** What every loader keeps *)

Section LoaderHistoryFacts.

Context {rt : Runtime}.

Lemma loadCSVFromGitHub_state (fetched : completion string) (dl : DataLoader.t) :
  snd (loadCSVFromGitHub fetched dl)
  = match fetched with
    | Normal content => snd (parseCSV content dl)
    | Throw _ => dl
    end.
Proof.
  unfold loadCSVFromGitHub, try_catch. destruct fetched as [content | e];
    [| reflexivity].
  unfold bind at 1.
  destruct (parseCSV content dl) as [[[] | e] dl1]; reflexivity.
Qed.

Lemma consistent_prepareData (W H : nat) (ts : Q) (dl : DataLoader.t) :
  consistent dl -> consistent (snd (prepareData W H ts dl)).
Proof.
  intros Hdl.
  destruct (returns dl) as [| r rs] eqn:Hr.
  { unfold prepareData, bind, this. rewrite Hr. exact Hdl. }
  destruct (Z.leb_spec (total_samples (length (returns dl)) W H) 0) as [Hle | Hpos].
  { unfold prepareData, bind at 1, this at 1. rewrite Hr. cbn [length Nat.eqb].
    unfold total_samples in Hle. rewrite Hr in Hle. cbn [length] in Hle.
    destruct (Z.leb_spec (Z.of_nat (S (length rs)) - Z.of_nat W - Z.of_nat H + 1) 0);
      [exact Hdl | lia]. }
  assert (Hne : returns dl <> []) by (rewrite Hr; discriminate).
  pose proof (prepareData_steps W H ts dl Hne Hpos) as Hsteps.
  cbv zeta in Hsteps. rewrite Hsteps. clear Hsteps.
  unfold consistent in *.
  destruct Hdl as (Hd & Hm & _ & H1 & H2 & H3 & _).
  repeat match goal with
         | |- context [match ?c with Normal _ => _ | Throw _ => _ end] =>
             destruct c
         end;
    cbn [snd data returns dateLabels min max normalizedData X_train y_train
         X_test y_test set_normalization set_trainIndices set_testIndices
         set_X_train set_y_train set_X_test set_y_test];
    (split; [exact Hd |]);
    repeat split; try tauto; intros; congruence.
Qed.

Lemma consistent_step (c : loader_call) (dl : DataLoader.t) :
  consistent dl -> consistent (loader_after c dl).
Proof.
  intros Hdl. destruct c as [fetched | content | W H ts | | value |];
    cbn [loader_after].
  - rewrite loadCSVFromGitHub_state. destruct fetched as [content | e];
      [| exact Hdl].
    pose proof (parseCSV_run content dl) as Hrun. cbv zeta in Hrun.
    rewrite Hrun. cbn [snd]. unfold consistent in *.
    cbn [data returns dateLabels min max normalizedData X_train y_train X_test
         y_test set_parsed].
    split; [| exact (proj2 Hdl)].
    pose proof (sort_perm compare_dates (retained content)) as Hperm.
    split; [reflexivity |]. split.
    + apply Permutation_map, Permutation_sym, Hperm.
    + apply (Permutation_Forall (Permutation_sym Hperm)).
      apply (parse_lines_invariant _ [] [] eq_refl (Forall_nil _)).
  - pose proof (parseCSV_run content dl) as Hrun. cbv zeta in Hrun.
    rewrite Hrun. cbn [snd]. unfold consistent in *.
    cbn [data returns dateLabels min max normalizedData X_train y_train X_test
         y_test set_parsed].
    split; [| exact (proj2 Hdl)].
    pose proof (sort_perm compare_dates (retained content)) as Hperm.
    split; [reflexivity |]. split.
    + apply Permutation_map, Permutation_sym, Hperm.
    + apply (Permutation_Forall (Permutation_sym Hperm)).
      apply (parse_lines_invariant _ [] [] eq_refl (Forall_nil _)).
  - now apply consistent_prepareData.
  - destruct (returns dl) as [| r rs] eqn:Hr.
    + rewrite normalizeReturns_empty by exact Hr. exact Hdl.
    + rewrite normalizeReturns_run by (rewrite Hr; discriminate).
      cbn [snd]. unfold consistent in *.
      cbn [data returns dateLabels min max normalizedData X_train y_train X_test
           y_test set_normalization].
      destruct Hdl as (Hd & _ & _ & H1 & H2 & H3 & _).
      split; [exact Hd |].
      repeat split; try tauto; intros; congruence.
  - unfold denormalize, bind, this.
    destruct (min dl), (max dl); exact Hdl.
  - unfold consistent in *.
    cbn [snd DataLoader.dispose assign data returns dateLabels min max
         normalizedData X_train y_train X_test y_test].
    destruct Hdl as (Hd & Hm & _).
    split; [exact Hd |]. split; [exact Hm |].
    repeat split; intros; congruence.
Qed.

End LoaderHistoryFacts.

(** From a fresh [DataLoader], after any calls whatever they answered: the
    returns are those of the series in [data] (none without a series), the
    date labels are the dates of that series in some order, every price is a
    number above 0, [min] and [max] are set together and whenever there is a
    normalized series, and the tensors are set in the order of their
    assignment: [y_test] only beside [X_test], [X_test] only beside
    [y_train], [y_train] only beside [X_train], and [X_train] only beside a
    normalized series. *)
Theorem loader_stays_consistent (rt : Runtime) (cs : list loader_call) :
  consistent (loader_after_all cs DataLoader.constructor).
Proof.
  assert (H0 : consistent DataLoader.constructor).
  { unfold consistent. cbn. repeat split; intros; congruence. }
  revert H0. generalize DataLoader.constructor as dl.
  induction cs as [| c cs IH]; intros dl Hdl; [exact Hdl |].
  cbn [loader_after_all]. apply IH. now apply consistent_step.
Qed.

(** [prepareData] works from the returns alone: run again on the loader it
    prepared, or after [dispose] cleared that loader, with the same
    arguments, it succeeds and leaves the very same loader. *)
Theorem prepareData_again (rt : Runtime) (W H : nat) (ts : Q)
    (dl dl' : DataLoader.t) :
  prepareData W H ts dl = (Normal tt, dl') ->
  prepareData W H ts dl' = (Normal tt, dl') /\
  prepareData W H ts (snd (DataLoader.dispose dl')) = (Normal tt, dl').
Proof.
  intros Hrun.
  destruct (prepareData_normal_inv W H ts dl dl' Hrun)
    as (Hne & Hpos & s & Hs & Hsb & HW & Hdl').
  assert (Hbounds : s < 2 ^ 32 /\ total_samples (length (returns dl)) W H - s < 2 ^ 32).
  { revert Hrun.
    pose proof (prepareData_steps W H ts dl Hne Hpos) as Hsteps.
    cbv zeta in Hsteps. rewrite Hsteps, Hs. clear Hsteps.
    destruct (sub_of_Z (total_samples (length (returns dl)) W H) s)
      as (qr & -> & Hqr).
    change (of_Z s) with (Fin (inject_Z s)).
    rewrite (Array_from_length_integer (inject_Z s) s) by reflexivity.
    destruct (Z.ltb_spec s (2 ^ 32)) as [Hs32 | _]; [| discriminate].
    rewrite (Array_from_length_integer qr _ _ Hqr).
    destruct (Z.ltb_spec (total_samples (length (returns dl)) W H - s) (2 ^ 32))
      as [Hr32 | _]; [| discriminate].
    intros _. now split. }
  destruct Hbounds as [Hs32 Hr32].
  assert (Hr : returns dl' = returns dl) by (subst dl'; reflexivity).
  split.
  - assert (Hne' : returns dl' <> []) by (rewrite Hr; exact Hne).
    assert (Hpos' : 0 < total_samples (length (returns dl')) W H)
      by (rewrite Hr; exact Hpos).
    rewrite (prepareData_run W H ts dl' s Hne' Hpos'); rewrite ?Hr; try assumption.
    f_equal. subst dl'. reflexivity.
  - set (dl2 := snd (DataLoader.dispose dl')).
    assert (Hr2 : returns dl2 = returns dl) by (rewrite <- Hr; reflexivity).
    assert (Hne' : returns dl2 <> []) by (rewrite Hr2; exact Hne).
    assert (Hpos' : 0 < total_samples (length (returns dl2)) W H)
      by (rewrite Hr2; exact Hpos).
    rewrite (prepareData_run W H ts dl2 s Hne' Hpos'); rewrite ?Hr2; try assumption.
    f_equal. unfold dl2. subst dl'. reflexivity.
Qed.

Lemma prepareData_again_witness :
  exists dl',
    prepareData (rt := test_runtime) 3 2 (1 # 5) eight_returns = (Normal tt, dl') /\
    prepareData (rt := test_runtime) 3 2 (1 # 5) (snd (DataLoader.dispose dl')) = (Normal tt, dl').
Proof.
  assert (Hrun : prepareData (rt := test_runtime) 3 2 (1 # 5) eight_returns
                 = (Normal tt, snd (prepareData (rt := test_runtime) 3 2 (1 # 5) eight_returns)))
    by (vm_compute; reflexivity).
  exists (snd (prepareData (rt := test_runtime) 3 2 (1 # 5) eight_returns)).
  split; [exact Hrun |].
  exact (proj2 (prepareData_again test_runtime 3 2 (1 # 5) eight_returns _ Hrun)).
Defined.

(** ** Shapes *)

Lemma wrapped_has_shape (samples : list (list number)) (rows W : nat) :
  length samples = rows ->
  Forall (fun w => length w = W) samples ->
  has_shape (tensor3d (map (map (fun v => [v])) samples)
                      [Z.of_nat rows; Z.of_nat W; 1]) rows W.
Proof.
  intros Hlen Hall. cbn [has_shape]. split; [reflexivity |].
  split; [now rewrite length_map |].
  apply Forall_forall. intros s Hs. apply in_map_iff in Hs.
  destruct Hs as (w & <- & Hw). rewrite Forall_forall in Hall.
  split; [rewrite length_map; now apply Hall |].
  apply Forall_forall. intros cell Hc. apply in_map_iff in Hc.
  now destruct Hc as (v & <- & _).
Qed.

(** For a test fraction between 0 and 1 the shapes [prepareData] declares are
    those of the arrays it hands over: [k] train samples and [n - k] test
    samples, windows of [W] cells of one value, targets of [H] values, as
    many windows as targets on each side. *)
Theorem prepareData_shapes (rt : Runtime) (W H : nat) (ts : Q)
    (dl dl' : DataLoader.t) :
  (0 <= ts <= 1)%Q ->
  prepareData W H ts dl = (Normal tt, dl') ->
  exists xtr ytr xte yte (k n : nat),
    X_train dl' = Some xtr /\ y_train dl' = Some ytr /\
    X_test dl' = Some xte /\ y_test dl' = Some yte /\
    Z.of_nat n = Z.of_nat (length (returns dl)) - Z.of_nat W - Z.of_nat H + 1 /\
    (k <= n)%nat /\
    has_shape xtr k W /\ has_shape ytr k H /\
    has_shape xte (n - k) W /\ has_shape yte (n - k) H.
Proof.
  intros Hts Hrun.
  destruct (prepareData_normal_inv W H ts dl dl' Hrun)
    as (Hne & Hpos & s & Hs & Hsb & HW & ->).
  unfold prepared.
  set (total := total_samples (length (returns dl)) W H) in *.
  set (n := Z.to_nat total).
  set (nd := normalized (returns dl)).
  assert (Hn : Z.of_nat n = total) by (unfold n; lia).
  set (k := Z.to_nat s).
  assert (Hk : (k <= n)%nat) by (unfold k; lia).
  assert (Hks : s = Z.of_nat k) by (unfold k; lia).
  assert (Hrest : total - s = Z.of_nat (n - k)) by lia.
  assert (Hnd : Z.of_nat n = total_samples (length nd) W H).
  { unfold nd. rewrite normalized_length. exact Hn. }
  destruct (windows_sizes nd W H n Hnd) as [Hw Ht].
  do 4 eexists. exists k, n.
  cbn [X_train y_train X_test y_test set_split set_normalization].
  repeat (split; [reflexivity |]).
  split; [exact Hn |]. split; [exact Hk |].
  rewrite Hrest, Hks.
  split; [| split; [| split]].
  - apply wrapped_has_shape.
    + rewrite length_firstn, windows_length. lia.
    + now apply Forall_firstn'.
  - cbn [has_shape]. split; [reflexivity |].
    split; [rewrite length_firstn, targets_length; lia | now apply Forall_firstn'].
  - apply wrapped_has_shape.
    + rewrite length_skipn, windows_length. reflexivity.
    + now apply Forall_skipn'.
  - cbn [has_shape]. split; [reflexivity |].
    split; [rewrite length_skipn, targets_length; reflexivity | now apply Forall_skipn'].
Qed.

Lemma prepareData_shapes_witness :
  (0 <= 1 # 5 <= 1)%Q /\
  exists dl' xtr yte,
    prepareData (rt := test_runtime) 3 2 (1 # 5) eight_returns = (Normal tt, dl') /\
    X_train dl' = Some xtr /\ has_shape xtr 3 3 /\
    y_test dl' = Some yte /\ has_shape yte 1 2.
Proof.
  assert (Hts : (0 <= 1 # 5 <= 1)%Q) by (split; discriminate).
  assert (Hrun : prepareData (rt := test_runtime) 3 2 (1 # 5) eight_returns
                 = (Normal tt, snd (prepareData (rt := test_runtime) 3 2 (1 # 5) eight_returns)))
    by (vm_compute; reflexivity).
  split; [exact Hts |].
  destruct (prepareData_shapes test_runtime 3 2 (1 # 5) eight_returns _ Hts Hrun)
    as (xtr & ytr & xte & yte & k & n & H1 & _ & _ & H4 & _).
  exists (snd (prepareData (rt := test_runtime) 3 2 (1 # 5) eight_returns)).
  vm_compute in H1. injection H1 as <-.
  vm_compute in H4. injection H4 as <-.
  do 2 eexists. split; [exact Hrun |].
  split; [vm_compute; reflexivity |].
  split; [cbn; repeat (split || constructor) |].
  split; [vm_compute; reflexivity |].
  cbn; repeat (split || constructor).
Defined.

(** [prepareData] does not check its window size.  With a window size of 0
    and samples to make, every window is an empty array, [tf.tensor3d] or the
    making of the index arrays throws, and the error leaves [prepareData]
    after [min], [max] and [normalizedData] were stored from the returns;
    [y_test] is never reached. *)
Theorem prepareData_window_zero (rt : Runtime) (H : nat) (ts : Q)
    (dl : DataLoader.t) :
  returns dl <> [] ->
  0 < total_samples (length (returns dl)) 0 H ->
  exists message dl',
    prepareData 0 H ts dl = (Throw message, dl') /\
    min dl' = Some (Math_min (returns dl)) /\
    max dl' = Some (Math_max (returns dl)) /\
    normalizedData dl' = Some (normalized (returns dl)) /\
    returns dl' = returns dl /\
    y_test dl' = y_test dl.
Proof.
  intros Hne Hpos.
  destruct (prepareData 0 H ts dl) as [[[] | message] dl'] eqn:Hrun.
  - apply prepareData_normal_inv in Hrun.
    destruct Hrun as (_ & _ & s & _ & _ & HW & _). lia.
  - exists message, dl'. split; [reflexivity |].
    pose proof (prepareData_steps 0 H ts dl Hne Hpos) as Hsteps.
    cbv zeta in Hsteps. rewrite Hrun in Hsteps. revert Hsteps.
    repeat match goal with
           | |- context [match ?c with Normal _ => _ | Throw _ => _ end] =>
               destruct c
           end;
      intros Hsteps; try discriminate Hsteps;
      injection Hsteps as _ ->; repeat split.
Qed.

Lemma prepareData_window_zero_witness :
  returns eight_returns <> [] /\
  exists message dl',
    prepareData (rt := test_runtime) 0 2 (1 # 5) eight_returns
    = (Throw message, dl') /\
    normalizedData dl' = Some (normalized (returns eight_returns)).
Proof.
  assert (H1 : returns eight_returns <> []) by discriminate.
  split; [exact H1 |].
  destruct (prepareData_window_zero test_runtime 2 (1 # 5) eight_returns H1
              ltac:(reflexivity))
    as (message & dl' & Hrun & _ & _ & Hn & _).
  exists message, dl'. split; assumption.
Defined.

(** ** The application: reloading, predicting, charting *)

Lemma slice_from_last {A} (l : list A) (k : nat) :
  (0 < k)%nat -> slice_from l (- Z.of_nat k) = skipn (length l - k) l.
Proof.
  intros Hk. destruct (slice_cut l (- Z.of_nat k)) as (_ & -> & _).
  f_equal. unfold relative_index. destruct (Z.ltb_spec (- Z.of_nat k) 0); lia.
Qed.

Section AppFacts.

Context {rt : Runtime}.

Lemma denormalize_keeps_state (value : number) (dl : DataLoader.t) :
  snd (denormalize value dl) = dl.
Proof.
  unfold denormalize, bind, this. destruct (min dl), (max dl); reflexivity.
Qed.

(** [row.map(pred => this.dataLoader.denormalize(pred))] *)
Lemma denormalize_all (row : list number) (dl : DataLoader.t) :
  exists r,
    map_method denormalize row dl = (r, dl) /\
    forall ds, r = Normal ds ->
      Forall2 (fun v d => denormalize v dl = (Normal d, dl)) row ds.
Proof.
  induction row as [| v row (r & IHs & IHv)]; cbn [map_method].
  - eexists. split; [reflexivity |]. intros ds H. injection H as <-. constructor.
  - unfold bind at 1.
    pose proof (denormalize_keeps_state v dl) as Hs.
    destruct (denormalize v dl) as [[d | e] dl1] eqn:Hd; cbn [snd] in Hs; subst dl1.
    2: { eexists. split; [reflexivity | discriminate]. }
    unfold bind at 1. rewrite IHs.
    destruct r as [ds' | e].
    2: { eexists. split; [reflexivity | discriminate]. }
    eexists. split; [reflexivity |]. intros ds H. injection H as <-.
    constructor; [exact Hd | now apply IHv].
Qed.

Lemma displayPredictions_keeps_state (app : StockPredictorApp.t) :
  snd (displayPredictions app) = app.
Proof.
  unfold displayPredictions, bind, this.
  destruct (data (dataLoader app)) as [d |]; [| reflexivity].
  destruct (nth_error d (length d - 1)); [| reflexivity].
  destruct (predictions app); reflexivity.
Qed.

End AppFacts.

(** [loadData] never throws, and before it fetches anything it resets the
    model to the state of its constructor and forgets the predictions: these
    stay so when the download or [prepareData] fails.  The loader ends as
    [dispose], [loadCSVFromGitHub] and, when the download succeeded,
    [prepareData] on the defaults leave it; after a failed download that is
    the old loader without its tensors. *)
Theorem loadData_never_throws (rt : Runtime) (fetched : completion string)
    (app : StockPredictorApp.t) :
  let dl0 := snd (DataLoader.dispose (dataLoader app)) in
  exists app',
    loadData fetched app = (Normal tt, app') /\
    predictions app' = None /\
    StockPredictorApp.model app'
    = GRU.constructor (windowSize (StockPredictorApp.model app))
                      (predictionHorizon (StockPredictorApp.model app)) /\
    isTraining app' = isTraining app /\
    dataLoader app'
    = match loadCSVFromGitHub fetched dl0 with
      | (Normal _, dl1) => snd (prepareData 60 5 (1 # 5) dl1)
      | (Throw _, dl1) => dl1
      end /\
    (forall error, fetched = Throw error -> dataLoader app' = dl0).
Proof.
  cbv zeta.
  unfold loadData, loadData_body, try_catch, bind, on_dataLoader, on_model,
    assign, set_predictions, DataLoader.dispose, GRU.dispose, bind, assign.
  cbn [dataLoader StockPredictorApp.model isTraining predictions fst snd].
  match goal with
  | |- context [loadCSVFromGitHub fetched ?d] =>
      pose proof (loadCSVFromGitHub_state fetched d) as Hstate;
      destruct (loadCSVFromGitHub fetched d) as [[got | e] dl1] eqn:Hload
  end; cbn [dataLoader StockPredictorApp.model isTraining predictions fst snd].
  - destruct (prepareData 60 5 (1 # 5) dl1) as [[[] | e] dl2] eqn:Hprep;
      eexists; (split; [reflexivity |]);
      cbn [dataLoader StockPredictorApp.model isTraining predictions fst snd];
      repeat split; intros error ->; discriminate.
  - eexists. split; [reflexivity |].
    cbn [dataLoader StockPredictorApp.model isTraining predictions fst snd].
    repeat split.
    intros error ->. cbn [snd] in Hstate. exact Hstate.
Qed.

(** On an application where there is nothing to dispose of and no
    prediction, as the constructor leaves it, [autoLoadData] does what
    [loadData] does. *)
Theorem autoLoadData_is_loadData (rt : Runtime) (fetched : completion string)
    (app : StockPredictorApp.t) :
  snd (DataLoader.dispose (dataLoader app)) = dataLoader app ->
  snd (GRU.dispose (StockPredictorApp.model app)) = StockPredictorApp.model app ->
  predictions app = None ->
  autoLoadData fetched app = loadData fetched app.
Proof.
  intros Hdl Hg Hp.
  unfold DataLoader.dispose, assign in Hdl. cbn [snd] in Hdl.
  unfold GRU.dispose, bind, assign in Hg. cbn [snd] in Hg.
  unfold autoLoadData, loadData, loadData_body, try_catch, bind, on_dataLoader,
    on_model, assign, set_predictions, DataLoader.dispose, GRU.dispose, bind, assign.
  cbn [dataLoader StockPredictorApp.model isTraining predictions fst snd].
  rewrite Hdl, Hg, Hp. reflexivity.
Qed.

Lemma autoLoadData_is_loadData_witness :
  autoLoadData (rt := test_runtime) (Normal csv66) StockPredictorApp.constructor
  = loadData (rt := test_runtime) (Normal csv66) StockPredictorApp.constructor.
Proof.
  apply (autoLoadData_is_loadData test_runtime (Normal csv66)
           StockPredictorApp.constructor); reflexivity.
Defined.

(** [makePredictions] never throws and changes nothing but the predictions.
    It replaces them only when the model answered the last [windowSize]
    values of the normalized series, as one window of shape
    [1, windowSize, 1], with at least one row, and every value of the first
    row could be denormalized; the new predictions are those denormalized
    values.  In every other case the old predictions stay. *)
Theorem makePredictions_only_predictions (rt : Runtime) (app : StockPredictorApp.t) :
  exists app',
    makePredictions app = (Normal tt, app') /\
    dataLoader app' = dataLoader app /\
    StockPredictorApp.model app' = StockPredictorApp.model app /\
    isTraining app' = isTraining app /\
    (predictions app' = predictions app \/
     exists normalizedData row rows denormalized,
       let W := windowSize (StockPredictorApp.model app) in
       let lastWindow := slice_from normalizedData (- Z.of_nat W) in
       isTrained (StockPredictorApp.model app) = true /\
       DataLoader.normalizedData (dataLoader app) = Some normalizedData /\
       (W <= length normalizedData)%nat /\
       ((0 < W)%nat ->
        lastWindow = skipn (length normalizedData - W) normalizedData /\
        length lastWindow = W) /\
       fst (GRU.predict
              (Some (tensor3d [map (fun val => [val]) lastWindow] [1; Z.of_nat W; 1]))
              (StockPredictorApp.model app))
       = Normal (row :: rows) /\
       Forall2 (fun v d => denormalize v (dataLoader app) = (Normal d, dataLoader app))
               row denormalized /\
       predictions app' = Some denormalized).
Proof.
  unfold makePredictions, try_catch. unfold bind at 1, this at 1.
  destruct (isTrained (StockPredictorApp.model app)) eqn:Htrained; cbn [negb].
  2: { exists app. cbn. repeat split. now left. }
  destruct (DataLoader.normalizedData (dataLoader app)) as [nd |] eqn:Hnd.
  2: { exists app. cbn. repeat split. now left. }
  destruct (Nat.ltb_spec (length nd) (windowSize (StockPredictorApp.model app)))
    as [Hshort | Hlong].
  { exists app. cbn. repeat split. now left. }
  unfold bind at 1. unfold lift at 1.
  match goal with
  | |- context [tf.tensor3d ?values ?shape] =>
      destruct (tf.tensor3d values shape) as [inputTensor | e] eqn:Hinput
  end.
  2: { exists app. cbn. repeat split. now left. }
  apply tensor3d_created in Hinput. destruct Hinput as (dims & Hdims & ->).
  unfold of_Z in Hdims. cbn [tf.dimensions] in Hdims.
  rewrite (dimension_integer 1 1) in Hdims by reflexivity.
  rewrite (dimension_integer _ (Z.of_nat (windowSize (StockPredictorApp.model app))))
    in Hdims by reflexivity.
  change (0 <=? 1) with true in Hdims.
  destruct (Z.leb_spec 0 (Z.of_nat (windowSize (StockPredictorApp.model app))))
    as [_ | Hneg]; [| lia].
  injection Hdims as <-.
  unfold bind at 1. unfold on_model at 1.
  match goal with
  | |- context [GRU.predict ?X ?g] =>
      pose proof (predict_keeps_state X g) as Hkeep;
      destruct (GRU.predict X g) as [[[| row rows] | e] g1] eqn:Hpredict
  end; cbn [snd] in Hkeep; subst g1.
  1, 3: (eexists; split; [reflexivity |]; cbn; repeat split; now left).
  unfold bind at 1. unfold on_dataLoader at 1. cbn [dataLoader].
  destruct (denormalize_all row (dataLoader app)) as (r & -> & Hv).
  destruct r as [ds | e].
  2: { eexists. split; [reflexivity |]. cbn. repeat split. now left. }
  unfold bind at 1. unfold assign at 1.
  unfold bind at 1.
  match goal with
  | |- context [displayPredictions ?a] =>
      pose proof (displayPredictions_keeps_state a) as Hdisplay;
      destruct (displayPredictions a) as [[cards | e] app1] eqn:Hcards
  end; cbn [snd] in Hdisplay; subst app1;
    (eexists; split; [reflexivity |];
     cbn [dataLoader StockPredictorApp.model isTraining predictions set_predictions];
     do 3 (split; [reflexivity |]); right;
     exists nd, row, rows, ds; cbv zeta;
     split; [reflexivity |]; split; [reflexivity |]; split; [exact Hlong |];
     split;
     [ intros Hpos; rewrite slice_from_last by exact Hpos;
       split; [reflexivity | rewrite length_skipn; lia]
     | split; [now rewrite Hpredict |]; split; [now apply Hv | reflexivity] ]).
Qed.

Lemma slice_from_last_20 {A} (l : list A) :
  slice_from l (-20) = skipn (length l - 20) l.
Proof. apply (slice_from_last l 20). lia. Qed.

(** [createPredictionChart] draws nothing without data or without
    predictions.  Otherwise its four arrays have one entry for each of the
    last 20 returns (all of them when there are fewer), one for today and
    one for each prediction: the bars are the returns and the predictions
    in percent around a 0 for today, the label of today comes after the
    past days, and each border colour is the bar's colour with opacity 1. *)
Theorem createPredictionChart_aligned (rt : Runtime) (app : StockPredictorApp.t) :
  (createPredictionChart app = None <->
   data (dataLoader app) = None \/ predictions app = None) /\
  forall c, createPredictionChart app = Some c ->
    exists preds,
      let rets := returns (dataLoader app) in
      let n := Nat.min 20 (length rets) in
      let k := length preds in
      predictions app = Some preds /\
      length (ChartData.labels c) = (n + 1 + k)%nat /\
      length (ChartData.data c) = (n + 1 + k)%nat /\
      length (ChartData.backgroundColor c) = (n + 1 + k)%nat /\
      length (ChartData.borderColor c) = (n + 1 + k)%nat /\
      ChartData.data c
      = map (fun r => mul r (Fin 100)) (skipn (length rets - 20) rets)
        ++ [Fin 0] ++ map (fun r => mul r (Fin 100)) preds /\
      nth_error (ChartData.labels c) n = Some "Today"%string /\
      ChartData.borderColor c
      = repeat "rgba(255, 107, 129, 1)"%string n
        ++ ["rgba(255, 255, 255, 1)"%string]
        ++ repeat "rgba(144, 238, 144, 1)"%string k.
Proof.
  unfold createPredictionChart, getHistoricalData.
  destruct (data (dataLoader app)) as [d |].
  2: { split; [split; [now left | reflexivity] | discriminate]. }
  destruct (predictions app) as [preds |].
  2: { split; [split; [now right | reflexivity] | discriminate]. }
  split.
  { split; [discriminate | intros [H | H]; discriminate]. }
  intros c H. injection H as <-. exists preds. cbv zeta.
  cbn [hist_returns ChartData.labels ChartData.data ChartData.backgroundColor
       ChartData.borderColor].
  rewrite !slice_from_last_20.
  assert (Hn : length (skipn (length (returns (dataLoader app)) - 20)
                         (returns (dataLoader app)))
               = Nat.min 20 (length (returns (dataLoader app))))
    by (rewrite length_skipn; lia).
  rewrite Hn.
  split; [reflexivity |].
  split.
  { unfold Array_from. lengths. lia. }
  split.
  { lengths. rewrite Hn. lia. }
  split.
  { lengths. lia. }
  split.
  { rewrite length_map; lengths. lia. }
  split; [reflexivity |].
  split.
  { unfold Array_from. rewrite nth_error_app2; lengths; rewrite ?Nat2Z.id; [| lia].
    rewrite Nat.sub_diag. reflexivity. }
  rewrite map_app, map_repeat. cbn [map]. rewrite map_repeat. reflexivity.
Qed.

(** [dispose] of the application never throws.  It leaves the series and
    the last predictions, so the prediction chart can still be drawn as
    before, but the normalized series is gone and the model is untrained:
    [makePredictions] then changes nothing. *)
Theorem dispose_keeps_predictions (rt : Runtime) (app : StockPredictorApp.t) :
  exists app1,
    StockPredictorApp.dispose app = (Normal tt, app1) /\
    predictions app1 = predictions app /\
    data (dataLoader app1) = data (dataLoader app) /\
    returns (dataLoader app1) = returns (dataLoader app) /\
    normalizedData (dataLoader app1) = None /\
    isTrained (StockPredictorApp.model app1) = false /\
    createPredictionChart app1 = createPredictionChart app /\
    makePredictions app1 = (Normal tt, app1).
Proof.
  eexists. split; [reflexivity |].
  cbn [dataLoader StockPredictorApp.model isTraining predictions fst snd
       DataLoader.dispose assign data returns normalizedData].
  repeat split; try reflexivity.
  unfold createPredictionChart, getHistoricalData.
  cbn [dataLoader predictions data returns].
  destruct (data (dataLoader app)); reflexivity.
Qed.

(** ** Loads that fail *)

(** A download that fails leaves the loader as it was.  A file with fewer
    than 65 kept rows also makes [loadCSVFromGitHub] throw, but only after
    the loader took it in: the series, the returns and the date labels are
    then those of the short file, beside the normalized series, the bounds
    and the tensors of the data before.  Both errors are wrapped in "Failed
    to load data from GitHub: ". *)
Theorem short_file_replaces_series (rt : Runtime) (content : string)
    (dl : DataLoader.t) :
  (length (retained content) < 65)%nat ->
  (forall error,
     loadCSVFromGitHub (Throw error) dl
     = (Throw ("Failed to load data from GitHub: " ++ error)%string, dl)) /\
  exists dl',
    loadCSVFromGitHub (Normal content) dl
    = (Throw ("Failed to load data from GitHub: "
              ++ "Insufficient data. Need at least 65 days, got "
              ++ show_nat (length (retained content)))%string, dl') /\
    data dl' = Some (sort compare_dates (retained content)) /\
    returns dl' = compute_returns (sort compare_dates (retained content)) /\
    dateLabels dl' = map date (retained content) /\
    normalizedData dl' = normalizedData dl /\
    min dl' = min dl /\ max dl' = max dl /\
    X_train dl' = X_train dl /\ y_train dl' = y_train dl /\
    X_test dl' = X_test dl /\ y_test dl' = y_test dl.
Proof.
  intros Hshort. split; [reflexivity |].
  pose proof (parseCSV_run content dl) as Hrun. cbv zeta in Hrun.
  pose proof (Permutation_length (sort_perm compare_dates (retained content))) as Hlen.
  rewrite Hlen in Hrun.
  destruct (Nat.ltb_spec (length (retained content)) 65) as [_ | Hge]; [| lia].
  eexists. split.
  - unfold loadCSVFromGitHub, try_catch. unfold bind at 1. rewrite Hrun. reflexivity.
  - cbn. repeat split.
Qed.

Lemma short_file_replaces_series_witness :
  exists dl',
    loadCSVFromGitHub (rt := test_runtime) (Normal csv_latest_first)
      (snd (parseCSV (rt := test_runtime) csv66 DataLoader.constructor))
    = (Throw "Failed to load data from GitHub: Insufficient data. Need at least 65 days, got 3",
       dl') /\
    option_map (@length PricePoint) (data dl') = Some 3%nat.
Proof.
  assert (Hshort : (length (retained csv_latest_first) < 65)%nat)
    by (vm_compute; lia).
  destruct (short_file_replaces_series test_runtime csv_latest_first
              (snd (parseCSV (rt := test_runtime) csv66 DataLoader.constructor)) Hshort)
    as (_ & dl' & Hload & Hdata & _).
  exists dl'. split; [exact Hload |].
  rewrite Hdata. vm_compute. reflexivity.
Defined.
